(** * HackRX document question-answering service: the document-to-answer pipeline

    A shallow embedding of [app_simple.py]: the helpers
    [extract_text_from_pdf], [extract_text_from_docx], [download_document],
    [process_with_gemini] and the two request handlers
    [process_document_url] (POST /hackrx/run) and [process_file_upload]
    (POST /hackrx/upload).

    Modelling choices.
    - A Python [str] is a [string] whose characters are code points below 256;
      [bytes] are a [string] too.  [str.lower], [str.strip] follow CPython on
      that range.
    - Python integers are [Z].
    - The outside world (HTTP client, PDF and DOCX parsers, JSON decoder,
      generative model, temporary-file naming, clock) is an interface
      [External]; the code is a state-and-exception monad over a [World] that
      holds the filesystem, the state of the model service and a chronological
      trace of the external calls made.
    - Creating a temporary file and filling it has three outcomes, chosen by
      the outside world: the file is written; its creation raises and there
      is no file; the file is created and the read or write in the [with]
      block raises, which leaves the file behind.
    - The bearer-token dependency [verify_token] and the framework's parsing
      of a request are outside the pipeline and are not modelled; of the
      request models only the [min_items=1] constraint of [QueryRequest]
      is, as [QueryRequest_validate]. *)

From Stdlib Require Import ZArith Ascii String DecimalString List Lia Bool.
From stdpp Require Import base option list strings gmap.

Local Open Scope Z_scope.

(** ** Python strings *)

Module PyStr.

Definition len (s : string) : Z := Z.of_nat (String.length s).

Definition nl : string := String "010"%char EmptyString.
Definition dquote : string := String (ascii_of_nat 34) EmptyString.

(** Index normalisation of a slice bound (step 1), as CPython's
    PySlice_AdjustIndices: a negative bound counts from the end, and the
    result is clipped to [0, n]. *)
Definition adjust_index (n : Z) (default : Z) (i : option Z) : Z :=
  match i with
  | None => default
  | Some i =>
      let i := if i <? 0 then i + n else i in
      if i <? 0 then 0 else if n <=? i then n else i
  end.

(** [s[start:stop]] *)
Definition slice (start stop : option Z) (s : string) : string :=
  let n := len s in
  let a := adjust_index n 0 start in
  let b := adjust_index n n stop in
  String.substring (Z.to_nat a) (Z.to_nat (b - a)) s.

(** [s.endswith(suffix)] *)
Definition endswith (s suffix : string) : bool :=
  (len suffix <=? len s) &&
  String.eqb (slice (Some (len s - len suffix)) None s) suffix.

(** [c.isspace()] for a code point below 256: TAB..CR, FS..US, space,
    NEL (0x85) and NBSP (0xA0). *)
Definition isspace (c : ascii) : bool :=
  let n := Z.of_N (N_of_ascii c) in
  ((9 <=? n) && (n <=? 13)) || ((28 <=? n) && (n <=? 32))
  || (n =? 133) || (n =? 160).

Fixpoint lstrip (s : string) : string :=
  match s with
  | EmptyString => EmptyString
  | String c s' => if isspace c then lstrip s' else s
  end.

Fixpoint rstrip (s : string) : string :=
  match s with
  | EmptyString => EmptyString
  | String c s' =>
      match rstrip s' with
      | EmptyString => if isspace c then EmptyString else String c EmptyString
      | r => String c r
      end
  end.

(** [s.strip()]: drop the whitespace run at the left end, then the one at
    the right end. *)
Definition strip (s : string) : string := rstrip (lstrip s).

(** [c.lower()] for a code point below 256: A..Z and the Latin-1 capitals
    0xC0..0xDE (the multiplication sign 0xD7 apart) move up by 32. *)
Definition lower_char (c : ascii) : ascii :=
  let n := Z.of_N (N_of_ascii c) in
  if ((65 <=? n) && (n <=? 90))
     || ((192 <=? n) && (n <=? 222) && negb (n =? 215))
  then ascii_of_N (Z.to_N (n + 32))
  else c.

Fixpoint lower (s : string) : string :=
  match s with
  | EmptyString => EmptyString
  | String c s' => String (lower_char c) (lower s')
  end.

(** [s.rfind(c)] for a one-character needle; [i] is the index of the head
    of [s] in the whole string.  -1 when [c] does not occur. *)
Fixpoint rfind_from (c : ascii) (s : string) (i : Z) : Z :=
  match s with
  | EmptyString => -1
  | String a s' =>
      let r := rfind_from c s' (i + 1) in
      if 0 <=? r then r else if Ascii.eqb a c then i else -1
  end.

Definition rfind (s : string) (c : ascii) : Z := rfind_from c s 0.

(** ["\n".join(parts)] *)
Fixpoint join (sep : string) (parts : list string) : string :=
  match parts with
  | [] => EmptyString
  | [p] => p
  | p :: ps => p +:+ sep +:+ join sep ps
  end.

Definition first_char (s : string) : option ascii :=
  match s with
  | EmptyString => None
  | String c _ => Some c
  end.

Fixpoint last_char (s : string) : option ascii :=
  match s with
  | EmptyString => None
  | String c EmptyString => Some c
  | String _ s' => last_char s'
  end.

(** [needle in s] *)
Definition contains (s needle : string) : Prop :=
  exists pre post, s = pre +:+ needle +:+ post.

End PyStr.

(** ** [os.path.splitext] (posixpath: separator [/], no alternative
    separator, extension separator [.]) *)

Module OsPath.
Import PyStr.

(** The loop of [genericpath._splitext] that skips the leading dots of
    the last path component; [n] bounds the remaining iterations
    ([dotIndex - filenameIndex]). *)
Fixpoint skip_leading_dots (p : string) (dotIndex : Z) (n : nat)
    (filenameIndex : Z) : string * string :=
  match n with
  | O => (p, slice None (Some 0) p)
  | S n' =>
      if negb (String.eqb
                 (slice (Some filenameIndex) (Some (filenameIndex + 1)) p)
                 ".")
      then (slice None (Some dotIndex) p, slice (Some dotIndex) None p)
      else skip_leading_dots p dotIndex n' (filenameIndex + 1)
  end.

Definition splitext (p : string) : string * string :=
  let sepIndex := rfind p "/"%char in
  let dotIndex := rfind p "."%char in
  if sepIndex <? dotIndex then
    let filenameIndex := sepIndex + 1 in
    skip_leading_dots p dotIndex (Z.to_nat (dotIndex - filenameIndex))
      filenameIndex
  else (p, slice None (Some 0) p).

(** [os.path.basename]: [i = p.rfind('/') + 1; return p[i:]] *)
Definition basename (p : string) : string :=
  let i := rfind p "/"%char + 1 in
  slice (Some i) None p.

End OsPath.

(** ** Python values, exceptions and the outside world *)

(** A value decoded by [json.loads]; the questions reach
    [process_with_gemini] as such a value on both endpoints. *)
#[warnings="-register-all"]
Inductive pyvalue :=
| PyNone
| PyBool (b : bool)
| PyInt (n : Z)
| PyFloat (digits : string)
| PyStr (s : string)
| PyList (items : list pyvalue)
| PyDict (items : list (string * pyvalue)).

Inductive exn :=
| HTTPException (status_code : Z) (detail : string)
| RequestValidationError (detail : string)
| JSONDecodeError (msg : string)
| PyError (msg : string).

(** The external calls a request makes, each with what it was called on. *)
Inductive event :=
| EvHttpGet (url : string)
| EvTempCreate (path : string)
| EvPdfReader (path : string)
| EvDocument (path : string)
| EvGenerate (prompt : string) (response : string + string)
| EvUnlink (path : string).

(** How [json.loads] fails: with a JSONDecodeError, or with another
    exception (a ValueError for an integer of too many digits, a
    RecursionError for a text nested too deeply). *)
Inductive loads_error :=
| NotJson (msg : string)
| LoadsRaised (msg : string).

(** What becomes of [with tempfile.NamedTemporaryFile(delete=False, ...) as
    f: f.write(content)]: the file is written; or its creation raises and
    there is no file; or the file is created and the body of the [with]
    block raises, and the file stays with what had been written. *)
Inductive tmp_result :=
| TmpWritten
| TmpCreateFailed (msg : string)
| TmpWriteFailed (msg : string) (partial : string).

(** Everything the code calls and does not define.  A result [inl msg] is
    a raised exception whose [str] is [msg]. *)
Class External := {
  (** state of the generative-model service *)
  G : Type;
  (** [requests.get(url, timeout).raise_for_status()], then [.content] *)
  requests_get : string -> string + string;
  (** the name [tempfile.NamedTemporaryFile] picks, from the filesystem and
      the suffix *)
  mkstemp : gmap string string -> string -> string;
  (** whether creating that file and filling it with the content works,
      from the filesystem, the suffix and the content *)
  tempfile_outcome : gmap string string -> string -> string -> tmp_result;
  (** [PyPDF2.PdfReader(file).pages], each page with the outcome of its
      [extract_text()] *)
  PdfReader : string -> string + list (string + string);
  (** [docx.Document(path).paragraphs], each paragraph's [text] *)
  Document : string -> string + list string;
  (** [model.generate_content(prompt).text] *)
  generate_content : G -> string -> (string + string) * G;
  (** [json.loads] *)
  json_loads : string -> loads_error + pyvalue;
  (** [str(v)] of a value that is not a [str] *)
  py_repr : pyvalue -> string;
  (** [datetime.now().isoformat()] *)
  now_isoformat : string
}.

(** [for x in v] *)
Definition py_iter (v : pyvalue) : string + list pyvalue :=
  match v with
  | PyList items => inr items
  | PyStr s => inr (map (fun c => PyStr (String c EmptyString)) (list_ascii_of_string s))
  | PyDict items => inr (map (fun kv => PyStr (fst kv)) items)
  | PyNone => inl "'NoneType' object is not iterable"
  | PyBool _ => inl "'bool' object is not iterable"
  | PyInt _ => inl "'int' object is not iterable"
  | PyFloat _ => inl "'float' object is not iterable"
  end.

(** [len(v)] *)
Definition py_len (v : pyvalue) : string + Z :=
  match v with
  | PyList items => inr (Z.of_nat (length items))
  | PyStr s => inr (PyStr.len s)
  | PyDict items => inr (Z.of_nat (length items))
  | PyNone => inl "object of type 'NoneType' has no len()"
  | PyBool _ => inl "object of type 'bool' has no len()"
  | PyInt _ => inl "object of type 'int' has no len()"
  | PyFloat _ => inl "object of type 'float' has no len()"
  end.

(** [str(e)]; Starlette prints an HTTPException as its status, a colon and
    its detail. *)
Definition exn_str (e : exn) : string :=
  match e with
  | HTTPException status_code detail =>
      NilEmpty.string_of_int (Z.to_int status_code) +:+ ": " +:+ detail
  | RequestValidationError detail => detail
  | JSONDecodeError msg => msg
  | PyError msg => msg
  end.

(** The status the boundary layer answers with. *)
Definition status_of {A : Type} (r : exn + A) : Z :=
  match r with
  | inr _ => 200
  | inl (HTTPException status_code _) => status_code
  | inl (RequestValidationError _) => 422
  | inl _ => 500
  end.

(** ** Request and response models *)

Record QueryRequest := {
  documents : string;
  questions : list string
}.

Record UploadFile := {
  filename : string;
  file_content : string
}.

Record ModelInfo := {
  llm : string;
  text_length : Z
}.

(** The metadata dictionary; [document_url] is set by the URL endpoint
    only and [file_size] by the upload endpoint only. *)
Record Metadata := {
  document_url : option string;
  total_questions : Z;
  processing_timestamp : string;
  file_size : option Z;
  model_info : ModelInfo
}.

Record QueryResponse := {
  answers : list string;
  metadata : Metadata
}.

Record FileUploadResponse := {
  upload_answers : list string;
  upload_metadata : Metadata;
  upload_filename : string
}.

(** ** The text budget and the prompt *)

(** [text[:C]]; the code has C = 8000. *)
Definition budget (text : string) (C : Z) : string :=
  PyStr.slice None (Some C) text.

Definition fallback_phrase : string := "Information not found in the document.".

Definition indent : string := "            ".

Section Pipeline.
Context {E : External}.

(** [str(v)], as an f-string formats [{v}] *)
Definition py_str (v : pyvalue) : string :=
  match v with
  | PyStr s => s
  | _ => py_repr v
  end.

(** The f-string of [process_with_gemini], line by line. *)
Definition prompt (text : string) (question : pyvalue) : string :=
  PyStr.nl
  +:+ indent +:+ "Document Text:" +:+ PyStr.nl
  +:+ indent +:+ budget text 8000 +:+ "  # Limit text to avoid token limits" +:+ PyStr.nl
  +:+ indent +:+ PyStr.nl
  +:+ indent +:+ "Question: " +:+ py_str question +:+ PyStr.nl
  +:+ indent +:+ PyStr.nl
  +:+ indent +:+ "Please provide a clear, concise answer based on the document content. If the answer is not found in the document, say "
      +:+ PyStr.dquote +:+ fallback_phrase +:+ PyStr.dquote +:+ PyStr.nl
  +:+ indent.

(** *** State and exceptions *)

Record World := {
  fs : gmap string string;
  llm_state : G;
  trace : list event
}.

Definition M (A : Type) : Type := World -> (exn + A) * World.

Definition ret {A} (a : A) : M A := fun w => (inr a, w).

Definition raise {A} (e : exn) : M A := fun w => (inl e, w).

Definition bind {A B} (m : M A) (k : A -> M B) : M B :=
  fun w =>
    match m w with
    | (inr a, w') => k a w'
    | (inl e, w') => (inl e, w')
    end.

(** [try: m  except Exception as e: handler e] *)
Definition try_except {A} (m : M A) (handler : exn -> M A) : M A :=
  fun w =>
    match m w with
    | (inr a, w') => (inr a, w')
    | (inl e, w') => handler e w'
    end.

(** [try: m  finally: cleanup]: the cleanup runs on every exit of [m]; an
    exception of the cleanup replaces the outcome of [m]. *)
Definition try_finally {A} (m : M A) (cleanup : M unit) : M A :=
  fun w =>
    match m w with
    | (r, w') =>
        match cleanup w' with
        | (inr _, w'') => (r, w'')
        | (inl e, w'') => (inl e, w'')
        end
    end.

(** An external call that raises or returns. *)
Definition lift {A} (r : string + A) : M A :=
  match r with
  | inl msg => raise (PyError msg)
  | inr a => ret a
  end.

Definition emit (e : event) : M unit :=
  fun w => (inr tt, {| fs := fs w; llm_state := llm_state w; trace := trace w ++ [e] |}).

End Pipeline.

Arguments World {_}.
Arguments M {_} _.

Notation "x <- m ;; k" := (bind m (fun x => k))
  (at level 100, m at next level, right associativity).
Notation "m ;;; k" := (bind m (fun _ => k))
  (at level 100, right associativity).

(** ** The pipeline *)

Section Handlers.
Context {E : External}.

(** *** External calls, each leaving its event in the trace *)

Definition requests_get_content (url : string) : M string :=
  emit (EvHttpGet url) ;;; lift (requests_get url).

(** [with tempfile.NamedTemporaryFile(delete=False, suffix=suffix) as f:
    f.write(content)]; the result is [f.name].  The file is not deleted
    when the block is left, also when the block raises. *)
Definition NamedTemporaryFile (suffix content : string) : M string :=
  fun w =>
    let name := mkstemp (fs w) suffix in
    match tempfile_outcome (fs w) suffix content with
    | TmpCreateFailed msg => (inl (PyError msg), w)
    | TmpWriteFailed msg partial =>
        (inl (PyError msg),
         {| fs := <[name := partial]> (fs w);
            llm_state := llm_state w;
            trace := trace w ++ [EvTempCreate name] |})
    | TmpWritten =>
        (inr name,
         {| fs := <[name := content]> (fs w);
            llm_state := llm_state w;
            trace := trace w ++ [EvTempCreate name] |})
    end.

(** [open(path, 'rb').read()] *)
Definition open_rb (path : string) : M string :=
  fun w =>
    match fs w !! path with
    | Some content => (inr content, w)
    | None =>
        (inl (PyError ("[Errno 2] No such file or directory: '"
                       +:+ path +:+ "'")), w)
    end.

Definition os_path_exists (path : string) : M bool :=
  fun w => (inr (bool_decide (is_Some (fs w !! path))), w).

Definition os_unlink (path : string) : M unit :=
  fun w =>
    match fs w !! path with
    | Some _ =>
        (inr tt,
         {| fs := delete path (fs w);
            llm_state := llm_state w;
            trace := trace w ++ [EvUnlink path] |})
    | None =>
        (inl (PyError ("[Errno 2] No such file or directory: '"
                       +:+ path +:+ "'")), w)
    end.

(** [docx.Document(path)]: the package is given the path and opens the
    file itself; with no file at the path it is the package that raises,
    PackageNotFoundError. *)
Definition docx_Document (path : string) : M (list string) :=
  emit (EvDocument path) ;;;
  (fun w =>
     match fs w !! path with
     | Some content => lift (Document content) w
     | None =>
         (inl (PyError ("Package not found at '" +:+ path +:+ "'")), w)
     end).

(** [model.generate_content(prompt)] followed by [response.text] *)
Definition model_generate_content (prompt : string) : M string :=
  fun w =>
    let '(r, g') := generate_content (llm_state w) prompt in
    let w' := {| fs := fs w; llm_state := g';
                 trace := trace w ++ [EvGenerate prompt r] |} in
    match r with
    | inl msg => (inl (PyError msg), w')
    | inr text => (inr text, w')
    end.

(** *** Helper functions of the application *)

(** [for page in pdf_reader.pages: text += page.extract_text() + "\n"];
    the loop touches nothing but [text], and the first page whose
    extraction raises ends it. *)
Fixpoint extract_pages (pages : list (string + string)) (text : string)
    : string + string :=
  match pages with
  | [] => inr text
  | inl msg :: _ => inl msg
  | inr page_text :: rest =>
      extract_pages rest (text +:+ (page_text +:+ PyStr.nl))
  end.

Definition extract_text_from_pdf (file_path : string) : M string :=
  try_except
    (content <- open_rb file_path ;;
     emit (EvPdfReader file_path) ;;;
     pages <- lift (PdfReader content) ;;
     lift (extract_pages pages EmptyString))
    (fun e =>
       raise (HTTPException 500 ("Error processing PDF: " +:+ exn_str e))).

Definition extract_text_from_docx (file_path : string) : M string :=
  try_except
    (paragraphs <- docx_Document file_path ;;
     ret (PyStr.join PyStr.nl paragraphs))
    (fun e =>
       raise (HTTPException 500 ("Error processing DOCX: " +:+ exn_str e))).

Definition download_document (url : string) : M string :=
  try_except
    (content <- requests_get_content url ;;
     NamedTemporaryFile ".pdf" content)
    (fun e =>
       raise (HTTPException 400
                ("Error downloading document: " +:+ exn_str e))).

(** The loop of [process_with_gemini]: one prompt, one model call and one
    [answers.append] per question. *)
Fixpoint ask_each (text : string) (qs : list pyvalue) (answers : list string)
    : M (list string) :=
  match qs with
  | [] => ret answers
  | question :: rest =>
      response_text <- model_generate_content (prompt text question) ;;
      ask_each text rest (answers ++ [PyStr.strip response_text])
  end.

Definition process_with_gemini (text : string) (questions : pyvalue)
    : M (list string) :=
  try_except
    (qs <- lift (py_iter questions) ;;
     ask_each text qs [])
    (fun e =>
       raise (HTTPException 500 ("Error processing with AI: " +:+ exn_str e))).

(** The [finally] block of both handlers. *)
Definition cleanup (temp_file : string) : M unit :=
  present <- os_path_exists temp_file ;;
  if (present : bool) then os_unlink temp_file else ret tt.

(** *** POST /hackrx/run *)

Definition process_document_url (request : QueryRequest)
    : M QueryResponse :=
  try_except
    (temp_file <- download_document (documents request) ;;
     try_finally
       (text <- (if PyStr.endswith (PyStr.lower temp_file) ".pdf"
                 then extract_text_from_pdf temp_file
                 else extract_text_from_pdf temp_file) ;;
        answers <- process_with_gemini text
                     (PyList (map PyStr (questions request))) ;;
        ret {| answers := answers;
               metadata :=
                 {| document_url := Some (documents request);
                    total_questions := Z.of_nat (length (questions request));
                    processing_timestamp := now_isoformat;
                    file_size := None;
                    model_info :=
                      {| llm := "gemini-pro";
                         text_length := PyStr.len text |} |} |})
       (cleanup temp_file))
    (fun e =>
       match e with
       | HTTPException _ _ => raise e
       | _ => raise (HTTPException 500
                       ("Internal server error: " +:+ exn_str e))
       end).

(** The request model: [questions] has [min_items=1]; the framework
    answers 422 when the body does not validate and the handler does not
    run. *)
Definition QueryRequest_validate (request : QueryRequest) : M QueryRequest :=
  if Z.of_nat (length (questions request)) <? 1
  then raise (RequestValidationError "ensure this value has at least 1 items")
  else ret request.

Definition post_hackrx_run (request : QueryRequest) : M QueryResponse :=
  request <- QueryRequest_validate request ;;
  process_document_url request.

(** *** POST /hackrx/upload *)

Definition allowed_extensions : list string := [".pdf"; ".doc"; ".docx"].

Definition process_file_upload (file : UploadFile) (questions : string)
    : M FileUploadResponse :=
  try_except
    (questions_list <-
       match json_loads questions with
       | inl (NotJson msg) => raise (JSONDecodeError msg)
       | inl (LoadsRaised msg) => raise (PyError msg)
       | inr v => ret v
       end ;;
     let file_ext := PyStr.lower (snd (OsPath.splitext (filename file))) in
     (if bool_decide (file_ext ∈ allowed_extensions) then ret tt
      else raise (HTTPException 400
                    ("Unsupported file type: " +:+ file_ext))) ;;;
     let content := file_content file in
     temp_file_path <- NamedTemporaryFile file_ext content ;;
     try_finally
       (text <- (if String.eqb file_ext ".pdf"
                 then extract_text_from_pdf temp_file_path
                 else if bool_decide (file_ext ∈ [".doc"; ".docx"])
                 then extract_text_from_docx temp_file_path
                 else raise (HTTPException 400 "Unsupported file format")) ;;
        answers <- process_with_gemini text questions_list ;;
        total <- lift (py_len questions_list) ;;
        ret {| upload_answers := answers;
               upload_metadata :=
                 {| document_url := None;
                    total_questions := total;
                    processing_timestamp := now_isoformat;
                    file_size := Some (PyStr.len content);
                    model_info :=
                      {| llm := "gemini-pro";
                         text_length := PyStr.len text |} |};
               upload_filename := filename file |})
       (cleanup temp_file_path))
    (fun e =>
       match e with
       | JSONDecodeError _ =>
           raise (HTTPException 400 "Invalid JSON format for questions")
       | HTTPException _ _ => raise e
       | _ => raise (HTTPException 500
                       ("Internal server error: " +:+ exn_str e))
       end).

End Handlers.

(** ** What the outside world answers, read off its interface *)

Section Outcomes.
Context {E : External}.

(** What PDF extraction of a file with this content raises or returns,
    before the helper wraps a failure. *)
Definition pdf_outcome (content : string) : string + string :=
  match PdfReader content with
  | inl msg => inl msg
  | inr pages => extract_pages pages EmptyString
  end.

Definition docx_outcome (content : string) : string + string :=
  match Document content with
  | inl msg => inl msg
  | inr paragraphs => inr (PyStr.join PyStr.nl paragraphs)
  end.

(** The responses of the model service to a sequence of prompts sent one
    after the other, starting in state [g]. *)
Fixpoint replies (g : G) (prompts : list string) : list (string + string) :=
  match prompts with
  | [] => []
  | p :: ps => let '(r, g') := generate_content g p in r :: replies g' ps
  end.

(** The service answers the first [k] prompts ([rs]) and fails on the
    next one with [msg]. *)
Definition first_failure (g : G) (prompts : list string) (k : nat)
    (rs : list string) (msg : string) : Prop :=
  take k (replies g prompts) = map inr rs /\
  replies g prompts !! k = Some (inl msg).

Definition gen_events (text : string) (qs : list pyvalue)
    (rs : list (string + string)) : list event :=
  zip_with (fun q r => EvGenerate (prompt text q) r) qs rs.

(** The events a request added to the trace. *)
Definition new_events (w w' : World) : list event :=
  drop (length (trace w)) (trace w').

End Outcomes.

(** ** The runs of the two handlers, case by case

    Each constructor is one way through a handler: what the outside world
    answered, the result the caller gets, the filesystem afterwards and the
    external calls made, in order. *)

Section RunShapes.
Context {E : External}.

(** The name of the temporary file of a request that starts in [w]. *)
Definition temp_name (w : World) (suffix : string) : string :=
  mkstemp (fs w) suffix.

(** The filesystem after the temporary file was written and removed. *)
Definition fs_after (w : World) (suffix content : string)
    : gmap string string :=
  delete (temp_name w suffix) (<[temp_name w suffix := content]> (fs w)).

Definition url_response (request : QueryRequest) (text : string)
    (rs : list string) : QueryResponse :=
  {| answers := map PyStr.strip rs;
     metadata :=
       {| document_url := Some (documents request);
          total_questions := Z.of_nat (length (questions request));
          processing_timestamp := now_isoformat;
          file_size := None;
          model_info :=
            {| llm := "gemini-pro"; text_length := PyStr.len text |} |} |}.

Inductive url_run (request : QueryRequest) (w : World)
  : exn + QueryResponse -> gmap string string -> list event -> Prop :=
| url_download_failed (msg : string) :
    requests_get (documents request) = inl msg ->
    url_run request w
      (inl (HTTPException 400 ("Error downloading document: " +:+ msg)))
      (fs w)
      [EvHttpGet (documents request)]
| url_temp_create_failed (content msg : string) :
    requests_get (documents request) = inr content ->
    tempfile_outcome (fs w) ".pdf" content = TmpCreateFailed msg ->
    url_run request w
      (inl (HTTPException 400 ("Error downloading document: " +:+ msg)))
      (fs w)
      [EvHttpGet (documents request)]
| url_temp_write_failed (content msg partial : string) :
    requests_get (documents request) = inr content ->
    tempfile_outcome (fs w) ".pdf" content = TmpWriteFailed msg partial ->
    url_run request w
      (inl (HTTPException 400 ("Error downloading document: " +:+ msg)))
      (<[temp_name w ".pdf" := partial]> (fs w))
      [EvHttpGet (documents request); EvTempCreate (temp_name w ".pdf")]
| url_extraction_failed (content msg : string) :
    requests_get (documents request) = inr content ->
    tempfile_outcome (fs w) ".pdf" content = TmpWritten ->
    pdf_outcome content = inl msg ->
    url_run request w
      (inl (HTTPException 500 ("Error processing PDF: " +:+ msg)))
      (fs_after w ".pdf" content)
      [EvHttpGet (documents request); EvTempCreate (temp_name w ".pdf");
       EvPdfReader (temp_name w ".pdf"); EvUnlink (temp_name w ".pdf")]
| url_model_failed (content text : string) (k : nat) (rs : list string)
    (msg : string) :
    requests_get (documents request) = inr content ->
    tempfile_outcome (fs w) ".pdf" content = TmpWritten ->
    pdf_outcome content = inr text ->
    first_failure (llm_state w)
      (map (prompt text) (map PyStr (questions request))) k rs msg ->
    url_run request w
      (inl (HTTPException 500 ("Error processing with AI: " +:+ msg)))
      (fs_after w ".pdf" content)
      ([EvHttpGet (documents request); EvTempCreate (temp_name w ".pdf");
        EvPdfReader (temp_name w ".pdf")]
       ++ gen_events text (map PyStr (questions request))
            (map inr rs ++ [inl msg])
       ++ [EvUnlink (temp_name w ".pdf")])
| url_answered (content text : string) (rs : list string) :
    requests_get (documents request) = inr content ->
    tempfile_outcome (fs w) ".pdf" content = TmpWritten ->
    pdf_outcome content = inr text ->
    replies (llm_state w)
      (map (prompt text) (map PyStr (questions request))) = map inr rs ->
    url_run request w
      (inr (url_response request text rs))
      (fs_after w ".pdf" content)
      ([EvHttpGet (documents request); EvTempCreate (temp_name w ".pdf");
        EvPdfReader (temp_name w ".pdf")]
       ++ gen_events text (map PyStr (questions request)) (map inr rs)
       ++ [EvUnlink (temp_name w ".pdf")]).

(** The upload handler dispatches on the lowercased extension. *)
Definition file_ext_of (file : UploadFile) : string :=
  PyStr.lower (snd (OsPath.splitext (filename file))).

Definition extraction_outcome (file_ext content : string) : string + string :=
  if String.eqb file_ext ".pdf" then pdf_outcome content
  else docx_outcome content.

Definition extraction_event (file_ext path : string) : event :=
  if String.eqb file_ext ".pdf" then EvPdfReader path else EvDocument path.

Definition extraction_error (file_ext msg : string) : exn :=
  if String.eqb file_ext ".pdf"
  then HTTPException 500 ("Error processing PDF: " +:+ msg)
  else HTTPException 500 ("Error processing DOCX: " +:+ msg).

Definition upload_response (file : UploadFile) (text : string)
    (qs : list pyvalue) (rs : list string) : FileUploadResponse :=
  {| upload_answers := map PyStr.strip rs;
     upload_metadata :=
       {| document_url := None;
          total_questions := Z.of_nat (length qs);
          processing_timestamp := now_isoformat;
          file_size := Some (PyStr.len (file_content file));
          model_info :=
            {| llm := "gemini-pro"; text_length := PyStr.len text |} |};
     upload_filename := filename file |}.

Inductive upload_run (file : UploadFile) (questions : string) (w : World)
  : exn + FileUploadResponse -> gmap string string -> list event -> Prop :=
| upload_bad_json (msg : string) :
    json_loads questions = inl (NotJson msg) ->
    upload_run file questions w
      (inl (HTTPException 400 "Invalid JSON format for questions"))
      (fs w) []
| upload_loads_raised (msg : string) :
    json_loads questions = inl (LoadsRaised msg) ->
    upload_run file questions w
      (inl (HTTPException 500 ("Internal server error: " +:+ msg)))
      (fs w) []
| upload_temp_create_failed (v : pyvalue) (msg : string) :
    json_loads questions = inr v ->
    file_ext_of file ∈ allowed_extensions ->
    tempfile_outcome (fs w) (file_ext_of file) (file_content file) =
    TmpCreateFailed msg ->
    upload_run file questions w
      (inl (HTTPException 500 ("Internal server error: " +:+ msg)))
      (fs w) []
| upload_temp_write_failed (v : pyvalue) (msg partial : string) :
    json_loads questions = inr v ->
    file_ext_of file ∈ allowed_extensions ->
    tempfile_outcome (fs w) (file_ext_of file) (file_content file) =
    TmpWriteFailed msg partial ->
    upload_run file questions w
      (inl (HTTPException 500 ("Internal server error: " +:+ msg)))
      (<[temp_name w (file_ext_of file) := partial]> (fs w))
      [EvTempCreate (temp_name w (file_ext_of file))]
| upload_bad_extension (v : pyvalue) :
    json_loads questions = inr v ->
    file_ext_of file ∉ allowed_extensions ->
    upload_run file questions w
      (inl (HTTPException 400 ("Unsupported file type: " +:+ file_ext_of file)))
      (fs w) []
| upload_extraction_failed (v : pyvalue) (msg : string) :
    json_loads questions = inr v ->
    file_ext_of file ∈ allowed_extensions ->
    tempfile_outcome (fs w) (file_ext_of file) (file_content file) =
    TmpWritten ->
    extraction_outcome (file_ext_of file) (file_content file) = inl msg ->
    upload_run file questions w
      (inl (extraction_error (file_ext_of file) msg))
      (fs_after w (file_ext_of file) (file_content file))
      [EvTempCreate (temp_name w (file_ext_of file));
       extraction_event (file_ext_of file) (temp_name w (file_ext_of file));
       EvUnlink (temp_name w (file_ext_of file))]
| upload_not_iterable (v : pyvalue) (text msg : string) :
    json_loads questions = inr v ->
    file_ext_of file ∈ allowed_extensions ->
    tempfile_outcome (fs w) (file_ext_of file) (file_content file) =
    TmpWritten ->
    extraction_outcome (file_ext_of file) (file_content file) = inr text ->
    py_iter v = inl msg ->
    upload_run file questions w
      (inl (HTTPException 500 ("Error processing with AI: " +:+ msg)))
      (fs_after w (file_ext_of file) (file_content file))
      [EvTempCreate (temp_name w (file_ext_of file));
       extraction_event (file_ext_of file) (temp_name w (file_ext_of file));
       EvUnlink (temp_name w (file_ext_of file))]
| upload_model_failed (v : pyvalue) (text : string) (qs : list pyvalue)
    (k : nat) (rs : list string) (msg : string) :
    json_loads questions = inr v ->
    file_ext_of file ∈ allowed_extensions ->
    tempfile_outcome (fs w) (file_ext_of file) (file_content file) =
    TmpWritten ->
    extraction_outcome (file_ext_of file) (file_content file) = inr text ->
    py_iter v = inr qs ->
    first_failure (llm_state w) (map (prompt text) qs) k rs msg ->
    upload_run file questions w
      (inl (HTTPException 500 ("Error processing with AI: " +:+ msg)))
      (fs_after w (file_ext_of file) (file_content file))
      ([EvTempCreate (temp_name w (file_ext_of file));
        extraction_event (file_ext_of file) (temp_name w (file_ext_of file))]
       ++ gen_events text qs (map inr rs ++ [inl msg])
       ++ [EvUnlink (temp_name w (file_ext_of file))])
| upload_answered (v : pyvalue) (text : string) (qs : list pyvalue)
    (rs : list string) :
    json_loads questions = inr v ->
    file_ext_of file ∈ allowed_extensions ->
    tempfile_outcome (fs w) (file_ext_of file) (file_content file) =
    TmpWritten ->
    extraction_outcome (file_ext_of file) (file_content file) = inr text ->
    py_iter v = inr qs ->
    replies (llm_state w) (map (prompt text) qs) = map inr rs ->
    upload_run file questions w
      (inr (upload_response file text qs rs))
      (fs_after w (file_ext_of file) (file_content file))
      ([EvTempCreate (temp_name w (file_ext_of file));
        extraction_event (file_ext_of file) (temp_name w (file_ext_of file))]
       ++ gen_events text qs (map inr rs)
       ++ [EvUnlink (temp_name w (file_ext_of file))]).

(** The model's answer to question [i] is the stripped [i]-th reply of
    the service to the prompts of the questions, sent in order. *)
Definition answers_match (g : G) (text : string) (qs : list pyvalue)
    (answers : list string) : Prop :=
  length answers = length qs /\
  forall (i : nat) (q : pyvalue),
    qs !! i = Some q ->
    exists r,
      replies g (map (prompt text) qs) !! i = Some (inr r) /\
      answers !! i = Some (PyStr.strip r).

End RunShapes.

Definition is_extraction (e : event) : bool :=
  match e with
  | EvPdfReader _ | EvDocument _ => true
  | _ => false
  end.

Definition is_generate (e : event) : bool :=
  match e with
  | EvGenerate _ _ => true
  | _ => false
  end.

Definition is_download (e : event) : bool :=
  match e with
  | EvHttpGet _ => true
  | _ => false
  end.

(** No leading and no trailing whitespace. *)
Definition stripped (s : string) : Prop :=
  (forall c, PyStr.first_char s = Some c -> PyStr.isspace c = false) /\
  (forall c, PyStr.last_char s = Some c -> PyStr.isspace c = false).

(** Equal up to letter case. *)
Definition same_up_to_case (a b : string) : Prop :=
  PyStr.lower a = PyStr.lower b.

(** A request was turned away with status 400 and no extraction was
    attempted. *)
Definition rejected_before_extraction {A : Type} (r : exn + A)
    (t : list event) : Prop :=
  status_of r = 400 /\ forall e, e ∈ t -> is_extraction e = false.

(** What the handler answers when the gate does not let the file name
    through: [json.loads] has run before the gate, and its exception, if
    it raises one, is what the caller sees. *)
Definition gate_rejection {E : External} (file : UploadFile) (questions : string) : exn :=
  match json_loads questions with
  | inl (NotJson _) => HTTPException 400 "Invalid JSON format for questions"
  | inl (LoadsRaised msg) =>
      HTTPException 500 ("Internal server error: " +:+ msg)
  | inr _ =>
      HTTPException 400 ("Unsupported file type: " +:+ file_ext_of file)
  end.

(** ** A small concrete world, to run the handlers on *)

Module Demo.

Definition question1 : string := "What is the grace period for premium payment?".
Definition question2 : string := "Who is covered?".
Definition question3 : string := "What is excluded?".

(** The JSON text of a list of strings without escapes. *)
Definition json_list (qs : list string) : string :=
  "[" +:+ PyStr.join ", " (map (fun q => PyStr.dquote +:+ q +:+ PyStr.dquote) qs) +:+ "]".

(** The model service replays a script; past its end it fails. *)
#[export] Instance world : External := {|
  G := list (string + string);
  requests_get url :=
    if String.eqb url "https://example.com/missing.pdf"
    then inl "404 Client Error: Not Found"
    else if String.eqb url "https://example.com/notes.txt"
    then inr "plain notes"
    else inr "%PDF-1.4 policy";
  mkstemp _ suffix := "/tmp/tmpq1w2e3" +:+ suffix;
  tempfile_outcome _ _ _ := TmpWritten;
  PdfReader content :=
    if String.eqb content "%PDF-1.4 policy"
    then inr [inr "Grace period is 30 days."]
    else inl "EOF marker not found";
  Document content :=
    if String.eqb content "PK docx policy"
    then inr ["Grace period is 30 days."; "All employees are covered."]
    else inl "File is not a zip file";
  generate_content g _ :=
    match g with
    | r :: g' => (r, g')
    | [] => (inl "429 quota exceeded", [])
    end;
  json_loads s :=
    if String.eqb s "[]" then inr (PyList [])
    else if String.eqb s (json_list [question1]) then inr (PyList [PyStr question1])
    else if String.eqb s (json_list [question1; question2; question3])
    then inr (PyList [PyStr question1; PyStr question2; PyStr question3])
    else inl (NotJson "Expecting value: line 1 column 1 (char 0)");
  py_repr _ := "<object>";
  now_isoformat := "2025-08-01T12:00:00"
|}.

Definition start (script : list (string + string)) : World :=
  {| fs := ∅; llm_state := script; trace := [] |}.

Definition pdf_upload : UploadFile :=
  {| filename := "policy.PDF"; file_content := "%PDF-1.4 policy" |}.

Definition docx_upload : UploadFile :=
  {| filename := "policy.DocX"; file_content := "PK docx policy" |}.

Definition broken_pdf_upload : UploadFile :=
  {| filename := "policy.pdf"; file_content := "not a pdf" |}.

Definition exe_upload : UploadFile :=
  {| filename := "setup.exe"; file_content := "MZ" |}.

Definition url_request (url : string) (qs : list string) : QueryRequest :=
  {| documents := url; questions := qs |}.

Definition three_questions : list string := [question1; question2; question3].

(** The service answers all three questions. *)
Definition script_ok : list (string + string) :=
  [inr (" 30 days. " +:+ PyStr.nl); inr "All employees.";
   inr (PyStr.nl +:+ "Pre-existing conditions.")].

(** The service fails on the second of three questions. *)
Definition script_second_fails : list (string + string) :=
  [inr " 30 days. "; inl "503 service unavailable"; inr "never asked"].

Definition policy_text : string := "Grace period is 30 days." +:+ PyStr.nl.

(** 8000 characters. *)
Definition padding : string := string_of_list_ascii (replicate (Z.to_nat 8000) "x"%char).

End Demo.

(** ** Predicates on names, for the statements about extensions *)

(** [c] occurs in [s]. *)
Fixpoint has_char (c : ascii) (s : string) : bool :=
  match s with
  | EmptyString => false
  | String a s' => Ascii.eqb a c || has_char c s'
  end.

(** [s] is made of dots only (the empty string included). *)
Fixpoint only_dots (s : string) : bool :=
  match s with
  | EmptyString => true
  | String a s' => Ascii.eqb a "."%char && only_dots s'
  end.

(** A directory part: empty, or ending with the separator. *)
Definition is_dir_part (dir : string) : Prop :=
  dir = EmptyString \/ exists d, dir = d +:+ "/".

(** Total length of the parts of a document, in characters. *)
Definition total_len (parts : list string) : Z :=
  fold_right (fun part n => PyStr.len part + n) 0 parts.

(** The fixed part of the prompt: what is left of its length when the
    budgeted text and the question are taken out. *)
Definition prompt_overhead : Z := 309.



(** Two results that a caller cannot tell apart: the same error, or the
    same answers about a text of the same length for the same number of
    questions. *)
Definition same_outcome (r1 : exn + QueryResponse)
    (r2 : exn + FileUploadResponse) : Prop :=
  match r1, r2 with
  | inl e1, inl e2 => e1 = e2
  | inr a, inr b =>
      answers a = upload_answers b /\
      total_questions (metadata a) = total_questions (upload_metadata b) /\
      model_info (metadata a) = model_info (upload_metadata b)
  | _, _ => False
  end.

(** ** The client ([client_example.py]) *)

Module HackRXClient.

(** The dictionary of [_get_content_type]. *)
Definition content_types : gmap string string :=
  list_to_map
    [(".pdf", "application/pdf");
     (".doc", "application/msword");
     (".docx", "application/vnd.openxmlformats-officedocument.wordprocessingml.document");
     (".eml", "message/rfc822");
     (".msg", "application/octet-stream")].

(** [content_types.get(ext, 'application/octet-stream')] on the lowercased
    extension of the path. *)
Definition _get_content_type (file_path : string) : string :=
  let ext := PyStr.lower (snd (OsPath.splitext file_path)) in
  default "application/octet-stream" (content_types !! ext).

(** What [process_file] posts to /hackrx/upload. *)
Record UploadPost := {
  post_filename : string;
  post_content : string;
  post_content_type : string;
  post_questions : string
}.

(** An HTTP response as the client reads it: its status, what
    [raise_for_status] would print, and what [response.json()] raises or
    returns. *)
Record Response := {
  status_code : Z;
  error_text : string;
  json_body : string + pyvalue
}.

(** The exceptions of the client; each carries its [str]. *)
Inductive client_exn :=
| FileNotFoundError (msg : string)
| HTTPError (msg : string)
| ClientError (msg : string).

Definition client_exn_str (e : client_exn) : string :=
  match e with
  | FileNotFoundError msg => msg
  | HTTPError msg => msg
  | ClientError msg => msg
  end.

(** What the client calls and does not define: [json.dumps] and the
    session's [post], which raises or gives a response and moves the
    server on. *)
Class Remote := {
  R : Type;
  json_dumps : list string -> string;
  session_post : R -> UploadPost -> (string + Response) * R;
  (** [str] of the TypeError that [v['answers']] raises when [v] is not a
      JSON object *)
  subscript_error : pyvalue -> string
}.

Section Client.
Context {Rm : Remote}.

(** The client's side of the world: its local files, the server, and the
    uploads posted so far. *)
Record ClientWorld := {
  local_fs : gmap string string;
  remote : R;
  posts : list UploadPost
}.

Definition CM (A : Type) : Type :=
  ClientWorld -> (client_exn + A) * ClientWorld.

(** [response.raise_for_status()]: statuses 400 to 599 raise. *)
Definition raise_for_status (response : Response)
    : client_exn + unit :=
  if (400 <=? status_code response) && (status_code response <? 600)
  then inl (HTTPError (error_text response))
  else inr tt.

Definition process_file (file_path : string) (questions : list string)
    : CM pyvalue :=
  fun cw =>
    match local_fs cw !! file_path with
    | None =>
        (inl (FileNotFoundError ("File not found: " +:+ file_path)), cw)
    | Some content =>
        let upload :=
          {| post_filename := OsPath.basename file_path;
             post_content := content;
             post_content_type := _get_content_type file_path;
             post_questions := json_dumps questions |} in
        let '(outcome, remote') := session_post (remote cw) upload in
        let cw' := {| local_fs := local_fs cw; remote := remote';
                      posts := posts cw ++ [upload] |} in
        match outcome with
        | inl msg => (inl (ClientError msg), cw')
        | inr response =>
            match raise_for_status response with
            | inl e => (inl e, cw')
            | inr _ =>
                match json_body response with
                | inl msg => (inl (ClientError msg), cw')
                | inr v => (inr v, cw')
                end
            end
        end
    end.

(** [file_name.endswith(('.pdf', '.doc', '.docx'))] *)
Definition is_document_name (file_name : string) : bool :=
  existsb (PyStr.endswith file_name) [".pdf"; ".doc"; ".docx"].

(** The loop of [batch_processing_example] that picks the documents of
    the directory listing. *)
Fixpoint pick_documents (listing : list string)
    (files_to_process : list string) : list string :=
  match listing with
  | [] => files_to_process
  | file_name :: rest =>
      if is_document_name file_name
      then pick_documents rest (files_to_process ++ [file_name])
      else pick_documents rest files_to_process
  end.

(** An entry of [results]. *)
Inductive batch_result :=
| Processed (file : string) (answers : pyvalue)
| Failed (file : string) (error : string).

Definition result_file (r : batch_result) : string :=
  match r with
  | Processed file _ | Failed file _ => file
  end.

Definition result_success (r : batch_result) : bool :=
  match r with
  | Processed _ _ => true
  | Failed _ _ => false
  end.

(** [result['answers']] of a decoded response: the value under the key of
    a JSON object, a KeyError or TypeError otherwise. *)
Definition answers_of (v : pyvalue) : string + pyvalue :=
  match v with
  | PyDict items =>
      match list_find (fun kv => fst kv = "answers") items with
      | Some (_, (_, a)) => inr a
      | None => inl "'answers'"
      end
  | _ => inl (subscript_error v)
  end.

(** The loop of [batch_processing_example] over the picked files: a
    failure of one file is recorded and the loop goes on. *)
Fixpoint process_batch (files : list string) (questions : list string)
    (results : list batch_result) (cw : ClientWorld)
    : list batch_result * ClientWorld :=
  match files with
  | [] => (results, cw)
  | file_path :: rest =>
      match process_file file_path questions cw with
      | (inr result, cw') =>
          match answers_of result with
          | inr a =>
              process_batch rest questions
                (results ++ [Processed file_path a]) cw'
          | inl msg =>
              process_batch rest questions
                (results ++ [Failed file_path msg]) cw'
          end
      | (inl e, cw') =>
          process_batch rest questions
            (results ++ [Failed file_path (client_exn_str e)]) cw'
      end
  end.

(** What [batch_processing_example] reports. *)
Inductive batch_report :=
| NoDocuments
| Summary (results : list batch_result) (successful : nat).

Definition batch_questions : list string :=
  ["What is the main topic of this document?"; "What are the key terms?"].

Definition batch_processing_example (listing : list string)
    (cw : ClientWorld) : batch_report * ClientWorld :=
  let files_to_process := pick_documents listing [] in
  match files_to_process with
  | [] => (NoDocuments, cw)
  | _ =>
      let '(results, cw') :=
        process_batch files_to_process batch_questions [] cw in
      (Summary results (length (List.filter result_success results)), cw')
  end.

End Client.

End HackRXClient.

(** ** A second concrete world: documents of several parts, a page that
    does not decode, question fields that are not lists *)

Module Lab.

Definition json_string (s : string) : string :=
  PyStr.dquote +:+ s +:+ PyStr.dquote.

Definition two_questions : list string := [Demo.question1; Demo.question2].

(** A question field that is one integer of 5000 digits. *)
Definition too_many_digits : string :=
  string_of_list_ascii (replicate (Z.to_nat 5000) "7"%char).

(** What [json.loads] says of it: a ValueError, not a JSONDecodeError. *)
Definition loads_digit_limit : string :=
  "Exceeds the limit (4300 digits) for integer string conversion: "
  +:+ "value has 5000 digits; "
  +:+ "use sys.set_int_max_str_digits() to increase the limit".

Definition no_space : string := "[Errno 28] No space left on device".

#[export] Instance world : External := {|
  G := list (string + string);
  requests_get url :=
    if String.eqb url "https://example.com/two-pages.pdf"
    then inr "%PDF two pages"
    else if String.eqb url "https://example.com/bad-page.pdf"
    then inr "%PDF bad page"
    else if String.eqb url "https://example.com/huge.pdf"
    then inr "%PDF larger than the disk"
    else inl "404 Client Error: Not Found";
  mkstemp _ suffix := "/tmp/tmpa1b2c3" +:+ suffix;
  tempfile_outcome _ _ content :=
    if String.eqb content "%PDF larger than the disk"
    then TmpWriteFailed no_space EmptyString
    else if String.eqb content "%PDF no room for a file"
    then TmpCreateFailed no_space
    else TmpWritten;
  PdfReader content :=
    if String.eqb content "%PDF two pages"
    then inr [inr "Page one."; inr "Page two."]
    else if String.eqb content "%PDF bad page"
    then inr [inr "Page one."; inl "cannot decode page 2"; inr "Page three."]
    else if String.eqb content "%PDF no pages"
    then inr []
    else inl "EOF marker not found";
  Document content :=
    if String.eqb content "PK two paragraphs"
    then inr ["Page one."; "Page two."]
    else if String.eqb content "PK no paragraphs"
    then inr []
    else inl "File is not a zip file";
  generate_content g _ :=
    match g with
    | r :: g' => (r, g')
    | [] => (inl "429 quota exceeded", [])
    end;
  json_loads s :=
    if String.eqb s "[]" then inr (PyList [])
    else if String.eqb s "42" then inr (PyInt 42)
    else if String.eqb s (json_string "ab") then inr (PyStr "ab")
    else if String.eqb s (Demo.json_list two_questions)
    then inr (PyList (map PyStr two_questions))
    else if String.eqb s too_many_digits
    then inl (LoadsRaised loads_digit_limit)
    else inl (NotJson "Expecting value: line 1 column 1 (char 0)");
  py_repr _ := "<object>";
  now_isoformat := "2025-08-01T12:00:00"
|}.

Definition start (script : list (string + string)) : World :=
  {| fs := ∅; llm_state := script; trace := [] |}.

(** A filesystem that already holds two documents. *)
Definition stocked (script : list (string + string)) : World :=
  {| fs := <["/data/two.pdf" := "%PDF two pages"]>
             (<["/data/two.docx" := "PK two paragraphs"]>
                (<["/data/bad.pdf" := "%PDF bad page"]> ∅));
     llm_state := script; trace := [] |}.

Definition two_pages_upload : UploadFile :=
  {| filename := "two.pdf"; file_content := "%PDF two pages" |}.

Definition huge_upload : UploadFile :=
  {| filename := "huge.pdf"; file_content := "%PDF larger than the disk" |}.

Definition no_room_upload : UploadFile :=
  {| filename := "scan.docx"; file_content := "%PDF no room for a file" |}.

Definition huge_request : QueryRequest :=
  {| documents := "https://example.com/huge.pdf";
     questions := two_questions |}.

Definition two_pages_request : QueryRequest :=
  {| documents := "https://example.com/two-pages.pdf";
     questions := two_questions |}.

Definition script_two : list (string + string) :=
  [inr " First answer. "; inr "Second answer."].

(** The server as the client of this world sees it: it answers 200 with an
    object that has answers to a PDF, 400 to anything else, and the
    connection fails on the upload named down.pdf. *)
#[export] Instance remote : HackRXClient.Remote := {|
  HackRXClient.R := nat;
  HackRXClient.json_dumps qs := Demo.json_list qs;
  HackRXClient.session_post n upload :=
    if String.eqb (HackRXClient.post_filename upload) "down.pdf"
    then (inl "Connection refused", S n)
    else if String.eqb (HackRXClient.post_content_type upload) "application/pdf"
    then (inr {| HackRXClient.status_code := 200;
                 HackRXClient.error_text := EmptyString;
                 HackRXClient.json_body :=
                   inr (PyDict [("answers", PyList [PyStr "An answer."]);
                                ("filename", PyStr (HackRXClient.post_filename upload))]) |},
          S n)
    else (inr {| HackRXClient.status_code := 400;
                 HackRXClient.error_text := "400 Client Error: Bad Request";
                 HackRXClient.json_body :=
                   inr (PyDict [("detail", PyStr "Unsupported file type")]) |},
          S n);
  HackRXClient.subscript_error _ := "object is not subscriptable"
|}.

Definition client_start : HackRXClient.ClientWorld :=
  {| HackRXClient.local_fs :=
       <["policy.pdf" := "%PDF-1.4 policy"]>
         (<["notes.docx" := "PK docx notes"]>
            (<["down.pdf" := "%PDF-1.4 other"]> ∅));
     HackRXClient.remote := 0%nat;
     HackRXClient.posts := [] |}.

End Lab.

(** * Properties *)

(** ** Strings *)

Section StringFacts.
Import PyStr.

Lemma append_cons (c : ascii) (a b : string) :
  String c a +:+ b = String c (a +:+ b).
Proof. reflexivity. Qed.

Lemma append_nil_r (s : string) : s +:+ EmptyString = s.
Proof.
  induction s as [|c s IH]; [reflexivity|].
  rewrite append_cons, IH. reflexivity.
Qed.

Lemma append_assoc (a b c : string) : (a +:+ b) +:+ c = a +:+ (b +:+ c).
Proof.
  induction a as [|x a IH]; [reflexivity|].
  rewrite !append_cons, IH. reflexivity.
Qed.

Lemma substring_0_length (n : nat) (s : string) :
  String.length (String.substring 0 n s) = Nat.min n (String.length s).
Proof.
  revert n; induction s as [|c s IH]; intros [|n]; simpl; try reflexivity.
  f_equal. apply IH.
Qed.

Lemma substring_0_all (n : nat) (s : string) :
  (String.length s <= n)%nat -> String.substring 0 n s = s.
Proof.
  revert n; induction s as [|c s IH]; intros [|n] Hn; simpl in *;
    try reflexivity; try lia.
  f_equal. apply IH. lia.
Qed.

Lemma substring_0_prefix (n : nat) (s : string) :
  exists rest, s = String.substring 0 n s +:+ rest.
Proof.
  revert n; induction s as [|c s IH]; intros [|n]; simpl.
  - now exists EmptyString.
  - now exists EmptyString.
  - now exists (String c s).
  - destruct (IH n) as [rest Hrest]. exists rest.
    rewrite append_cons. f_equal. exact Hrest.
Qed.

Lemma budget_unfold (text : string) (C : Z) :
  0 <= C ->
  budget text C = String.substring 0 (Z.to_nat (Z.min C (len text))) text.
Proof.
  intros HC. unfold budget, slice, adjust_index.
  assert (Hlen : 0 <= len text) by (unfold len; lia).
  assert (Hneg : (C <? 0) = false) by (apply Z.ltb_ge; lia).
  rewrite Hneg. cbv iota. rewrite Hneg. cbv iota.
  change (Z.to_nat 0) with 0%nat. rewrite Z.sub_0_r.
  destruct (Z.leb_spec (len text) C) as [Hle|Hlt].
  - rewrite Z.min_r by lia. reflexivity.
  - rewrite Z.min_l by lia. reflexivity.
Qed.

Lemma lstrip_first (s : string) (c : ascii) :
  first_char (lstrip s) = Some c -> isspace c = false.
Proof.
  induction s as [|a s IH]; simpl; [discriminate|].
  destruct (isspace a) eqn:Ha; [exact IH|].
  simpl. intros [= <-]. exact Ha.
Qed.

Lemma rstrip_first (s : string) (c : ascii) :
  first_char (rstrip s) = Some c -> first_char s = Some c.
Proof.
  destruct s as [|a s]; simpl; [discriminate|].
  destruct (rstrip s); [destruct (isspace a)|]; simpl; congruence.
Qed.

Lemma rstrip_last (s : string) (c : ascii) :
  last_char (rstrip s) = Some c -> isspace c = false.
Proof.
  induction s as [|a s IH]; simpl; [discriminate|].
  destruct (rstrip s) as [|b r] eqn:Hr.
  - destruct (isspace a) eqn:Ha; simpl; [discriminate|].
    intros [= <-]. exact Ha.
  - intros Hl. apply IH. exact Hl.
Qed.

Lemma strip_stripped (s : string) : stripped (strip s).
Proof.
  split; intros c Hc.
  - apply (lstrip_first s), rstrip_first, Hc.
  - apply (rstrip_last (lstrip s)), Hc.
Qed.

Lemma lstrip_id (s : string) :
  (forall c, first_char s = Some c -> isspace c = false) -> lstrip s = s.
Proof.
  destruct s as [|a s]; simpl; [reflexivity|].
  intros Hs. now rewrite (Hs a eq_refl).
Qed.

Lemma rstrip_id (s : string) :
  (forall c, last_char s = Some c -> isspace c = false) -> rstrip s = s.
Proof.
  induction s as [|a s IH]; simpl; [reflexivity|].
  intros Hs. destruct s as [|b s].
  - simpl. now rewrite (Hs a eq_refl).
  - rewrite IH by exact Hs. reflexivity.
Qed.

Lemma stripped_fixpoint (s : string) : stripped s -> strip s = s.
Proof.
  intros [Hf Hl]. unfold strip. rewrite (lstrip_id s Hf). now apply rstrip_id.
Qed.

End StringFacts.

Arguments budget : simpl never.

(** ** The model service, seen through [replies] *)

Section ModelFacts.
Context {E : External}.

Lemma replies_cons (g : G) (p : string) (ps : list string) :
  replies g (p :: ps) =
  fst (generate_content g p) :: replies (snd (generate_content g p)) ps.
Proof. simpl. destruct (generate_content g p); reflexivity. Qed.

Lemma replies_length (g : G) (prompts : list string) :
  length (replies g prompts) = length prompts.
Proof.
  revert g; induction prompts as [|p ps IH]; intros g; [reflexivity|].
  rewrite replies_cons. simpl. now rewrite IH.
Qed.

(** Either every prompt is answered, or there is a first failing one. *)
Lemma replies_dichotomy (g : G) (prompts : list string) :
  (exists rs, replies g prompts = map inr rs) \/
  (exists k rs msg, first_failure g prompts k rs msg).
Proof.
  revert g; induction prompts as [|p ps IH]; intros g.
  - left. now exists [].
  - rewrite replies_cons.
    destruct (fst (generate_content g p)) as [msg|t] eqn:Hr.
    + right. exists 0%nat, [], msg. split; [|rewrite replies_cons, Hr]; reflexivity.
    + destruct (IH (snd (generate_content g p))) as [[rs Hrs]|(k & rs & msg & Htake & Hk)].
      * left. exists (t :: rs). simpl. now rewrite Hrs.
      * right. exists (S k), (t :: rs), msg. split.
        -- rewrite replies_cons, Hr. simpl. now rewrite Htake.
        -- rewrite replies_cons, Hr. exact Hk.
Qed.

Lemma first_failure_not_all (g : G) (prompts : list string) (k : nat)
    (rs rs' : list string) (msg : string) :
  first_failure g prompts k rs msg -> replies g prompts <> map inr rs'.
Proof.
  intros [_ Hk] Hall. rewrite Hall in Hk.
  rewrite list_lookup_fmap in Hk.
  destruct (rs' !! k); discriminate.
Qed.

Lemma first_failure_length (g : G) (prompts : list string) (k : nat)
    (rs : list string) (msg : string) :
  first_failure g prompts k rs msg ->
  length rs = k /\ (k < length prompts)%nat.
Proof.
  intros [Htake Hk].
  apply lookup_lt_Some in Hk. rewrite replies_length in Hk.
  split; [|exact Hk].
  apply (f_equal length) in Htake.
  rewrite length_take, length_map, replies_length in Htake. lia.
Qed.

Lemma map_inr_inj (rs rs' : list string) :
  map (inr (A := string)) rs = map inr rs' -> rs = rs'.
Proof.
  revert rs'. induction rs as [|r rs IH]; intros [|r' rs'] Heq;
    try discriminate; [reflexivity|].
  simpl in Heq. injection Heq as -> Heq. f_equal. now apply IH.
Qed.

Lemma first_failure_unique (g : G) (prompts : list string) (k k' : nat)
    (rs rs' : list string) (msg msg' : string) :
  first_failure g prompts k rs msg ->
  first_failure g prompts k' rs' msg' ->
  k = k' /\ rs = rs' /\ msg = msg'.
Proof.
  intros [Htake Hk] [Htake' Hk'].
  assert (Hlt : forall (a b : nat) (xs : list string) (m : string),
             take b (replies g prompts) = map inr xs ->
             replies g prompts !! a = Some (inl m) -> (b <= a)%nat).
  { intros a b xs m Ht Ha.
    destruct (Nat.le_gt_cases b a) as [|Hab]; [assumption|exfalso].
    rewrite <- (lookup_take_lt _ b a Hab), Ht, list_lookup_fmap in Ha.
    destruct (xs !! a); discriminate. }
  assert (Hkk : k = k').
  { apply Nat.le_antisymm; [eapply Hlt | eapply Hlt]; eassumption. }
  subst k'. rewrite Hk in Hk'. injection Hk' as <-.
  rewrite Htake in Htake'. split; [reflexivity|]. split; [|reflexivity].
  now apply map_inr_inj.
Qed.

Lemma gen_events_generate (text : string) (qs : list pyvalue)
    (rs : list (string + string)) :
  Forall (fun e => is_generate e = true) (gen_events text qs rs).
Proof.
  unfold gen_events. revert rs.
  induction qs as [|q qs IH]; intros [|r rs]; simpl; constructor;
    [reflexivity | apply IH].
Qed.

Lemma gen_events_filter (text : string) (qs : list pyvalue)
    (rs : list (string + string)) :
  List.filter is_generate (gen_events text qs rs) = gen_events text qs rs.
Proof.
  unfold gen_events. revert rs.
  induction qs as [|q qs IH]; intros [|r rs]; simpl; try reflexivity.
  now rewrite IH.
Qed.

Lemma gen_events_length (text : string) (qs : list pyvalue)
    (rs : list (string + string)) :
  length (gen_events text qs rs) = Nat.min (length qs) (length rs).
Proof.
  unfold gen_events. revert rs.
  induction qs as [|q qs IH]; intros [|r rs]; simpl; try reflexivity.
  now rewrite IH.
Qed.

Lemma new_events_app (w w' : World) (t : list event) :
  trace w' = trace w ++ t -> new_events w w' = t.
Proof. intros Ht. unfold new_events. rewrite Ht. apply drop_app_length. Qed.

(** All prompts answered: the answers are the stripped replies, one per
    question and in the order of the questions. *)
Lemma answers_match_replies (g : G) (text : string) (qs : list pyvalue)
    (rs : list string) :
  replies g (map (prompt text) qs) = map inr rs ->
  answers_match g text qs (map PyStr.strip rs).
Proof.
  intros Hrs.
  assert (Hlen : length rs = length qs).
  { apply (f_equal length) in Hrs.
    now rewrite replies_length, !length_map in Hrs. }
  split; [now rewrite length_map|].
  intros i q Hq.
  destruct (lookup_lt_is_Some_2 rs i) as [r Hr].
  { rewrite Hlen. eapply lookup_lt_Some, Hq. }
  exists r. rewrite Hrs. split.
  - change (map inr rs) with (inr (A := string) <$> rs).
    now rewrite list_lookup_fmap, Hr.
  - change (map PyStr.strip rs) with (PyStr.strip <$> rs).
    now rewrite list_lookup_fmap, Hr.
Qed.

End ModelFacts.

(** ** Runs of the helper functions *)

Section HelperRuns.
Context {E : External}.
Import PyStr.

Lemma model_generate_content_run (p : string) (w : World) :
  model_generate_content p w =
  (match fst (generate_content (llm_state w) p) with
   | inl msg => inl (PyError msg)
   | inr text => inr text
   end,
   {| fs := fs w;
      llm_state := snd (generate_content (llm_state w) p);
      trace := trace w ++ [EvGenerate p (fst (generate_content (llm_state w) p))] |}).
Proof.
  unfold model_generate_content.
  destruct (generate_content (llm_state w) p) as [[msg|text] g']; reflexivity.
Qed.

(** Every prompt answered: the loop returns one stripped answer per
    question, in order. *)
Lemma ask_each_ok (text : string) (qs : list pyvalue) :
  forall (rs answers : list string) (w : World),
    replies (llm_state w) (map (prompt text) qs) = map inr rs ->
    exists w',
      ask_each text qs answers w = (inr (answers ++ map strip rs), w') /\
      fs w' = fs w /\
      trace w' = trace w ++ gen_events text qs (map inr rs).
Proof.
  induction qs as [|q qs IH]; intros rs answers w Hrs.
  - destruct rs; [|discriminate]. exists w. simpl.
    rewrite !app_nil_r. repeat split; reflexivity.
  - simpl map in Hrs. rewrite replies_cons in Hrs.
    destruct rs as [|r rs]; [discriminate|].
    simpl in Hrs. injection Hrs as Hr Hrest.
    simpl ask_each. unfold bind. rewrite model_generate_content_run, Hr.
    set (w1 := {| fs := fs w; llm_state := _; trace := _ |}).
    destruct (IH rs (answers ++ [strip r]) w1 Hrest) as (w' & Hrun & Hfs & Htr).
    exists w'. rewrite Hrun. split; [|split].
    + simpl. now rewrite <- app_assoc.
    + exact Hfs.
    + rewrite Htr. subst w1. simpl. now rewrite <- app_assoc.
Qed.

(** The service fails on question [k]: the loop raises there, after
    [k + 1] calls, and the answers gathered so far are dropped. *)
Lemma ask_each_fail (text : string) (qs : list pyvalue) :
  forall (k : nat) (rs : list string) (msg : string) (answers : list string)
         (w : World),
    first_failure (llm_state w) (map (prompt text) qs) k rs msg ->
    exists w',
      ask_each text qs answers w = (inl (PyError msg), w') /\
      fs w' = fs w /\
      trace w' = trace w ++ gen_events text qs (map inr rs ++ [inl msg]).
Proof.
  induction qs as [|q qs IH]; intros k rs msg answers w [Htake Hk].
  - simpl in Hk. rewrite lookup_nil in Hk. discriminate.
  - simpl map in Htake, Hk. rewrite replies_cons in Htake, Hk.
    simpl ask_each. unfold bind. rewrite model_generate_content_run.
    set (w1 := {| fs := fs w; llm_state := _; trace := _ |}).
    destruct k as [|k].
    + simpl in Htake, Hk. destruct rs; [|discriminate].
      injection Hk as Hr. rewrite Hr.
      exists w1. subst w1. rewrite Hr. split; [reflexivity|]. split; [reflexivity|].
      unfold gen_events. simpl. rewrite zip_with_nil_r. reflexivity.
    + simpl in Htake, Hk. destruct rs as [|r rs]; [discriminate|].
      injection Htake as Hr Htake. rewrite Hr.
      destruct (IH k rs msg (answers ++ [strip r]) w1 (conj Htake Hk))
        as (w' & Hrun & Hfs & Htr).
      exists w'. rewrite Hrun. split; [reflexivity|]. split; [exact Hfs|].
      rewrite Htr. subst w1. simpl. rewrite Hr, <- app_assoc. reflexivity.
Qed.

Lemma process_with_gemini_not_iterable (text : string) (questions : pyvalue)
    (msg : string) (w : World) :
  py_iter questions = inl msg ->
  process_with_gemini text questions w =
  (inl (HTTPException 500 ("Error processing with AI: " +:+ msg)), w).
Proof.
  intros Hit. unfold process_with_gemini, try_except, bind. rewrite Hit.
  reflexivity.
Qed.

Lemma process_with_gemini_ok (text : string) (questions : pyvalue)
    (qs : list pyvalue) (rs : list string) (w : World) :
  py_iter questions = inr qs ->
  replies (llm_state w) (map (prompt text) qs) = map inr rs ->
  exists w',
    process_with_gemini text questions w = (inr (map strip rs), w') /\
    fs w' = fs w /\
    trace w' = trace w ++ gen_events text qs (map inr rs).
Proof.
  intros Hit Hrs. unfold process_with_gemini, try_except, bind. rewrite Hit.
  simpl. destruct (ask_each_ok text qs rs [] w Hrs) as (w' & Hrun & Hfs & Htr).
  exists w'. rewrite Hrun. auto.
Qed.

Lemma process_with_gemini_fail (text : string) (questions : pyvalue)
    (qs : list pyvalue) (k : nat) (rs : list string) (msg : string)
    (w : World) :
  py_iter questions = inr qs ->
  first_failure (llm_state w) (map (prompt text) qs) k rs msg ->
  exists w',
    process_with_gemini text questions w =
    (inl (HTTPException 500 ("Error processing with AI: " +:+ msg)), w') /\
    fs w' = fs w /\
    trace w' = trace w ++ gen_events text qs (map inr rs ++ [inl msg]).
Proof.
  intros Hit Hff. unfold process_with_gemini, try_except, bind. rewrite Hit.
  simpl. destruct (ask_each_fail text qs k rs msg [] w Hff)
    as (w' & Hrun & Hfs & Htr).
  exists w'. rewrite Hrun. auto.
Qed.

Lemma process_with_gemini_success (text : string) (questions : pyvalue)
    (w w' : World) (answers : list string) :
  process_with_gemini text questions w = (inr answers, w') ->
  exists qs rs,
    py_iter questions = inr qs /\
    replies (llm_state w) (map (prompt text) qs) = map inr rs /\
    answers = map strip rs /\
    fs w' = fs w /\
    trace w' = trace w ++ gen_events text qs (map inr rs).
Proof.
  intros Hrun. destruct (py_iter questions) as [msg|qs] eqn:Hiter.
  { rewrite (process_with_gemini_not_iterable _ _ msg w Hiter) in Hrun.
    discriminate. }
  destruct (replies_dichotomy (llm_state w) (map (prompt text) qs))
    as [[rs Hrs]|(k & rs & msg & Hff)].
  - destruct (process_with_gemini_ok text questions qs rs w Hiter Hrs)
      as (w1 & Hrun1 & Hfs & Htr).
    rewrite Hrun in Hrun1. injection Hrun1 as -> ->. eauto 10.
  - destruct (process_with_gemini_fail text questions qs k rs msg w Hiter Hff)
      as (w1 & Hrun1 & _).
    rewrite Hrun in Hrun1. discriminate.
Qed.

Lemma download_document_run (url : string) (w : World) :
  download_document url w =
  match requests_get url with
  | inl msg =>
      (inl (HTTPException 400 ("Error downloading document: " +:+ msg)),
       {| fs := fs w; llm_state := llm_state w;
          trace := trace w ++ [EvHttpGet url] |})
  | inr content =>
      match tempfile_outcome (fs w) ".pdf" content with
      | TmpCreateFailed msg =>
          (inl (HTTPException 400 ("Error downloading document: " +:+ msg)),
           {| fs := fs w; llm_state := llm_state w;
              trace := trace w ++ [EvHttpGet url] |})
      | TmpWriteFailed msg partial =>
          (inl (HTTPException 400 ("Error downloading document: " +:+ msg)),
           {| fs := <[mkstemp (fs w) ".pdf" := partial]> (fs w);
              llm_state := llm_state w;
              trace := (trace w ++ [EvHttpGet url])
                       ++ [EvTempCreate (mkstemp (fs w) ".pdf")] |})
      | TmpWritten =>
          (inr (mkstemp (fs w) ".pdf"),
           {| fs := <[mkstemp (fs w) ".pdf" := content]> (fs w);
              llm_state := llm_state w;
              trace := (trace w ++ [EvHttpGet url])
                       ++ [EvTempCreate (mkstemp (fs w) ".pdf")] |})
      end
  end.
Proof.
  unfold download_document, try_except, requests_get_content, bind, emit, lift,
    NamedTemporaryFile.
  destruct (requests_get url) as [msg|content]; [reflexivity|].
  simpl. destruct (tempfile_outcome (fs w) ".pdf" content); reflexivity.
Qed.

(** Opening a path that holds no file raises, and so does handing it to
    the DOCX package; the package is called in the second case only. *)
Lemma docx_Document_run (path : string) (w : World) :
  docx_Document path w =
  (match fs w !! path with
   | Some content =>
       match Document content with
       | inl msg => inl (PyError msg)
       | inr paragraphs => inr paragraphs
       end
   | None => inl (PyError ("Package not found at '" +:+ path +:+ "'"))
   end,
   {| fs := fs w; llm_state := llm_state w;
      trace := trace w ++ [EvDocument path] |}).
Proof.
  unfold docx_Document, bind, emit, lift. simpl.
  destruct (fs w !! path) as [content|]; [|reflexivity].
  destruct (Document content); reflexivity.
Qed.

Lemma extract_text_from_pdf_run (file_path content : string) (w : World) :
  fs w !! file_path = Some content ->
  extract_text_from_pdf file_path w =
  (match pdf_outcome content with
   | inl msg => inl (HTTPException 500 ("Error processing PDF: " +:+ msg))
   | inr text => inr text
   end,
   {| fs := fs w; llm_state := llm_state w;
      trace := trace w ++ [EvPdfReader file_path] |}).
Proof.
  intros Hfile.
  unfold extract_text_from_pdf, try_except, bind, open_rb, emit, lift, pdf_outcome.
  rewrite Hfile. simpl.
  destruct (PdfReader content) as [msg|pages]; [reflexivity|].
  simpl. destruct (extract_pages pages EmptyString); reflexivity.
Qed.

Lemma extract_text_from_docx_run (file_path content : string) (w : World) :
  fs w !! file_path = Some content ->
  extract_text_from_docx file_path w =
  (match docx_outcome content with
   | inl msg => inl (HTTPException 500 ("Error processing DOCX: " +:+ msg))
   | inr text => inr text
   end,
   {| fs := fs w; llm_state := llm_state w;
      trace := trace w ++ [EvDocument file_path] |}).
Proof.
  intros Hfile.
  unfold extract_text_from_docx, try_except. unfold bind at 1.
  rewrite docx_Document_run, Hfile. unfold docx_outcome.
  destruct (Document content) as [msg|paragraphs]; reflexivity.
Qed.

(** The [finally] block removes the file when it is there. *)
Lemma cleanup_present (temp_file content : string) (w : World) :
  fs w !! temp_file = Some content ->
  cleanup temp_file w =
  (inr tt,
   {| fs := delete temp_file (fs w); llm_state := llm_state w;
      trace := trace w ++ [EvUnlink temp_file] |}).
Proof.
  intros Hfile. unfold cleanup, bind, os_path_exists, os_unlink.
  rewrite bool_decide_eq_true_2 by (rewrite Hfile; eauto).
  cbv beta iota. rewrite Hfile. reflexivity.
Qed.

Lemma try_finally_run {A : Type} (m : M A) (c : M unit) (w w1 w2 : World)
    (r : exn + A) :
  m w = (r, w1) -> c w1 = (inr tt, w2) -> try_finally m c w = (r, w2).
Proof. intros Hm Hc. unfold try_finally. now rewrite Hm, Hc. Qed.

Lemma py_len_iter (v : pyvalue) (qs : list pyvalue) :
  py_iter v = inr qs -> py_len v = inr (Z.of_nat (length qs)).
Proof.
  destruct v; simpl; intros [= <-]; rewrite ?length_map; try reflexivity.
  unfold len. do 2 f_equal.
  induction s as [|c s IH]; simpl; [reflexivity | now rewrite IH].
Qed.

End HelperRuns.

(** ** The handlers follow [url_run] and [upload_run] *)

Section HandlerRuns.
Context {E : External}.
Import PyStr.

Lemma with_temp_file_run {A : Type} (body : M A) (temp_file content : string)
    (w w1 : World) (r : exn + A) :
  fs w !! temp_file = Some content ->
  body w = (r, w1) ->
  fs w1 = fs w ->
  try_finally body (cleanup temp_file) w =
  (r, {| fs := delete temp_file (fs w); llm_state := llm_state w1;
         trace := trace w1 ++ [EvUnlink temp_file] |}).
Proof.
  intros Hfile Hbody Hfs.
  apply (try_finally_run _ _ _ w1); [exact Hbody|].
  rewrite (cleanup_present temp_file content) by (now rewrite Hfs).
  now rewrite Hfs.
Qed.

Theorem process_document_url_run (request : QueryRequest) (w : World) :
  exists r w' t,
    process_document_url request w = (r, w') /\
    trace w' = trace w ++ t /\
    url_run request w r (fs w') t.
Proof.
  unfold process_document_url, try_except. unfold bind at 1.
  rewrite download_document_run.
  destruct (requests_get (documents request)) as [msg|content] eqn:Hget.
  { eexists _, _, _. split; [reflexivity|]. split; [reflexivity|].
    simpl. now apply url_download_failed. }
  destruct (tempfile_outcome (fs w) ".pdf" content)
    as [|msg|msg partial] eqn:Htmp.
  2:{ eexists _, _, _. split; [reflexivity|]. split; [reflexivity|].
      simpl. now apply url_temp_create_failed with content. }
  2:{ eexists _, _, [_; _]. split; [reflexivity|].
      split; [simpl; rewrite <- app_assoc; reflexivity|].
      simpl. now apply url_temp_write_failed with content. }
  set (p := mkstemp (fs w) ".pdf").
  set (w1 := {| fs := <[p:=content]> (fs w); llm_state := llm_state w;
                trace := _ |}).
  assert (Hfile : fs w1 !! p = Some content) by apply lookup_insert_eq.
  match goal with
  | |- context [try_finally ?b _ w1] => set (body := b)
  end.
  assert (Hbody : exists r w2 t,
             body w1 = (r, w2) /\ fs w2 = fs w1 /\
             trace w2 = trace w ++ t /\
             url_run request w
               match r with
               | inl (HTTPException _ _) => r
               | inl e => inl (HTTPException 500 ("Internal server error: " +:+ exn_str e))
               | inr _ => r
               end
               (fs_after w ".pdf" content)
               (t ++ [EvUnlink p]) /\
             match r with inl (HTTPException _ _) | inr _ => True | _ => False end).
  { subst body. unfold bind at 1.
    replace (if endswith (lower p) ".pdf" then extract_text_from_pdf p
             else extract_text_from_pdf p)
      with (extract_text_from_pdf p) by (now destruct (endswith _ _)).
    rewrite (extract_text_from_pdf_run p content w1 Hfile).
    set (w2 := {| fs := fs w1; llm_state := llm_state w1; trace := _ |}).
    destruct (pdf_outcome content) as [msg|text] eqn:Hpdf.
    { eexists _, w2, _. split; [reflexivity|]. split; [reflexivity|].
      split; [subst w2 w1; simpl; rewrite <- !app_assoc; reflexivity|].
      split; [|exact I].
      now apply (url_extraction_failed request w content msg). }
    unfold bind at 1.
    destruct (replies_dichotomy (llm_state w2)
                (map (prompt text) (map PyStr (questions request))))
      as [[rs Hrs]|(k & rs & msg & Hff)].
    - destruct (process_with_gemini_ok text (PyList (map PyStr (questions request)))
                    (map PyStr (questions request)) rs w2 eq_refl Hrs)
        as (w3 & Hrun & Hfs & Htr).
      rewrite Hrun. eexists _, w3, _. split; [reflexivity|].
      split; [exact Hfs|].
      split; [rewrite Htr; subst w2 w1; simpl; rewrite <- !app_assoc; reflexivity|].
      split; [|exact I].
      simpl. rewrite <- ?app_assoc.
      now apply (url_answered request w content text rs).
    - destruct (process_with_gemini_fail text (PyList (map PyStr (questions request)))
                    (map PyStr (questions request)) k rs msg w2 eq_refl Hff)
        as (w3 & Hrun & Hfs & Htr).
      rewrite Hrun. eexists _, w3, _. split; [reflexivity|].
      split; [exact Hfs|].
      split; [rewrite Htr; subst w2 w1; simpl; rewrite <- !app_assoc; reflexivity|].
      split; [|exact I].
      simpl. rewrite <- ?app_assoc.
      now apply (url_model_failed request w content text k rs msg). }
  destruct Hbody as (r & w2 & t & Hrun & Hfs & Htr & Hshape & Hr).
  rewrite (with_temp_file_run body p content w1 w2 r Hfile Hrun Hfs).
  destruct r as [[]|resp]; try contradiction;
    (eexists _, _, (t ++ [EvUnlink p]); split; [reflexivity|];
     split; [simpl; rewrite Htr, <- app_assoc; reflexivity|];
     exact Hshape).
Qed.

Lemma extraction_dispatch_run (file_ext path content : string) (w : World) :
  file_ext ∈ allowed_extensions ->
  fs w !! path = Some content ->
  (if String.eqb file_ext ".pdf" then extract_text_from_pdf path
   else if bool_decide (file_ext ∈ [".doc"; ".docx"])
        then extract_text_from_docx path
        else raise (HTTPException 400 "Unsupported file format")) w =
  (match extraction_outcome file_ext content with
   | inl msg => inl (extraction_error file_ext msg)
   | inr text => inr text
   end,
   {| fs := fs w; llm_state := llm_state w;
      trace := trace w ++ [extraction_event file_ext path] |}).
Proof.
  intros Hext Hfile.
  unfold extraction_outcome, extraction_event, extraction_error.
  destruct (String.eqb file_ext ".pdf") eqn:Hpdf.
  - rewrite (extract_text_from_pdf_run path content w Hfile).
    destruct (pdf_outcome content); reflexivity.
  - rewrite bool_decide_eq_true_2.
    + rewrite (extract_text_from_docx_run path content w Hfile).
      destruct (docx_outcome content); reflexivity.
    + apply String.eqb_neq in Hpdf. unfold allowed_extensions in Hext.
      apply elem_of_cons in Hext as [Hext|Hext]; [contradiction|exact Hext].
Qed.

Theorem process_file_upload_run (file : UploadFile) (questions : string)
    (w : World) :
  exists r w' t,
    process_file_upload file questions w = (r, w') /\
    trace w' = trace w ++ t /\
    upload_run file questions w r (fs w') t.
Proof.
  unfold process_file_upload, try_except. cbv zeta.
  fold (file_ext_of file). unfold bind at 1.
  destruct (json_loads questions) as [[msg|msg]|v] eqn:Hjson.
  { eexists _, w, []. split; [reflexivity|]. split; [now rewrite app_nil_r|].
    now apply upload_bad_json with msg. }
  { eexists _, w, []. split; [reflexivity|]. split; [now rewrite app_nil_r|].
    now apply upload_loads_raised. }
  unfold ret at 1. unfold bind at 1.
  case_bool_decide as Hext.
  2:{ eexists _, w, []. split; [reflexivity|]. split; [now rewrite app_nil_r|].
      now apply upload_bad_extension with v. }
  unfold ret at 1. unfold bind at 1. unfold NamedTemporaryFile at 1.
  set (ext := file_ext_of file) in *.
  set (content := file_content file).
  destruct (tempfile_outcome (fs w) ext content)
    as [|msg|msg partial] eqn:Htmp.
  2:{ eexists _, w, []. split; [reflexivity|]. split; [now rewrite app_nil_r|].
      now apply upload_temp_create_failed with v. }
  2:{ eexists _, _, [_]. split; [reflexivity|]. split; [reflexivity|].
      simpl. now apply upload_temp_write_failed with v. }
  set (p := mkstemp (fs w) ext).
  set (w1 := {| fs := <[p:=content]> (fs w); llm_state := llm_state w;
                trace := _ |}).
  assert (Hfile : fs w1 !! p = Some content) by apply lookup_insert_eq.
  match goal with
  | |- context [try_finally ?b _ w1] => set (body := b)
  end.
  assert (Hbody : exists r w2 t,
             body w1 = (r, w2) /\ fs w2 = fs w1 /\
             trace w2 = trace w ++ t /\
             upload_run file questions w r
               (fs_after w ext content) (t ++ [EvUnlink p]) /\
             match r with inl (HTTPException _ _) | inr _ => True | _ => False end).
  { subst body. unfold bind at 1.
    rewrite (extraction_dispatch_run ext p content w1 Hext Hfile).
    set (w2 := {| fs := fs w1; llm_state := llm_state w1; trace := _ |}).
    destruct (extraction_outcome ext content) as [msg|text] eqn:Hout.
    { eexists _, w2, _. split; [reflexivity|]. split; [reflexivity|].
      split; [subst w2 w1; simpl; rewrite <- ?app_assoc; reflexivity|].
      split; [simpl; now apply (upload_extraction_failed file questions w v msg)|].
      unfold extraction_error. now destruct (String.eqb ext ".pdf"). }
    unfold bind at 1.
    destruct (py_iter v) as [msg|qs] eqn:Hiter.
    { rewrite (process_with_gemini_not_iterable text v msg w2 Hiter).
      eexists _, w2, _. split; [reflexivity|]. split; [reflexivity|].
      split; [subst w2 w1; simpl; rewrite <- ?app_assoc; reflexivity|].
      split; [|exact I].
      simpl. now apply (upload_not_iterable file questions w v text msg). }
    destruct (replies_dichotomy (llm_state w2) (map (prompt text) qs))
      as [[rs Hrs]|(k & rs & msg & Hff)].
    - destruct (process_with_gemini_ok text v qs rs w2 Hiter Hrs)
        as (w3 & Hrun & Hfs & Htr).
      rewrite Hrun. unfold bind at 1. rewrite (py_len_iter v qs Hiter).
      eexists _, w3, _. split; [reflexivity|].
      split; [exact Hfs|].
      split; [rewrite Htr; subst w2 w1; simpl; rewrite <- ?app_assoc; reflexivity|].
      split; [|exact I].
      simpl. rewrite <- ?app_assoc.
      now apply (upload_answered file questions w v text qs rs).
    - destruct (process_with_gemini_fail text v qs k rs msg w2 Hiter Hff)
        as (w3 & Hrun & Hfs & Htr).
      rewrite Hrun. eexists _, w3, _. split; [reflexivity|].
      split; [exact Hfs|].
      split; [rewrite Htr; subst w2 w1; simpl; rewrite <- ?app_assoc; reflexivity|].
      split; [|exact I].
      simpl. rewrite <- ?app_assoc.
      now apply (upload_model_failed file questions w v text qs k rs msg). }
  destruct Hbody as (r & w2 & t & Hrun & Hfs & Htr & Hshape & Hr).
  rewrite (with_temp_file_run body p content w1 w2 r Hfile Hrun Hfs).
  destruct r as [[]|resp]; try contradiction;
    (eexists _, _, (t ++ [EvUnlink p]); split; [reflexivity|];
     split; [simpl; rewrite Htr, <- app_assoc; reflexivity|];
     exact Hshape).
Qed.

End HandlerRuns.

(** ** What each outcome of the outside world makes of a request *)

(** Two descriptions of the first failure of the same run agree. *)
Ltac same_failure Hff :=
  match goal with
  | H : first_failure _ _ _ _ _ |- _ =>
      tryif constr_eq H Hff then fail
      else destruct (first_failure_unique _ _ _ _ _ _ _ _ Hff H) as (<- & <- & <-)
  end.

(** Which event of a run is the creation of the file at a given path. *)
Ltac temp_event_cases :=
  repeat match goal with
  | H : _ \/ _ |- _ => destruct H
  | H : False |- _ => destruct H
  | H : EvTempCreate _ = EvTempCreate _ |- _ => injection H as ->
  | H : EvTempCreate _ = _ |- _ =>
      first [discriminate H | exfalso; eauto; fail]
  | H : EvTempCreate _ ∈ gen_events _ _ _ |- _ => exfalso; eauto; fail
  end.

Section HandlerFacts.
Context {E : External}.
Import PyStr.

Lemma process_document_url_success (request : QueryRequest) (w w' : World)
    (resp : QueryResponse) :
  process_document_url request w = (inr resp, w') ->
  exists content text rs,
    requests_get (documents request) = inr content /\
    pdf_outcome content = inr text /\
    replies (llm_state w)
      (map (prompt text) (map PyStr (questions request))) = map inr rs /\
    resp = url_response request text rs.
Proof.
  intros Hrun.
  destruct (process_document_url_run request w) as (r & w1 & t & Hr & _ & Hshape).
  rewrite Hrun in Hr. injection Hr as <- <-.
  inversion Hshape; subst. eauto 10.
Qed.

Lemma process_file_upload_success (file : UploadFile) (questions : string)
    (w w' : World) (resp : FileUploadResponse) :
  process_file_upload file questions w = (inr resp, w') ->
  exists v text qs rs,
    json_loads questions = inr v /\
    file_ext_of file ∈ allowed_extensions /\
    extraction_outcome (file_ext_of file) (file_content file) = inr text /\
    py_iter v = inr qs /\
    replies (llm_state w) (map (prompt text) qs) = map inr rs /\
    resp = upload_response file text qs rs.
Proof.
  intros Hrun.
  destruct (process_file_upload_run file questions w)
    as (r & w1 & t & Hr & _ & Hshape).
  rewrite Hrun in Hr. injection Hr as <- <-.
  inversion Hshape; subst. eauto 12.
Qed.

Lemma process_document_url_download_failure (request : QueryRequest)
    (msg : string) (w : World) :
  requests_get (documents request) = inl msg ->
  exists w',
    process_document_url request w =
    (inl (HTTPException 400 ("Error downloading document: " +:+ msg)), w') /\
    fs w' = fs w /\
    trace w' = trace w ++ [EvHttpGet (documents request)].
Proof.
  intros Hget.
  destruct (process_document_url_run request w) as (r & w' & t & Hr & Htr & Hshape).
  exists w'. inversion Hshape; subst; try congruence.
  assert (msg0 = msg) by congruence. subst msg0. auto.
Qed.

Lemma process_document_url_extraction_failure (request : QueryRequest)
    (content msg : string) (w : World) :
  requests_get (documents request) = inr content ->
  tempfile_outcome (fs w) ".pdf" content = TmpWritten ->
  pdf_outcome content = inl msg ->
  exists w',
    process_document_url request w =
    (inl (HTTPException 500 ("Error processing PDF: " +:+ msg)), w') /\
    fs w' = fs_after w ".pdf" content /\
    trace w' = trace w ++
      [EvHttpGet (documents request); EvTempCreate (temp_name w ".pdf");
       EvPdfReader (temp_name w ".pdf"); EvUnlink (temp_name w ".pdf")].
Proof.
  intros Hget Htmp Hpdf.
  destruct (process_document_url_run request w) as (r & w' & t & Hr & Htr & Hshape).
  exists w'. inversion Hshape; subst; try congruence;
    assert (content0 = content) by congruence; subst content0; try congruence.
  assert (msg0 = msg) by congruence. subst msg0. auto.
Qed.

Lemma process_document_url_model_failure (request : QueryRequest)
    (content text : string) (k : nat) (rs : list string) (msg : string)
    (w : World) :
  requests_get (documents request) = inr content ->
  tempfile_outcome (fs w) ".pdf" content = TmpWritten ->
  pdf_outcome content = inr text ->
  first_failure (llm_state w)
    (map (prompt text) (map PyStr (questions request))) k rs msg ->
  exists w',
    process_document_url request w =
    (inl (HTTPException 500 ("Error processing with AI: " +:+ msg)), w') /\
    fs w' = fs_after w ".pdf" content /\
    trace w' = trace w ++
      ([EvHttpGet (documents request); EvTempCreate (temp_name w ".pdf");
        EvPdfReader (temp_name w ".pdf")]
       ++ gen_events text (map PyStr (questions request))
            (map inr rs ++ [inl msg])
       ++ [EvUnlink (temp_name w ".pdf")]).
Proof.
  intros Hget Htmp Hpdf Hff.
  destruct (process_document_url_run request w) as (r & w' & t & Hr & Htr & Hshape).
  exists w'. inversion Hshape; subst; try congruence;
    assert (content0 = content) by congruence; subst content0; try congruence;
    assert (text0 = text) by congruence; subst text0.
  - same_failure Hff. auto.
  - exfalso. eapply first_failure_not_all; eassumption.
Qed.

Lemma process_file_upload_bad_extension (file : UploadFile)
    (questions : string) (w : World) :
  file_ext_of file ∉ allowed_extensions ->
  process_file_upload file questions w =
  (inl (gate_rejection file questions), w).
Proof.
  intros Hext. unfold process_file_upload, try_except, gate_rejection.
  cbv zeta. fold (file_ext_of file). unfold bind at 1.
  destruct (json_loads questions) as [[msg|msg]|v]; try reflexivity.
  unfold ret at 1. unfold bind at 1.
  rewrite bool_decide_eq_false_2 by exact Hext. reflexivity.
Qed.

Lemma process_file_upload_loads_failure (file : UploadFile)
    (questions : string) (e : loads_error) (w : World) :
  json_loads questions = inl e ->
  process_file_upload file questions w =
  (inl match e with
       | NotJson _ => HTTPException 400 "Invalid JSON format for questions"
       | LoadsRaised msg =>
           HTTPException 500 ("Internal server error: " +:+ msg)
       end, w).
Proof.
  intros Hjson. unfold process_file_upload, try_except.
  cbv zeta. unfold bind at 1. rewrite Hjson. now destruct e.
Qed.

(** The request ends where the temporary file could not be created or
    written: nothing was extracted and nothing removes the file. *)
Lemma process_document_url_temp_failure (request : QueryRequest)
    (content : string) (w : World) :
  requests_get (documents request) = inr content ->
  tempfile_outcome (fs w) ".pdf" content <> TmpWritten ->
  exists msg w',
    process_document_url request w =
    (inl (HTTPException 400 ("Error downloading document: " +:+ msg)), w') /\
    match tempfile_outcome (fs w) ".pdf" content with
    | TmpWritten => False
    | TmpCreateFailed m =>
        msg = m /\ fs w' = fs w /\
        trace w' = trace w ++ [EvHttpGet (documents request)]
    | TmpWriteFailed m partial =>
        msg = m /\ fs w' = <[temp_name w ".pdf" := partial]> (fs w) /\
        trace w' = trace w ++ [EvHttpGet (documents request);
                               EvTempCreate (temp_name w ".pdf")]
    end.
Proof.
  intros Hget Htmp.
  destruct (process_document_url_run request w) as (r & w' & t & Hr & Htr & Hshape).
  inversion Hshape; subst; try congruence;
    assert (content0 = content) by congruence; subst content0;
    try contradiction;
    exists msg, w'; (split; [exact Hr|]);
    match goal with H : tempfile_outcome _ _ _ = _ |- _ => rewrite H end;
    auto.
Qed.

Lemma process_file_upload_temp_failure (file : UploadFile)
    (questions : string) (v : pyvalue) (w : World) :
  json_loads questions = inr v ->
  file_ext_of file ∈ allowed_extensions ->
  tempfile_outcome (fs w) (file_ext_of file) (file_content file) <>
  TmpWritten ->
  exists msg w',
    process_file_upload file questions w =
    (inl (HTTPException 500 ("Internal server error: " +:+ msg)), w') /\
    match tempfile_outcome (fs w) (file_ext_of file) (file_content file) with
    | TmpWritten => False
    | TmpCreateFailed m =>
        msg = m /\ fs w' = fs w /\ trace w' = trace w
    | TmpWriteFailed m partial =>
        msg = m /\
        fs w' = <[temp_name w (file_ext_of file) := partial]> (fs w) /\
        trace w' = trace w ++ [EvTempCreate (temp_name w (file_ext_of file))]
    end.
Proof.
  intros Hjson Hext Htmp.
  destruct (process_file_upload_run file questions w)
    as (r & w' & t & Hr & Htr & Hshape).
  inversion Hshape; subst; try congruence; try contradiction;
    exists msg, w'; (split; [exact Hr|]);
    match goal with H : tempfile_outcome _ _ _ = _ |- _ => rewrite H end;
    rewrite ?app_nil_r in Htr; auto.
Qed.

Lemma process_document_url_answered (request : QueryRequest)
    (content text : string) (rs : list string) (w : World) :
  requests_get (documents request) = inr content ->
  tempfile_outcome (fs w) ".pdf" content = TmpWritten ->
  pdf_outcome content = inr text ->
  replies (llm_state w)
    (map (prompt text) (map PyStr (questions request))) = map inr rs ->
  exists w',
    process_document_url request w = (inr (url_response request text rs), w') /\
    fs w' = fs_after w ".pdf" content /\
    trace w' = trace w ++
      ([EvHttpGet (documents request); EvTempCreate (temp_name w ".pdf");
        EvPdfReader (temp_name w ".pdf")]
       ++ gen_events text (map PyStr (questions request)) (map inr rs)
       ++ [EvUnlink (temp_name w ".pdf")]).
Proof.
  intros Hget Htmp Hpdf Hrs.
  destruct (process_document_url_run request w) as (r & w' & t & Hr & Htr & Hshape).
  exists w'. inversion Hshape; subst; try congruence;
    assert (content0 = content) by congruence; subst content0; try congruence;
    assert (text0 = text) by congruence; subst text0.
  - exfalso. eapply first_failure_not_all; eassumption.
  - match goal with
    | H : replies _ _ = map inr ?x |- _ =>
        rewrite Hrs in H; apply map_inr_inj in H; subst x
    end. auto.
Qed.

Lemma process_file_upload_extraction_failure (file : UploadFile)
    (questions : string) (v : pyvalue) (msg : string) (w : World) :
  json_loads questions = inr v ->
  file_ext_of file ∈ allowed_extensions ->
  tempfile_outcome (fs w) (file_ext_of file) (file_content file) =
  TmpWritten ->
  extraction_outcome (file_ext_of file) (file_content file) = inl msg ->
  exists w',
    process_file_upload file questions w =
    (inl (extraction_error (file_ext_of file) msg), w') /\
    fs w' = fs_after w (file_ext_of file) (file_content file) /\
    trace w' = trace w ++
      [EvTempCreate (temp_name w (file_ext_of file));
       extraction_event (file_ext_of file) (temp_name w (file_ext_of file));
       EvUnlink (temp_name w (file_ext_of file))].
Proof.
  intros Hjson Hext Htmp Hout.
  destruct (process_file_upload_run file questions w)
    as (r & w' & t & Hr & Htr & Hshape).
  exists w'. inversion Hshape; subst; try congruence; try contradiction.
  assert (msg0 = msg) by congruence. subst msg0. auto.
Qed.

Lemma process_file_upload_model_failure (file : UploadFile)
    (questions : string) (v : pyvalue) (text : string) (qs : list pyvalue)
    (k : nat) (rs : list string) (msg : string) (w : World) :
  json_loads questions = inr v ->
  file_ext_of file ∈ allowed_extensions ->
  tempfile_outcome (fs w) (file_ext_of file) (file_content file) =
  TmpWritten ->
  extraction_outcome (file_ext_of file) (file_content file) = inr text ->
  py_iter v = inr qs ->
  first_failure (llm_state w) (map (prompt text) qs) k rs msg ->
  exists w',
    process_file_upload file questions w =
    (inl (HTTPException 500 ("Error processing with AI: " +:+ msg)), w') /\
    fs w' = fs_after w (file_ext_of file) (file_content file) /\
    trace w' = trace w ++
      ([EvTempCreate (temp_name w (file_ext_of file));
        extraction_event (file_ext_of file) (temp_name w (file_ext_of file))]
       ++ gen_events text qs (map inr rs ++ [inl msg])
       ++ [EvUnlink (temp_name w (file_ext_of file))]).
Proof.
  intros Hjson Hext Htmp Hout Hiter Hff.
  destruct (process_file_upload_run file questions w)
    as (r & w' & t & Hr & Htr & Hshape).
  exists w'. inversion Hshape; subst; try congruence; try contradiction;
    assert (v0 = v) by congruence; subst v0; try congruence;
    assert (text0 = text) by congruence; subst text0; try congruence;
    assert (qs0 = qs) by congruence; subst qs0.
  - same_failure Hff. auto.
  - exfalso. eapply first_failure_not_all; eassumption.
Qed.

Lemma process_file_upload_answered (file : UploadFile)
    (questions : string) (v : pyvalue) (text : string) (qs : list pyvalue)
    (rs : list string) (w : World) :
  json_loads questions = inr v ->
  file_ext_of file ∈ allowed_extensions ->
  tempfile_outcome (fs w) (file_ext_of file) (file_content file) =
  TmpWritten ->
  extraction_outcome (file_ext_of file) (file_content file) = inr text ->
  py_iter v = inr qs ->
  replies (llm_state w) (map (prompt text) qs) = map inr rs ->
  exists w',
    process_file_upload file questions w =
    (inr (upload_response file text qs rs), w') /\
    fs w' = fs_after w (file_ext_of file) (file_content file) /\
    trace w' = trace w ++
      ([EvTempCreate (temp_name w (file_ext_of file));
        extraction_event (file_ext_of file) (temp_name w (file_ext_of file))]
       ++ gen_events text qs (map inr rs)
       ++ [EvUnlink (temp_name w (file_ext_of file))]).
Proof.
  intros Hjson Hext Htmp Hout Hiter Hrs.
  destruct (process_file_upload_run file questions w)
    as (r & w' & t & Hr & Htr & Hshape).
  exists w'. inversion Hshape; subst; try congruence; try contradiction;
    assert (v0 = v) by congruence; subst v0; try congruence;
    assert (text0 = text) by congruence; subst text0; try congruence;
    assert (qs0 = qs) by congruence; subst qs0.
  - exfalso. eapply first_failure_not_all; eassumption.
  - match goal with
    | H : replies _ _ = map inr ?x |- _ =>
        rewrite Hrs in H; apply map_inr_inj in H; subst x
    end. auto.
Qed.

(** A run creates at most the one temporary file [temp_name w suffix]
    and touches no other file.  When the run removes the file, it is gone
    at the end; the run that does not remove it is the one whose write
    failed, and there the file stays with what had been written. *)
Lemma url_run_temp (request : QueryRequest) (w : World)
    (r : exn + QueryResponse) (f : gmap string string) (t : list event)
    (p : string) :
  url_run request w r f t ->
  EvTempCreate p ∈ t ->
  p = temp_name w ".pdf" /\
  (forall q, q <> p -> f !! q = fs w !! q) /\
  ((exists content,
      requests_get (documents request) = inr content /\
      tempfile_outcome (fs w) ".pdf" content = TmpWritten /\
      EvUnlink p ∈ t /\ f !! p = None) \/
   (exists content msg partial,
      requests_get (documents request) = inr content /\
      tempfile_outcome (fs w) ".pdf" content = TmpWriteFailed msg partial /\
      r = inl (HTTPException 400 ("Error downloading document: " +:+ msg)) /\
      (EvUnlink p ∉ t) /\ f !! p = Some partial)).
Proof.
  assert (Hgen : forall text qs rs, EvTempCreate p ∈ gen_events text qs rs -> False).
  { intros text qs rs Hin.
    pose proof (gen_events_generate text qs rs) as Hall.
    rewrite Forall_forall in Hall. apply Hall in Hin. discriminate. }
  assert (Hdel : forall content q, q <> temp_name w ".pdf" ->
             fs_after w ".pdf" content !! q = fs w !! q).
  { intros content q Hq. unfold fs_after.
    rewrite lookup_delete_ne, lookup_insert_ne by congruence. reflexivity. }
  assert (Hgone : forall content,
             fs_after w ".pdf" content !! temp_name w ".pdf" = None).
  { intros content. apply lookup_delete_eq. }
  assert (Hlast : forall l : list event,
             EvUnlink (temp_name w ".pdf") ∈ l ++ [EvUnlink (temp_name w ".pdf")]).
  { intros l. rewrite elem_of_app, list_elem_of_singleton. now right. }
  intros Hshape Hin. inversion Hshape; subst;
    repeat (rewrite ?elem_of_app, ?elem_of_cons, ?elem_of_nil in Hin);
    temp_event_cases.
  all: split; [reflexivity|].
  - split; [intros q Hq; now rewrite lookup_insert_ne by congruence|].
    right. exists content, msg, partial.
    repeat split; try assumption; [|apply lookup_insert_eq].
    rewrite !elem_of_cons, elem_of_nil. intuition discriminate.
  - split; [now apply Hdel|]. left. exists content.
    repeat split; try assumption; [|apply Hgone].
    rewrite !elem_of_cons. auto.
  - split; [now apply Hdel|]. left. exists content.
    repeat split; try assumption; [|apply Hgone].
    change (?a :: ?b :: ?c :: ?l) with ([a; b; c] ++ l).
    rewrite app_assoc. apply Hlast.
  - split; [now apply Hdel|]. left. exists content.
    repeat split; try assumption; [|apply Hgone].
    change (?a :: ?b :: ?c :: ?l) with ([a; b; c] ++ l).
    rewrite app_assoc. apply Hlast.
Qed.

Lemma upload_run_temp (file : UploadFile) (questions : string)
    (w : World) (r : exn + FileUploadResponse) (f : gmap string string)
    (t : list event) (p : string) :
  upload_run file questions w r f t ->
  EvTempCreate p ∈ t ->
  p = temp_name w (file_ext_of file) /\
  (forall q, q <> p -> f !! q = fs w !! q) /\
  ((tempfile_outcome (fs w) (file_ext_of file) (file_content file) =
    TmpWritten /\
    EvUnlink p ∈ t /\ f !! p = None) \/
   (exists msg partial,
      tempfile_outcome (fs w) (file_ext_of file) (file_content file) =
      TmpWriteFailed msg partial /\
      r = inl (HTTPException 500 ("Internal server error: " +:+ msg)) /\
      (EvUnlink p ∉ t) /\ f !! p = Some partial)).
Proof.
  assert (Hgen : forall text qs rs, EvTempCreate p ∈ gen_events text qs rs -> False).
  { intros text qs rs Hin.
    pose proof (gen_events_generate text qs rs) as Hall.
    rewrite Forall_forall in Hall. apply Hall in Hin. discriminate. }
  assert (Hev : forall ext q, EvTempCreate p = extraction_event ext q -> False).
  { intros ext q. unfold extraction_event.
    destruct (String.eqb ext ".pdf"); discriminate. }
  set (ext := file_ext_of file).
  assert (Hdel : forall content q, q <> temp_name w ext ->
             fs_after w ext content !! q = fs w !! q).
  { intros content q Hq. unfold fs_after.
    rewrite lookup_delete_ne, lookup_insert_ne by congruence. reflexivity. }
  assert (Hgone : forall content,
             fs_after w ext content !! temp_name w ext = None).
  { intros content. apply lookup_delete_eq. }
  assert (Hlast : forall l : list event,
             EvUnlink (temp_name w ext) ∈ l ++ [EvUnlink (temp_name w ext)]).
  { intros l. rewrite elem_of_app, list_elem_of_singleton. now right. }
  intros Hshape Hin. inversion Hshape; subst;
    repeat (rewrite ?elem_of_app, ?elem_of_cons, ?elem_of_nil in Hin);
    temp_event_cases.
  all: split; [reflexivity|].
  - split; [intros q Hq; now rewrite lookup_insert_ne by congruence|].
    right. exists msg, partial.
    repeat split; try assumption; [|apply lookup_insert_eq].
    rewrite !elem_of_cons, elem_of_nil. intuition discriminate.
  - split; [now apply Hdel|]. left.
    repeat split; try assumption; [|apply Hgone].
    rewrite !elem_of_cons. auto.
  - split; [now apply Hdel|]. left.
    repeat split; try assumption; [|apply Hgone].
    rewrite !elem_of_cons. auto.
  - split; [now apply Hdel|]. left.
    repeat split; try assumption; [|apply Hgone].
    change (?a :: ?b :: ?l) with ([a; b] ++ l).
    rewrite app_assoc. apply Hlast.
  - split; [now apply Hdel|]. left.
    repeat split; try assumption; [|apply Hgone].
    change (?a :: ?b :: ?l) with ([a; b] ++ l).
    rewrite app_assoc. apply Hlast.
Qed.

End HandlerFacts.

(** * Main results *)

Section PureClaims.
Context {E : External}.
Import PyStr.

(** C5. The text budget [text[:C]] of a non-negative [C] is the prefix of
    the text of length [min C (len text)]: it is at most [C] characters
    long, budgeting twice is budgeting once, and a text of at most [C]
    characters is unchanged.  The code budgets with [C = 8000]. *)
Theorem budget_takes_prefix (text : string) (C : Z) :
  0 <= C ->
  (exists rest, text = budget text C +:+ rest) /\
  len (budget text C) = Z.min C (len text) /\
  len (budget text C) <= C /\
  budget (budget text C) C = budget text C /\
  (len text <= C -> budget text C = text).
Proof.
  intros HC.
  assert (Hlen : len (budget text C) = Z.min C (len text)).
  { rewrite budget_unfold by exact HC. unfold len.
    rewrite substring_0_length. lia. }
  split; [rewrite budget_unfold by exact HC; apply substring_0_prefix|].
  split; [exact Hlen|].
  split; [lia|].
  split.
  - rewrite (budget_unfold (budget text C)) by exact HC.
    apply substring_0_all. unfold len in *. lia.
  - intros Hshort. rewrite budget_unfold by exact HC.
    apply substring_0_all. unfold len in *. lia.
Qed.

(** C8. The prompt is a fixed template around the budgeted text and the
    question: the same budgeted text and the same question give the same
    prompt, the prompt holds the budgeted text, then the question as it
    is, then the fallback phrase, and the fallback phrase is the fixed
    sentence of the contract. *)
Theorem prompt_is_fixed_template :
  (exists head middle before_fallback tail : string,
     forall (text : string) (question : pyvalue),
       prompt text question =
       head +:+ budget text 8000 +:+ middle +:+ py_str question
       +:+ before_fallback +:+ fallback_phrase +:+ tail) /\
  (forall (text1 text2 : string) (question1 question2 : pyvalue),
     budget text1 8000 = budget text2 8000 ->
     py_str question1 = py_str question2 ->
     prompt text1 question1 = prompt text2 question2) /\
  (forall (text question : string),
     contains (prompt text (PyStr question)) (budget text 8000) /\
     contains (prompt text (PyStr question)) question /\
     contains (prompt text (PyStr question)) fallback_phrase) /\
  fallback_phrase = "Information not found in the document.".
Proof.
  split; [|split; [|split; [|reflexivity]]].
  - exists (nl +:+ indent +:+ "Document Text:" +:+ nl +:+ indent),
           ("  # Limit text to avoid token limits" +:+ nl +:+ indent +:+ nl
            +:+ indent +:+ "Question: "),
           (nl +:+ indent +:+ nl +:+ indent
            +:+ "Please provide a clear, concise answer based on the document content. If the answer is not found in the document, say "
            +:+ dquote),
           (dquote +:+ nl +:+ indent).
    intros text question. unfold prompt.
    rewrite !append_assoc. reflexivity.
  - intros text1 text2 question1 question2 Hb Hq. unfold prompt.
    now rewrite Hb, Hq.
  - intros text question. unfold contains, prompt. simpl py_str.
    split; [|split].
    + eexists (nl +:+ indent +:+ "Document Text:" +:+ nl +:+ indent), _.
      rewrite !append_assoc. reflexivity.
    + eexists (nl +:+ indent +:+ "Document Text:" +:+ nl +:+ indent
               +:+ budget text 8000 +:+ "  # Limit text to avoid token limits"
               +:+ nl +:+ indent +:+ nl +:+ indent +:+ "Question: "), _.
      rewrite !append_assoc. reflexivity.
    + eexists (nl +:+ indent +:+ "Document Text:" +:+ nl +:+ indent
               +:+ budget text 8000 +:+ "  # Limit text to avoid token limits"
               +:+ nl +:+ indent +:+ nl +:+ indent +:+ "Question: "
               +:+ question +:+ nl +:+ indent +:+ nl +:+ indent
               +:+ "Please provide a clear, concise answer based on the document content. If the answer is not found in the document, say "
               +:+ dquote), _.
      rewrite !append_assoc. reflexivity.
Qed.

(** C9. Every answer of a successful run, of the helper and of both
    handlers, is a stripped model response: it has no leading and no
    trailing whitespace. *)
Theorem answers_are_stripped :
  (forall (text : string) (questions : pyvalue) (w w' : World)
          (answers : list string),
     process_with_gemini text questions w = (inr answers, w') ->
     Forall stripped answers /\ Forall (fun a => strip a = a) answers) /\
  (forall (request : QueryRequest) (w w' : World) (resp : QueryResponse),
     process_document_url request w = (inr resp, w') ->
     Forall stripped (answers resp)) /\
  (forall (file : UploadFile) (questions : string) (w w' : World)
          (resp : FileUploadResponse),
     process_file_upload file questions w = (inr resp, w') ->
     Forall stripped (upload_answers resp)).
Proof.
  assert (Hmap : forall rs, Forall stripped (map strip rs)).
  { intros rs. apply Forall_forall. intros a Ha.
    apply list_elem_of_In, in_map_iff in Ha as (r & <- & _).
    apply strip_stripped. }
  split; [|split].
  - intros text questions w w' answers Hrun.
    apply process_with_gemini_success in Hrun
      as (qs & rs & _ & _ & -> & _).
    split; [apply Hmap|].
    eapply Forall_impl; [apply Hmap|]. intros a Ha. now apply stripped_fixpoint.
  - intros request w w' resp Hrun.
    apply process_document_url_success in Hrun
      as (content & text & rs & _ & _ & _ & ->).
    apply Hmap.
  - intros file questions w w' resp Hrun.
    apply process_file_upload_success in Hrun
      as (v & text & qs & rs & _ & _ & _ & _ & _ & ->).
    apply Hmap.
Qed.

End PureClaims.

Section PipelineClaims.
Context {E : External}.
Import PyStr.

(** C1. A successful run returns one answer per question, and answer [i]
    is the stripped reply of the model to the prompt of question [i]:
    the helper makes one model call per question, in the order of the
    questions, and both handlers return its list as it is. *)
Theorem answers_positionally_aligned :
  (forall (text : string) (questions : pyvalue) (w w' : World)
          (answers : list string),
     process_with_gemini text questions w = (inr answers, w') ->
     exists qs,
       py_iter questions = inr qs /\
       answers_match (llm_state w) text qs answers /\
       new_events w w' =
       gen_events text qs (replies (llm_state w) (map (prompt text) qs))) /\
  (forall (request : QueryRequest) (w w' : World) (resp : QueryResponse),
     process_document_url request w = (inr resp, w') ->
     length (answers resp) = length (questions request) /\
     exists content text,
       requests_get (documents request) = inr content /\
       pdf_outcome content = inr text /\
       answers_match (llm_state w) text (map PyStr (questions request))
         (answers resp)) /\
  (forall (file : UploadFile) (questions : string) (w w' : World)
          (resp : FileUploadResponse),
     process_file_upload file questions w = (inr resp, w') ->
     exists v qs text,
       json_loads questions = inr v /\
       py_iter v = inr qs /\
       extraction_outcome (file_ext_of file) (file_content file) = inr text /\
       answers_match (llm_state w) text qs (upload_answers resp) /\
       total_questions (upload_metadata resp) =
       Z.of_nat (length (upload_answers resp))).
Proof.
  split; [|split].
  - intros text questions w w' answers Hrun.
    apply process_with_gemini_success in Hrun
      as (qs & rs & Hiter & Hrs & -> & _ & Htr).
    exists qs. split; [exact Hiter|]. split.
    + now apply answers_match_replies.
    + rewrite Hrs. now apply new_events_app.
  - intros request w w' resp Hrun.
    apply process_document_url_success in Hrun
      as (content & text & rs & Hget & Hpdf & Hrs & ->).
    pose proof (answers_match_replies _ _ _ _ Hrs) as Hmatch.
    split.
    + destruct Hmatch as [Hlen _]. simpl. rewrite Hlen. apply length_map.
    + exists content, text. auto.
  - intros file questions w w' resp Hrun.
    apply process_file_upload_success in Hrun
      as (v & text & qs & rs & Hjson & _ & Hout & Hiter & Hrs & ->).
    pose proof (answers_match_replies _ _ _ _ Hrs) as Hmatch.
    exists v, qs, text. do 4 (split; [assumption|]).
    destruct Hmatch as [Hlen _]. simpl in *. now rewrite Hlen.
Qed.

(** C2. When the model service answers the first [k] questions and fails
    on the next one, the helper raises a 500 HTTPException after exactly
    [k + 1] model calls, the last one being the failed one; both handlers
    pass that exception on, so the caller gets status 500 and an error
    detail, and none of the [k] answers.  The handlers reach the model
    with the document stored and its text extracted. *)
Theorem model_failure_fails_whole_request :
  (forall (text : string) (questions : pyvalue) (qs : list pyvalue)
          (k : nat) (rs : list string) (msg : string) (w : World),
     py_iter questions = inr qs ->
     first_failure (llm_state w) (map (prompt text) qs) k rs msg ->
     exists w',
       process_with_gemini text questions w =
       (inl (HTTPException 500 ("Error processing with AI: " +:+ msg)), w') /\
       new_events w w' = gen_events text qs (map inr rs ++ [inl msg]) /\
       length (new_events w w') = S k) /\
  (forall (request : QueryRequest) (content text : string) (k : nat)
          (rs : list string) (msg : string) (w : World),
     requests_get (documents request) = inr content ->
     tempfile_outcome (fs w) ".pdf" content = TmpWritten ->
     pdf_outcome content = inr text ->
     first_failure (llm_state w)
       (map (prompt text) (map PyStr (questions request))) k rs msg ->
     exists r w',
       process_document_url request w = (r, w') /\
       r = inl (HTTPException 500 ("Error processing with AI: " +:+ msg)) /\
       status_of r = 500 /\
       List.filter is_generate (new_events w w') =
       gen_events text (map PyStr (questions request)) (map inr rs ++ [inl msg]) /\
       length (List.filter is_generate (new_events w w')) = S k) /\
  (forall (file : UploadFile) (questions : string) (v : pyvalue)
          (text : string) (qs : list pyvalue) (k : nat) (rs : list string)
          (msg : string) (w : World),
     json_loads questions = inr v ->
     file_ext_of file ∈ allowed_extensions ->
     tempfile_outcome (fs w) (file_ext_of file) (file_content file) =
     TmpWritten ->
     extraction_outcome (file_ext_of file) (file_content file) = inr text ->
     py_iter v = inr qs ->
     first_failure (llm_state w) (map (prompt text) qs) k rs msg ->
     exists r w',
       process_file_upload file questions w = (r, w') /\
       r = inl (HTTPException 500 ("Error processing with AI: " +:+ msg)) /\
       status_of r = 500 /\
       List.filter is_generate (new_events w w') =
       gen_events text qs (map inr rs ++ [inl msg]) /\
       length (List.filter is_generate (new_events w w')) = S k).
Proof.
  assert (Hcount : forall g text qs k rs msg,
             first_failure g (map (prompt text) qs) k rs msg ->
             length (gen_events text qs (map inr rs ++ [inl msg])) = S k).
  { intros g text qs k rs msg Hff.
    apply first_failure_length in Hff as [Hk Hlt].
    rewrite length_map in Hlt.
    rewrite gen_events_length, length_app, length_map. simpl. lia. }
  split; [|split].
  - intros text questions qs k rs msg w Hiter Hff.
    destruct (process_with_gemini_fail text questions qs k rs msg w Hiter Hff)
      as (w' & Hrun & _ & Htr).
    exists w'. split; [exact Hrun|].
    rewrite (new_events_app _ _ _ Htr). split; [reflexivity|].
    eapply Hcount, Hff.
  - intros request content text k rs msg w Hget Htmp Hpdf Hff.
    destruct (process_document_url_model_failure request content text k rs
                msg w Hget Htmp Hpdf Hff) as (w' & Hrun & _ & Htr).
    eexists _, w'. split; [exact Hrun|]. split; [reflexivity|].
    split; [reflexivity|].
    rewrite (new_events_app _ _ _ Htr). simpl.
    rewrite List.filter_app, gen_events_filter. simpl. rewrite app_nil_r.
    split; [reflexivity|]. eapply Hcount, Hff.
  - intros file questions v text qs k rs msg w Hjson Hext Htmp Hout Hiter Hff.
    destruct (process_file_upload_model_failure file questions v text qs k
                rs msg w Hjson Hext Htmp Hout Hiter Hff)
      as (w' & Hrun & _ & Htr).
    eexists _, w'. split; [exact Hrun|]. split; [reflexivity|].
    split; [reflexivity|].
    rewrite (new_events_app _ _ _ Htr). simpl.
    assert (Hev : is_generate (extraction_event (file_ext_of file)
                                 (temp_name w (file_ext_of file))) = false).
    { unfold extraction_event. now destruct (String.eqb _ _). }
    rewrite Hev, List.filter_app, gen_events_filter. simpl. rewrite app_nil_r.
    split; [reflexivity|]. eapply Hcount, Hff.
Qed.

(** C6. Both handlers create the temporary file with [delete=False] and
    write it before they enter the [try ... finally] that removes it.
    When the write raises after the file has been created, the request
    ends with an error (400 on the URL endpoint, 500 on the upload
    endpoint), no removal is attempted, and the file is on the filesystem
    when the handler is done.  On the runs whose write does not fail the
    file that was created is gone at the end, whatever the outcome, and
    every other file is as it was. *)
Theorem temporary_file_outlives_failed_write :
  (forall (request : QueryRequest) (content msg partial : string) (w : World),
     requests_get (documents request) = inr content ->
     tempfile_outcome (fs w) ".pdf" content = TmpWriteFailed msg partial ->
     exists w',
       process_document_url request w =
       (inl (HTTPException 400 ("Error downloading document: " +:+ msg)), w') /\
       new_events w w' =
       [EvHttpGet (documents request); EvTempCreate (temp_name w ".pdf")] /\
       fs w' !! temp_name w ".pdf" = Some partial) /\
  (forall (file : UploadFile) (questions : string) (v : pyvalue)
          (msg partial : string) (w : World),
     json_loads questions = inr v ->
     file_ext_of file ∈ allowed_extensions ->
     tempfile_outcome (fs w) (file_ext_of file) (file_content file) =
     TmpWriteFailed msg partial ->
     exists w',
       process_file_upload file questions w =
       (inl (HTTPException 500 ("Internal server error: " +:+ msg)), w') /\
       new_events w w' = [EvTempCreate (temp_name w (file_ext_of file))] /\
       fs w' !! temp_name w (file_ext_of file) = Some partial) /\
  (forall (request : QueryRequest) (w : World) (p : string),
     (forall content msg partial,
        requests_get (documents request) = inr content ->
        tempfile_outcome (fs w) ".pdf" content <> TmpWriteFailed msg partial) ->
     EvTempCreate p ∈ new_events w (snd (process_document_url request w)) ->
     fs (snd (process_document_url request w)) !! p = None /\
     forall q, q <> p ->
       fs (snd (process_document_url request w)) !! q = fs w !! q) /\
  (forall (file : UploadFile) (questions : string) (w : World) (p : string),
     (forall msg partial,
        tempfile_outcome (fs w) (file_ext_of file) (file_content file) <>
        TmpWriteFailed msg partial) ->
     EvTempCreate p ∈ new_events w (snd (process_file_upload file questions w)) ->
     fs (snd (process_file_upload file questions w)) !! p = None /\
     forall q, q <> p ->
       fs (snd (process_file_upload file questions w)) !! q = fs w !! q).
Proof.
  split; [|split; [|split]].
  - intros request content msg partial w Hget Htmp.
    destruct (process_document_url_temp_failure request content w Hget)
      as (m & w' & Hrun & Hshape); [congruence|].
    rewrite Htmp in Hshape. destruct Hshape as (-> & Hfs & Htr).
    exists w'. split; [exact Hrun|]. split; [now apply new_events_app|].
    rewrite Hfs. apply lookup_insert_eq.
  - intros file questions v msg partial w Hjson Hext Htmp.
    destruct (process_file_upload_temp_failure file questions v w Hjson Hext)
      as (m & w' & Hrun & Hshape); [congruence|].
    rewrite Htmp in Hshape. destruct Hshape as (-> & Hfs & Htr).
    exists w'. split; [exact Hrun|]. split; [now apply new_events_app|].
    rewrite Hfs. apply lookup_insert_eq.
  - intros request w p Hok.
    destruct (process_document_url_run request w) as (r & w' & t & Hr & Htr & Hshape).
    rewrite Hr. simpl. rewrite (new_events_app _ _ _ Htr). intros Hin.
    destruct (url_run_temp request w r (fs w') t p Hshape Hin)
      as (_ & Hframe & [(content & _ & _ & _ & Hgone)
                       |(content & msg & partial & Hget & Htmp & _)]).
    + split; assumption.
    + exfalso. exact (Hok content msg partial Hget Htmp).
  - intros file questions w p Hok.
    destruct (process_file_upload_run file questions w)
      as (r & w' & t & Hr & Htr & Hshape).
    rewrite Hr. simpl. rewrite (new_events_app _ _ _ Htr). intros Hin.
    destruct (upload_run_temp file questions w r (fs w') t p Hshape Hin)
      as (_ & Hframe & [(_ & _ & Hgone)|(msg & partial & Htmp & _)]).
    + split; assumption.
    + exfalso. exact (Hok msg partial Htmp).
Qed.

End PipelineClaims.

Section GateClaims.
Context {E : External}.
Import PyStr.

Lemma lower_allowed (e : string) :
  e ∈ allowed_extensions -> lower e = e.
Proof.
  unfold allowed_extensions.
  rewrite !elem_of_cons, elem_of_nil.
  intros [->|[->|[->|[]]]]; reflexivity.
Qed.

(** The request model of the URL endpoint turns an empty question list
    away before the handler runs. *)
Lemma post_hackrx_run_rejects_empty (request : QueryRequest) (w : World) :
  questions request = [] ->
  post_hackrx_run request w =
  (inl (RequestValidationError "ensure this value has at least 1 items"), w).
Proof.
  intros Hq. unfold post_hackrx_run, bind, QueryRequest_validate.
  rewrite Hq. reflexivity.
Qed.

(** C3, as the code has it.  The upload handler is gated on the format:
    for a file whose lowercased extension is not .pdf, .doc or .docx the
    handler ends at the gate or, before it, at [json.loads], and in both
    cases the world is untouched (no temporary file, no extraction, no
    model call).  The answer is the 400 of the gate when the questions
    field decodes, the 400 of the invalid JSON when [json.loads] raises
    [JSONDecodeError], and a 500 when [json.loads] raises anything else.
    The URL handler has no gate: every document it downloads and stores
    is handed to the PDF extractor, whatever the URL looks like. *)
Theorem upload_is_format_gated_url_is_not :
  (forall (file : UploadFile) (questions : string) (w : World),
     file_ext_of file ∉ allowed_extensions ->
     process_file_upload file questions w =
     (inl (gate_rejection file questions), w) /\
     new_events w (snd (process_file_upload file questions w)) = [] /\
     (forall v, json_loads questions = inr v ->
        gate_rejection file questions =
        HTTPException 400 ("Unsupported file type: " +:+ file_ext_of file)) /\
     (forall msg, json_loads questions = inl (NotJson msg) ->
        gate_rejection file questions =
        HTTPException 400 "Invalid JSON format for questions") /\
     (forall msg, json_loads questions = inl (LoadsRaised msg) ->
        gate_rejection file questions =
        HTTPException 500 ("Internal server error: " +:+ msg)) /\
     ((forall msg, json_loads questions <> inl (LoadsRaised msg)) ->
      rejected_before_extraction
        (fst (process_file_upload file questions w))
        (new_events w (snd (process_file_upload file questions w))))) /\
  (forall (request : QueryRequest) (content : string) (w : World),
     requests_get (documents request) = inr content ->
     tempfile_outcome (fs w) ".pdf" content = TmpWritten ->
     EvPdfReader (temp_name w ".pdf")
     ∈ new_events w (snd (process_document_url request w))).
Proof.
  split.
  - intros file questions w Hext.
    rewrite (process_file_upload_bad_extension file questions w Hext).
    assert (Hnone : new_events w w = []) by (unfold new_events; apply drop_all).
    split; [reflexivity|]. simpl. split; [exact Hnone|].
    unfold gate_rejection.
    split; [now intros v ->|]. split; [now intros msg ->|].
    split; [now intros msg ->|].
    intros Hloads. rewrite Hnone. split.
    + destruct (json_loads questions) as [[msg|msg]|v]; try reflexivity.
      now destruct (Hloads msg).
    + intros e He. apply elem_of_nil in He. contradiction.
  - intros request content w Hget Htmp.
    destruct (process_document_url_run request w) as (r & w' & t & Hr & Htr & Hshape).
    rewrite Hr. simpl. rewrite (new_events_app _ _ _ Htr).
    inversion Hshape; subst; try congruence;
      repeat (rewrite ?elem_of_app, ?elem_of_cons); auto 10.
Qed.

(** C4, as the code has it.  A failed download gives status 400, and so
    does a downloaded document that cannot be stored; an upload of an
    unsupported extension gives status 400 when [json.loads] returns or
    raises [JSONDecodeError], and 500 when it raises anything else; a
    parser failure on a PDF (both endpoints) or on a DOC/DOCX upload
    gives status 500, and so does a failure of the model. *)
Theorem failure_status_classes :
  (forall (request : QueryRequest) (msg : string) (w : World),
     requests_get (documents request) = inl msg ->
     status_of (fst (process_document_url request w)) = 400) /\
  (forall (request : QueryRequest) (content : string) (w : World),
     requests_get (documents request) = inr content ->
     tempfile_outcome (fs w) ".pdf" content <> TmpWritten ->
     status_of (fst (process_document_url request w)) = 400) /\
  (forall (file : UploadFile) (questions : string) (w : World),
     file_ext_of file ∉ allowed_extensions ->
     (forall msg, json_loads questions <> inl (LoadsRaised msg)) ->
     status_of (fst (process_file_upload file questions w)) = 400) /\
  (forall (file : UploadFile) (questions msg : string) (w : World),
     json_loads questions = inl (LoadsRaised msg) ->
     status_of (fst (process_file_upload file questions w)) = 500) /\
  (forall (request : QueryRequest) (content msg : string) (w : World),
     requests_get (documents request) = inr content ->
     tempfile_outcome (fs w) ".pdf" content = TmpWritten ->
     pdf_outcome content = inl msg ->
     status_of (fst (process_document_url request w)) = 500) /\
  (forall (file : UploadFile) (questions : string) (v : pyvalue)
          (msg : string) (w : World),
     json_loads questions = inr v ->
     file_ext_of file ∈ allowed_extensions ->
     tempfile_outcome (fs w) (file_ext_of file) (file_content file) =
     TmpWritten ->
     extraction_outcome (file_ext_of file) (file_content file) = inl msg ->
     status_of (fst (process_file_upload file questions w)) = 500) /\
  (forall (request : QueryRequest) (content text : string) (k : nat)
          (rs : list string) (msg : string) (w : World),
     requests_get (documents request) = inr content ->
     tempfile_outcome (fs w) ".pdf" content = TmpWritten ->
     pdf_outcome content = inr text ->
     first_failure (llm_state w)
       (map (prompt text) (map PyStr (questions request))) k rs msg ->
     status_of (fst (process_document_url request w)) = 500) /\
  (forall (file : UploadFile) (questions : string) (v : pyvalue)
          (text : string) (qs : list pyvalue) (k : nat) (rs : list string)
          (msg : string) (w : World),
     json_loads questions = inr v ->
     file_ext_of file ∈ allowed_extensions ->
     tempfile_outcome (fs w) (file_ext_of file) (file_content file) =
     TmpWritten ->
     extraction_outcome (file_ext_of file) (file_content file) = inr text ->
     py_iter v = inr qs ->
     first_failure (llm_state w) (map (prompt text) qs) k rs msg ->
     status_of (fst (process_file_upload file questions w)) = 500).
Proof.
  repeat split.
  - intros request msg w Hget.
    destruct (process_document_url_download_failure request msg w Hget)
      as (w' & -> & _). reflexivity.
  - intros request content w Hget Htmp.
    destruct (process_document_url_temp_failure request content w Hget Htmp)
      as (msg & w' & -> & _). reflexivity.
  - intros file questions w Hext Hloads.
    rewrite (process_file_upload_bad_extension file questions w Hext).
    unfold gate_rejection.
    destruct (json_loads questions) as [[msg|msg]|v]; try reflexivity.
    now destruct (Hloads msg).
  - intros file questions msg w Hjson.
    rewrite (process_file_upload_loads_failure file questions _ w Hjson).
    reflexivity.
  - intros request content msg w Hget Htmp Hpdf.
    destruct (process_document_url_extraction_failure request content msg w
                Hget Htmp Hpdf) as (w' & -> & _). reflexivity.
  - intros file questions v msg w Hjson Hext Htmp Hout.
    destruct (process_file_upload_extraction_failure file questions v msg w
                Hjson Hext Htmp Hout) as (w' & -> & _).
    simpl. unfold extraction_error. now destruct (String.eqb _ _).
  - intros request content text k rs msg w Hget Htmp Hpdf Hff.
    destruct (process_document_url_model_failure request content text k rs
                msg w Hget Htmp Hpdf Hff) as (w' & -> & _). reflexivity.
  - intros file questions v text qs k rs msg w Hjson Hext Htmp Hout Hiter Hff.
    destruct (process_file_upload_model_failure file questions v text qs k
                rs msg w Hjson Hext Htmp Hout Hiter Hff) as (w' & -> & _).
    reflexivity.
Qed.

(** C7, on the upload endpoint.  A question list that decodes to the
    empty list is not turned away: the upload handler writes the temporary
    file, extracts its text and answers 200 with no answers.  (The write
    of the temporary file is taken to go through, as are the gate and the
    extraction.) *)
Theorem upload_accepts_empty_question_list (file : UploadFile)
    (questions text : string) (w : World) :
  json_loads questions = inr (PyList []) ->
  file_ext_of file ∈ allowed_extensions ->
  tempfile_outcome (fs w) (file_ext_of file) (file_content file) =
  TmpWritten ->
  extraction_outcome (file_ext_of file) (file_content file) = inr text ->
  exists r w',
    process_file_upload file questions w = (r, w') /\
    r = inr (upload_response file text [] []) /\
    status_of r = 200 /\
    new_events w w' =
    [EvTempCreate (temp_name w (file_ext_of file));
     extraction_event (file_ext_of file) (temp_name w (file_ext_of file));
     EvUnlink (temp_name w (file_ext_of file))].
Proof.
  intros Hjson Hext Htmp Hout.
  destruct (process_file_upload_answered file questions (PyList []) text []
              [] w Hjson Hext Htmp Hout eq_refl eq_refl)
    as (w' & Hrun & _ & Htr).
  eexists _, w'. split; [exact Hrun|]. split; [reflexivity|].
  split; [reflexivity|]. now apply new_events_app.
Qed.

(** C10. The gate of the upload handler compares the lowercased
    extension: a file whose extension is .pdf, .doc or .docx up to letter
    case passes the gate; its temporary file is written (the write is
    taken to go through) and its text extraction is attempted, and the
    request ends with status 200 or 500, never with the 400 of the
    gate. *)
Theorem upload_gate_ignores_letter_case (file : UploadFile)
    (questions : string) (v : pyvalue) (e : string) (w : World) :
  json_loads questions = inr v ->
  e ∈ allowed_extensions ->
  same_up_to_case (snd (OsPath.splitext (filename file))) e ->
  tempfile_outcome (fs w) e (file_content file) = TmpWritten ->
  file_ext_of file = e /\
  exists r w' t,
    process_file_upload file questions w = (r, w') /\
    new_events w w' =
    EvTempCreate (temp_name w e) :: extraction_event e (temp_name w e) :: t /\
    (status_of r = 200 \/ status_of r = 500).
Proof.
  intros Hjson He Hcase Htmp.
  assert (Hext : file_ext_of file = e).
  { unfold file_ext_of. rewrite Hcase. now apply lower_allowed. }
  split; [exact Hext|].
  destruct (process_file_upload_run file questions w)
    as (r & w' & t & Hr & Htr & Hshape).
  inversion Hshape; subst; try congruence; try contradiction;
    eexists _, w', _; (split; [exact Hr|]); rewrite (new_events_app _ _ _ Htr);
    (split; [simpl; reflexivity|]); simpl; auto.
  right. unfold extraction_error. now destruct (String.eqb _ _).
Qed.

End GateClaims.

(** * The results on the concrete world *)

Ltac by_computation := vm_compute; first [reflexivity | repeat constructor].

Lemma budget_takes_prefix_witness :
  budget "Grace period is 30 days." 8000 = "Grace period is 30 days." /\
  budget (budget "Grace period is 30 days." 5) 5 = budget "Grace period is 30 days." 5 /\
  PyStr.len (budget "Grace period is 30 days." 5) <= 5.
Proof.
  split; [|split].
  - refine (proj2 (proj2 (proj2 (proj2
              (budget_takes_prefix "Grace period is 30 days." 8000 _)))) _).
    + lia.
    + vm_compute. discriminate.
  - refine (proj1 (proj2 (proj2 (proj2
              (budget_takes_prefix "Grace period is 30 days." 5 _))))). lia.
  - refine (proj1 (proj2 (proj2
              (budget_takes_prefix "Grace period is 30 days." 5 _)))). lia.
Defined.

Lemma prompt_is_fixed_template_witness :
  prompt (E := Demo.world) (Demo.padding +:+ "Grace period is 30 days.")
    (PyStr Demo.question1) =
  prompt (E := Demo.world) (Demo.padding +:+ "Grace period is 60 days.")
    (PyStr Demo.question1).
Proof.
  apply (proj1 (proj2 (prompt_is_fixed_template (E := Demo.world)))).
  - vm_compute. reflexivity.
  - reflexivity.
Defined.

Lemma answers_are_stripped_witness :
  exists resp w',
    process_file_upload (E := Demo.world) Demo.docx_upload
      (Demo.json_list Demo.three_questions) (Demo.start Demo.script_ok) =
    (inr resp, w') /\
    upload_answers resp =
    ["30 days."; "All employees."; "Pre-existing conditions."] /\
    Forall stripped (upload_answers resp).
Proof.
  assert (Hrun : exists resp w',
             process_file_upload (E := Demo.world) Demo.docx_upload
               (Demo.json_list Demo.three_questions) (Demo.start Demo.script_ok) =
             (inr resp, w') /\
             upload_answers resp =
             ["30 days."; "All employees."; "Pre-existing conditions."]).
  { eexists _, _. split; vm_compute; reflexivity. }
  destruct Hrun as (resp & w' & Hrun & Hanswers).
  exists resp, w'. split; [exact Hrun|]. split; [exact Hanswers|].
  exact (proj2 (proj2 (answers_are_stripped (E := Demo.world)))
           _ _ _ _ _ Hrun).
Defined.

Lemma answers_positionally_aligned_witness :
  exists resp w',
    process_document_url (E := Demo.world)
      (Demo.url_request "https://example.com/policy.pdf" Demo.three_questions)
      (Demo.start Demo.script_ok) = (inr resp, w') /\
    answers resp = ["30 days."; "All employees."; "Pre-existing conditions."] /\
    length (answers resp) = length Demo.three_questions.
Proof.
  assert (Hrun : exists resp w',
             process_document_url (E := Demo.world)
               (Demo.url_request "https://example.com/policy.pdf"
                  Demo.three_questions)
               (Demo.start Demo.script_ok) = (inr resp, w') /\
             answers resp =
             ["30 days."; "All employees."; "Pre-existing conditions."]).
  { eexists _, _. split; vm_compute; reflexivity. }
  destruct Hrun as (resp & w' & Hrun & Hanswers).
  exists resp, w'. split; [exact Hrun|]. split; [exact Hanswers|].
  exact (proj1 (proj1 (proj2 (answers_positionally_aligned (E := Demo.world)))
                  _ _ _ _ Hrun)).
Defined.

Lemma model_failure_fails_whole_request_witness :
  exists r w',
    process_file_upload (E := Demo.world) Demo.pdf_upload
      (Demo.json_list Demo.three_questions)
      (Demo.start Demo.script_second_fails) = (r, w') /\
    r = inl (HTTPException 500
               "Error processing with AI: 503 service unavailable") /\
    status_of r = 500 /\
    List.filter is_generate
      (new_events (Demo.start Demo.script_second_fails) w') =
    gen_events (E := Demo.world) Demo.policy_text
      (map PyStr Demo.three_questions)
      (map inr [" 30 days. "] ++ [inl "503 service unavailable"]) /\
    length (List.filter is_generate
              (new_events (Demo.start Demo.script_second_fails) w')) = 2%nat.
Proof.
  apply (proj2 (proj2 (model_failure_fails_whole_request (E := Demo.world)))
           Demo.pdf_upload (Demo.json_list Demo.three_questions)
           (PyList (map PyStr Demo.three_questions)) Demo.policy_text
           (map PyStr Demo.three_questions) 1%nat [" 30 days. "]
           "503 service unavailable" (Demo.start Demo.script_second_fails)).
  - by_computation.
  - by_computation.
  - by_computation.
  - by_computation.
  - by_computation.
  - split; by_computation.
Defined.

(** The body of https://example.com/huge.pdf does not fit on the disk of
    the second world: the file is created, the write fails, and the empty
    file is still there when the handler has answered.  The same bytes
    uploaded leave the same file; a request whose write goes through
    leaves none. *)
Lemma temporary_file_outlives_failed_write_witness :
  (exists w',
     process_document_url (E := Lab.world) Lab.huge_request
       (Lab.start Lab.script_two) =
     (inl (HTTPException 400 ("Error downloading document: " +:+ Lab.no_space)),
      w') /\
     new_events (Lab.start Lab.script_two) w' =
     [EvHttpGet "https://example.com/huge.pdf";
      EvTempCreate (temp_name (E := Lab.world) (Lab.start Lab.script_two) ".pdf")] /\
     fs w' !! temp_name (E := Lab.world) (Lab.start Lab.script_two) ".pdf" =
     Some EmptyString) /\
  (exists w',
     process_file_upload (E := Lab.world) Lab.huge_upload
       (Demo.json_list Lab.two_questions) (Lab.start Lab.script_two) =
     (inl (HTTPException 500 ("Internal server error: " +:+ Lab.no_space)), w') /\
     new_events (Lab.start Lab.script_two) w' =
     [EvTempCreate (temp_name (E := Lab.world) (Lab.start Lab.script_two)
                      (file_ext_of Lab.huge_upload))] /\
     fs w' !! temp_name (E := Lab.world) (Lab.start Lab.script_two)
                (file_ext_of Lab.huge_upload) =
     Some EmptyString) /\
  fs (snd (process_document_url (E := Demo.world)
             (Demo.url_request "https://example.com/policy.pdf"
                Demo.three_questions)
             (Demo.start Demo.script_second_fails)))
  !! "/tmp/tmpq1w2e3.pdf" = None /\
  fs (snd (process_file_upload (E := Demo.world) Demo.docx_upload
             (Demo.json_list Demo.three_questions) (Demo.start Demo.script_ok)))
  !! "/tmp/tmpq1w2e3.docx" = None.
Proof.
  pose proof (temporary_file_outlives_failed_write (E := Lab.world))
    as (Hurl & Hupload & _).
  pose proof (temporary_file_outlives_failed_write (E := Demo.world))
    as (_ & _ & Hurl_ok & Hupload_ok).
  split; [|split; [|split]].
  - apply (Hurl Lab.huge_request "%PDF larger than the disk" Lab.no_space
             EmptyString (Lab.start Lab.script_two)); by_computation.
  - apply (Hupload Lab.huge_upload (Demo.json_list Lab.two_questions)
             (PyList (map PyStr Lab.two_questions)) Lab.no_space EmptyString
             (Lab.start Lab.script_two)); by_computation.
  - refine (proj1 (Hurl_ok (Demo.url_request "https://example.com/policy.pdf"
                              Demo.three_questions)
                     (Demo.start Demo.script_second_fails)
                     "/tmp/tmpq1w2e3.pdf" _ _)).
    + intros content msg partial _. discriminate.
    + by_computation.
  - refine (proj1 (Hupload_ok Demo.docx_upload
                     (Demo.json_list Demo.three_questions)
                     (Demo.start Demo.script_ok) "/tmp/tmpq1w2e3.docx" _ _)).
    + intros msg partial. discriminate.
    + by_computation.
Defined.

(** When the file cannot even be created there is nothing to leave
    behind: the upload is answered 500 and the world is as it was. *)
Example upload_without_room_for_a_file :
  process_file_upload (E := Lab.world) Lab.no_room_upload
    (Demo.json_list Lab.two_questions) (Lab.start Lab.script_two) =
  (inl (HTTPException 500 ("Internal server error: " +:+ Lab.no_space)),
   Lab.start Lab.script_two).
Proof. vm_compute. reflexivity. Qed.

(** C3 as stated fails on the URL endpoint: the document of this request
    has the extension .txt, and the handler does not turn the request away
    before extraction; it downloads the document, runs the PDF extractor on
    it, and answers 500 because the parser fails. *)
Lemma url_request_is_not_format_gated :
  let request :=
    Demo.url_request "https://example.com/notes.txt" [Demo.question1] in
  let run :=
    process_document_url (E := Demo.world) request (Demo.start Demo.script_ok) in
  PyStr.lower (snd (OsPath.splitext (documents request))) = ".txt" /\
  (".txt" ∉ allowed_extensions) /\
  (EvPdfReader "/tmp/tmpq1w2e3.pdf"
   ∈ new_events (Demo.start Demo.script_ok) (snd run)) /\
  ~ rejected_before_extraction (fst run)
      (new_events (Demo.start Demo.script_ok) (snd run)).
Proof.
  cbv zeta. split; [by_computation|]. split; [|split].
  - unfold allowed_extensions. rewrite !elem_of_cons, elem_of_nil.
    intros [H|[H|[H|[]]]]; discriminate.
  - by_computation.
  - intros [Hstatus _]. vm_compute in Hstatus. discriminate.
Qed.

Lemma upload_is_format_gated_url_is_not_witness :
  (process_file_upload (E := Demo.world) Demo.exe_upload
     (Demo.json_list [Demo.question1]) (Demo.start Demo.script_ok) =
   (inl (gate_rejection (E := Demo.world) Demo.exe_upload
           (Demo.json_list [Demo.question1])),
    Demo.start Demo.script_ok) /\
   gate_rejection (E := Demo.world) Demo.exe_upload
     (Demo.json_list [Demo.question1]) =
   HTTPException 400 ("Unsupported file type: " +:+ file_ext_of Demo.exe_upload) /\
   rejected_before_extraction
     (fst (process_file_upload (E := Demo.world) Demo.exe_upload
             (Demo.json_list [Demo.question1]) (Demo.start Demo.script_ok)))
     (new_events (Demo.start Demo.script_ok)
        (snd (process_file_upload (E := Demo.world) Demo.exe_upload
                (Demo.json_list [Demo.question1])
                (Demo.start Demo.script_ok))))) /\
  (process_file_upload (E := Lab.world) Demo.exe_upload Lab.too_many_digits
     (Lab.start Lab.script_two) =
   (inl (gate_rejection (E := Lab.world) Demo.exe_upload Lab.too_many_digits),
    Lab.start Lab.script_two) /\
   gate_rejection (E := Lab.world) Demo.exe_upload Lab.too_many_digits =
   HTTPException 500 ("Internal server error: " +:+ Lab.loads_digit_limit)) /\
  EvPdfReader "/tmp/tmpq1w2e3.pdf"
  ∈ new_events (Demo.start Demo.script_ok)
      (snd (process_document_url (E := Demo.world)
              (Demo.url_request "https://example.com/notes.txt"
                 [Demo.question1])
              (Demo.start Demo.script_ok))).
Proof.
  assert (Hexe : file_ext_of Demo.exe_upload ∉ allowed_extensions).
  { unfold allowed_extensions. rewrite !elem_of_cons, elem_of_nil.
    vm_compute. intros [H|[H|[H|[]]]]; discriminate. }
  split; [|split].
  - destruct (proj1 (upload_is_format_gated_url_is_not (E := Demo.world))
                Demo.exe_upload (Demo.json_list [Demo.question1])
                (Demo.start Demo.script_ok) Hexe)
      as (Hrun & _ & Hdecoded & _ & _ & Hrejected).
    split; [exact Hrun|]. split.
    + apply (Hdecoded (PyList [PyStr Demo.question1])). by_computation.
    + apply Hrejected. intros msg. vm_compute. discriminate.
  - destruct (proj1 (upload_is_format_gated_url_is_not (E := Lab.world))
                Demo.exe_upload Lab.too_many_digits
                (Lab.start Lab.script_two) Hexe)
      as (Hrun & _ & _ & _ & Hraised & _).
    split; [exact Hrun|].
    apply Hraised. by_computation.
  - apply (proj2 (upload_is_format_gated_url_is_not (E := Demo.world))
             (Demo.url_request "https://example.com/notes.txt"
                [Demo.question1])
             "plain notes" (Demo.start Demo.script_ok)); by_computation.
Defined.

(** C4 as stated fails on a parser failure: this upload has the recognized
    extension .pdf, its content does not parse, and the caller gets status
    500, not 400. *)
Lemma parser_failure_is_not_a_400 :
  let run :=
    process_file_upload (E := Demo.world) Demo.broken_pdf_upload
      (Demo.json_list [Demo.question1]) (Demo.start Demo.script_ok) in
  file_ext_of Demo.broken_pdf_upload = ".pdf" /\
  extraction_outcome (E := Demo.world) ".pdf"
    (file_content Demo.broken_pdf_upload) = inl "EOF marker not found" /\
  fst run = inl (HTTPException 500 "Error processing PDF: EOF marker not found") /\
  status_of (fst run) <> 400.
Proof.
  cbv zeta. split; [by_computation|]. split; [by_computation|].
  split; [by_computation|]. vm_compute. discriminate.
Qed.

Lemma failure_status_classes_witness :
  status_of (fst (process_document_url (E := Demo.world)
                    (Demo.url_request "https://example.com/missing.pdf"
                       [Demo.question1])
                    (Demo.start Demo.script_ok))) = 400 /\
  status_of (fst (process_document_url (E := Lab.world) Lab.huge_request
                    (Lab.start Lab.script_two))) = 400 /\
  status_of (fst (process_file_upload (E := Demo.world) Demo.exe_upload
                    (Demo.json_list [Demo.question1])
                    (Demo.start Demo.script_ok))) = 400 /\
  status_of (fst (process_file_upload (E := Lab.world) Demo.exe_upload
                    Lab.too_many_digits (Lab.start Lab.script_two))) = 500 /\
  status_of (fst (process_document_url (E := Demo.world)
                    (Demo.url_request "https://example.com/notes.txt"
                       [Demo.question1])
                    (Demo.start Demo.script_ok))) = 500 /\
  status_of (fst (process_file_upload (E := Demo.world) Demo.broken_pdf_upload
                    (Demo.json_list [Demo.question1])
                    (Demo.start Demo.script_ok))) = 500 /\
  status_of (fst (process_document_url (E := Demo.world)
                    (Demo.url_request "https://example.com/policy.pdf"
                       Demo.three_questions)
                    (Demo.start Demo.script_second_fails))) = 500 /\
  status_of (fst (process_file_upload (E := Demo.world) Demo.docx_upload
                    (Demo.json_list Demo.three_questions)
                    (Demo.start Demo.script_second_fails))) = 500.
Proof.
  pose proof (failure_status_classes (E := Demo.world))
    as (Hdownload & _ & Hgate & _ & Hpdf & Hparse & Hmodel_url & Hmodel_upload).
  pose proof (failure_status_classes (E := Lab.world))
    as (_ & Hstore & _ & Hloads & _).
  split; [|split; [|split; [|split; [|split; [|split; [|split]]]]]].
  - apply (Hdownload _ "404 Client Error: Not Found"). by_computation.
  - apply (Hstore _ "%PDF larger than the disk"); [by_computation|].
    vm_compute. discriminate.
  - apply Hgate.
    + unfold allowed_extensions. rewrite !elem_of_cons, elem_of_nil.
      vm_compute. intros [H|[H|[H|[]]]]; discriminate.
    + intros msg. vm_compute. discriminate.
  - apply (Hloads _ _ Lab.loads_digit_limit). by_computation.
  - apply (Hpdf _ "plain notes" "EOF marker not found"); by_computation.
  - apply (Hparse _ _ (PyList [PyStr Demo.question1]) "EOF marker not found");
      by_computation.
  - apply (Hmodel_url _ "%PDF-1.4 policy" Demo.policy_text 1%nat [" 30 days. "]
             "503 service unavailable");
      [by_computation | by_computation | by_computation |].
    split; by_computation.
  - apply (Hmodel_upload _ _ (PyList (map PyStr Demo.three_questions))
             ("Grace period is 30 days." +:+ PyStr.nl +:+ "All employees are covered.")
             (map PyStr Demo.three_questions) 1%nat [" 30 days. "]
             "503 service unavailable");
      [by_computation | by_computation | by_computation | by_computation
      | by_computation |].
    split; by_computation.
Defined.

Lemma upload_accepts_empty_question_list_witness :
  exists r w',
    process_file_upload (E := Demo.world) Demo.pdf_upload "[]"
      (Demo.start Demo.script_ok) = (r, w') /\
    r = inr (upload_response (E := Demo.world) Demo.pdf_upload
               Demo.policy_text [] []) /\
    status_of r = 200 /\
    new_events (Demo.start Demo.script_ok) w' =
    [EvTempCreate "/tmp/tmpq1w2e3.pdf"; EvPdfReader "/tmp/tmpq1w2e3.pdf";
     EvUnlink "/tmp/tmpq1w2e3.pdf"].
Proof.
  apply (upload_accepts_empty_question_list (E := Demo.world) Demo.pdf_upload
           "[]" Demo.policy_text (Demo.start Demo.script_ok));
    by_computation.
Defined.

(** The URL endpoint does turn the same question list away. *)
Example url_endpoint_rejects_empty_question_list :
  post_hackrx_run (E := Demo.world)
    (Demo.url_request "https://example.com/policy.pdf" [])
    (Demo.start Demo.script_ok) =
  (inl (RequestValidationError "ensure this value has at least 1 items"),
   Demo.start Demo.script_ok).
Proof. reflexivity. Qed.

Lemma upload_gate_ignores_letter_case_witness :
  file_ext_of Demo.docx_upload = ".docx" /\
  exists r w' t,
    process_file_upload (E := Demo.world) Demo.docx_upload
      (Demo.json_list [Demo.question1]) (Demo.start Demo.script_ok) = (r, w') /\
    new_events (Demo.start Demo.script_ok) w' =
    EvTempCreate "/tmp/tmpq1w2e3.docx" :: EvDocument "/tmp/tmpq1w2e3.docx" :: t /\
    (status_of r = 200 \/ status_of r = 500).
Proof.
  apply (upload_gate_ignores_letter_case (E := Demo.world) Demo.docx_upload
           (Demo.json_list [Demo.question1]) (PyList [PyStr Demo.question1])
           ".docx" (Demo.start Demo.script_ok)); by_computation.
Defined.

Example demo_upload_ok :
  let '(r, w) := process_file_upload (E := Demo.world) Demo.pdf_upload
                   (Demo.json_list [Demo.question1])
                   (Demo.start [inr (" 30 days. " +:+ PyStr.nl)]) in
  (match r with inr x => Some (upload_answers x) | inl _ => None end, fs w, trace w) =
  (Some ["30 days."], ∅,
   [EvTempCreate "/tmp/tmpq1w2e3.pdf"; EvPdfReader "/tmp/tmpq1w2e3.pdf";
    EvGenerate (prompt (E := Demo.world) Demo.policy_text (PyStr Demo.question1))
      (inr (" 30 days. " +:+ PyStr.nl));
    EvUnlink "/tmp/tmpq1w2e3.pdf"]).
Proof. vm_compute. reflexivity. Qed.

Example splitext_report :
  OsPath.splitext "dir.d/report.PDF" = ("dir.d/report", ".PDF").
Proof. reflexivity. Qed.

Example splitext_hidden : OsPath.splitext ".bashrc" = (".bashrc", EmptyString).
Proof. reflexivity. Qed.

Example splitext_noext : OsPath.splitext "a.b/readme" = ("a.b/readme", EmptyString).
Proof. reflexivity. Qed.

Example strip_example :
  PyStr.strip ("  30 days. " +:+ PyStr.nl) = "30 days.".
Proof. reflexivity. Qed.

Example lower_example : PyStr.lower ".DocX" = ".docx".
Proof. reflexivity. Qed.

(** * Further properties of the code *)

(** ** The extractors *)

Section ExtractorFacts.
Context {E : External}.
Import PyStr.

Lemma len_append (a b : string) : len (a +:+ b) = len a + len b.
Proof.
  unfold len. induction a as [|c a IH]; [reflexivity|].
  rewrite append_cons. simpl String.length. lia.
Qed.

Lemma len_nonneg (s : string) : 0 <= len s.
Proof. unfold len. lia. Qed.

Lemma extract_pages_all (parts : list string) (text : string) :
  parts <> [] ->
  extract_pages (map inr parts) text = inr (text +:+ join nl parts +:+ nl).
Proof.
  revert text. induction parts as [|p ps IH]; intros text Hne; [contradiction|].
  destruct ps as [|q ps].
  - reflexivity.
  - change (extract_pages (map inr (p :: q :: ps)) text)
      with (extract_pages (map inr (q :: ps)) (text +:+ (p +:+ nl))).
    rewrite IH by discriminate.
    f_equal. change (join nl (p :: q :: ps)) with (p +:+ nl +:+ join nl (q :: ps)).
    rewrite !append_assoc. reflexivity.
Qed.

Lemma extract_pages_len (parts : list string) (text result : string) :
  extract_pages (map inr parts) text = inr result ->
  len result = len text + total_len parts + Z.of_nat (length parts).
Proof.
  revert text. induction parts as [|p ps IH]; intros text Hrun.
  - simpl in Hrun. injection Hrun as <-. simpl. lia.
  - simpl in Hrun. apply IH in Hrun. rewrite Hrun, !len_append.
    change (len nl) with 1. simpl total_len. simpl length. lia.
Qed.

Lemma extract_pages_first_failure (before : list string) (msg : string)
    (after : list (string + string)) (text : string) :
  extract_pages (map inr before ++ inl msg :: after) text = inl msg.
Proof.
  revert text. induction before as [|p ps IH]; intros text; [reflexivity|].
  simpl. apply IH.
Qed.

(** X2. For the same parts (page texts, paragraph texts), the PDF
    extractor returns the text of the DOCX extractor followed by one
    newline: every page is followed by a newline, paragraphs are only
    separated by one.  A document with no parts gives the empty text with
    both, a success and not a failure.  The PDF text has as many characters
    as its pages together plus one per page. *)
Theorem pdf_text_is_docx_text_and_newline (pdf_path docx_path : string)
    (pdf_content docx_content : string) (parts : list string) (w : World) :
  fs w !! pdf_path = Some pdf_content ->
  fs w !! docx_path = Some docx_content ->
  PdfReader pdf_content = inr (map inr parts) ->
  Document docx_content = inr parts ->
  exists pdf_text docx_text,
    fst (extract_text_from_pdf pdf_path w) = inr pdf_text /\
    fst (extract_text_from_docx docx_path w) = inr docx_text /\
    (parts = [] -> pdf_text = EmptyString /\ docx_text = EmptyString) /\
    (parts <> [] -> pdf_text = docx_text +:+ nl) /\
    len pdf_text = total_len parts + Z.of_nat (length parts).
Proof.
  intros Hpdf_file Hdocx_file Hpdf Hdocx.
  rewrite (extract_text_from_pdf_run pdf_path pdf_content w Hpdf_file).
  rewrite (extract_text_from_docx_run docx_path docx_content w Hdocx_file).
  unfold pdf_outcome, docx_outcome. rewrite Hpdf, Hdocx. simpl fst.
  destruct (extract_pages (map inr parts) EmptyString) as [msg|text] eqn:Hrun.
  { exfalso. destruct parts as [|p ps]; [discriminate|].
    rewrite extract_pages_all in Hrun by discriminate. discriminate. }
  exists text, (join nl parts). split; [reflexivity|]. split; [reflexivity|].
  split; [|split].
  - intros ->. simpl in Hrun. injection Hrun as <-. split; reflexivity.
  - intros Hne. rewrite extract_pages_all in Hrun by exact Hne.
    injection Hrun as <-. reflexivity.
  - apply extract_pages_len in Hrun. rewrite Hrun. change (len EmptyString) with 0.
    lia.
Qed.

(** X3. When a page of a PDF does not decode, the extraction fails with
    status 500 and the message of that page, whatever the pages before it
    gave and whatever comes after it: no partial text is returned. *)
Theorem pdf_page_failure_discards_text (path content : string)
    (before : list string) (msg : string) (after : list (string + string))
    (w : World) :
  fs w !! path = Some content ->
  PdfReader content = inr (map inr before ++ inl msg :: after) ->
  extract_text_from_pdf path w =
  (inl (HTTPException 500 ("Error processing PDF: " +:+ msg)),
   {| fs := fs w; llm_state := llm_state w;
      trace := trace w ++ [EvPdfReader path] |}).
Proof.
  intros Hfile Hpdf.
  rewrite (extract_text_from_pdf_run path content w Hfile).
  unfold pdf_outcome. rewrite Hpdf, extract_pages_first_failure. reflexivity.
Qed.

(** X4. An extractor that is given a path with no file behind it fails
    with status 500 and a message that names the path, and the filesystem
    is as it was.  The PDF extractor fails at its own [open], before the
    parser is called; the DOCX extractor hands the path to the parser
    and it is the parser that fails. *)
Theorem extraction_of_missing_file (path : string) (w : World) :
  fs w !! path = None ->
  extract_text_from_pdf path w =
  (inl (HTTPException 500
          ("Error processing PDF: "
           +:+ ("[Errno 2] No such file or directory: '" +:+ path +:+ "'"))),
   w) /\
  extract_text_from_docx path w =
  (inl (HTTPException 500
          ("Error processing DOCX: "
           +:+ ("Package not found at '" +:+ path +:+ "'"))),
   {| fs := fs w; llm_state := llm_state w;
      trace := trace w ++ [EvDocument path] |}).
Proof.
  intros Hmissing. split.
  - unfold extract_text_from_pdf, try_except, bind, open_rb.
    rewrite Hmissing. reflexivity.
  - unfold extract_text_from_docx, try_except. unfold bind at 1.
    rewrite docx_Document_run, Hmissing. reflexivity.
Qed.


(** X6. What [download_document] returns is the path of a file that
    holds exactly the downloaded bytes, the only file it changed.  When it
    raises, the status is 400, and either the download failed or the
    temporary file could not be created, with the filesystem as it was,
    or the write failed and the new file is left with what had been
    written. *)
Theorem download_then_read_back (url : string) (w : World) :
  match download_document url w with
  | (inr path, w') =>
      exists content,
        requests_get url = inr content /\
        tempfile_outcome (fs w) ".pdf" content = TmpWritten /\
        open_rb path w' = (inr content, w') /\
        (forall q, q <> path -> fs w' !! q = fs w !! q) /\
        new_events w w' = [EvHttpGet url; EvTempCreate path]
  | (inl e, w') =>
      exists msg,
        e = HTTPException 400 ("Error downloading document: " +:+ msg) /\
        ((requests_get url = inl msg /\
          fs w' = fs w /\ new_events w w' = [EvHttpGet url]) \/
         (exists content,
            requests_get url = inr content /\
            tempfile_outcome (fs w) ".pdf" content = TmpCreateFailed msg /\
            fs w' = fs w /\ new_events w w' = [EvHttpGet url]) \/
         (exists content partial,
            requests_get url = inr content /\
            tempfile_outcome (fs w) ".pdf" content = TmpWriteFailed msg partial /\
            fs w' = <[temp_name w ".pdf" := partial]> (fs w) /\
            (forall q, q <> temp_name w ".pdf" -> fs w' !! q = fs w !! q) /\
            open_rb (temp_name w ".pdf") w' = (inr partial, w') /\
            new_events w w' = [EvHttpGet url; EvTempCreate (temp_name w ".pdf")]))
  end.
Proof.
  rewrite download_document_run.
  destruct (requests_get url) as [msg|content].
  { exists msg. split; [reflexivity|]. left.
    repeat split. now apply new_events_app. }
  destruct (tempfile_outcome (fs w) ".pdf" content) as [|msg|msg partial] eqn:Htmp.
  - exists content. split; [reflexivity|]. split; [exact Htmp|]. split; [|split].
    + unfold open_rb. simpl. now rewrite lookup_insert_eq.
    + intros q Hq. simpl. now apply lookup_insert_ne.
    + apply new_events_app. simpl. now rewrite <- app_assoc.
  - exists msg. split; [reflexivity|]. right. left. exists content.
    repeat split; [exact Htmp|]. now apply new_events_app.
  - exists msg. split; [reflexivity|]. right. right. exists content, partial.
    split; [reflexivity|]. split; [exact Htmp|]. split; [reflexivity|].
    split; [|split].
    + intros q Hq. simpl. now apply lookup_insert_ne.
    + unfold open_rb, temp_name. simpl. now rewrite lookup_insert_eq.
    + apply new_events_app. simpl. now rewrite <- app_assoc.
Qed.

End ExtractorFacts.

Lemma pdf_text_is_docx_text_and_newline_witness :
  exists pdf_text docx_text,
    fst (extract_text_from_pdf (E := Lab.world) "/data/two.pdf"
           (Lab.stocked [])) = inr pdf_text /\
    fst (extract_text_from_docx (E := Lab.world) "/data/two.docx"
           (Lab.stocked [])) = inr docx_text /\
    (["Page one."; "Page two."] = [] ->
     pdf_text = EmptyString /\ docx_text = EmptyString) /\
    (["Page one."; "Page two."] <> [] -> pdf_text = docx_text +:+ PyStr.nl) /\
    PyStr.len pdf_text =
    total_len ["Page one."; "Page two."] + Z.of_nat (length ["Page one."; "Page two."]).
Proof.
  apply (pdf_text_is_docx_text_and_newline (E := Lab.world) "/data/two.pdf"
           "/data/two.docx" "%PDF two pages" "PK two paragraphs"
           ["Page one."; "Page two."] (Lab.stocked []));
    vm_compute; reflexivity.
Defined.

Lemma pdf_page_failure_discards_text_witness :
  fst (extract_text_from_pdf (E := Lab.world) "/data/bad.pdf" (Lab.stocked [])) =
  inl (HTTPException 500 "Error processing PDF: cannot decode page 2").
Proof.
  rewrite (pdf_page_failure_discards_text (E := Lab.world) "/data/bad.pdf"
             "%PDF bad page" ["Page one."] "cannot decode page 2"
             [inr "Page three."] (Lab.stocked [])).
  - reflexivity.
  - vm_compute. reflexivity.
  - vm_compute. reflexivity.
Defined.

Lemma extraction_of_missing_file_witness :
  extract_text_from_pdf (E := Lab.world) "/data/gone.pdf" (Lab.stocked []) =
  (inl (HTTPException 500
          "Error processing PDF: [Errno 2] No such file or directory: '/data/gone.pdf'"),
   Lab.stocked []) /\
  fst (extract_text_from_docx (E := Lab.world) "/data/gone.docx"
         (Lab.stocked [])) =
  inl (HTTPException 500
         "Error processing DOCX: Package not found at '/data/gone.docx'") /\
  trace (snd (extract_text_from_docx (E := Lab.world) "/data/gone.docx"
                (Lab.stocked []))) =
  [EvDocument "/data/gone.docx"].
Proof.
  split; [|split].
  - refine (proj1 (extraction_of_missing_file (E := Lab.world) "/data/gone.pdf"
                     (Lab.stocked []) _)).
    vm_compute. reflexivity.
  - rewrite (proj2 (extraction_of_missing_file (E := Lab.world)
                      "/data/gone.docx" (Lab.stocked [])
                      ltac:(vm_compute; reflexivity))).
    reflexivity.
  - rewrite (proj2 (extraction_of_missing_file (E := Lab.world)
                      "/data/gone.docx" (Lab.stocked [])
                      ltac:(vm_compute; reflexivity))).
    reflexivity.
Defined.

(** ** What the model is sent *)

Section PromptFacts.
Context {E : External}.
Import PyStr.

Lemma budget_len_le (text : string) (C : Z) :
  0 <= C -> len (budget text C) <= C.
Proof.
  intros HC. rewrite budget_unfold by exact HC. unfold len.
  rewrite substring_0_length. lia.
Qed.

Lemma prompt_len (text : string) (question : pyvalue) :
  len (prompt text question) =
  prompt_overhead + len (budget text 8000) + len (py_str question).
Proof.
  unfold prompt. rewrite !len_append.
  generalize (len (budget text 8000)) (len (py_str question)). intros a b.
  unfold len, nl, indent, dquote, fallback_phrase, prompt_overhead.
  simpl String.length. lia.
Qed.

Lemma prompt_same_budget (text1 text2 : string) :
  budget text1 8000 = budget text2 8000 ->
  forall question, prompt text1 question = prompt text2 question.
Proof. intros Hb question. unfold prompt. now rewrite Hb. Qed.

Lemma ask_each_same_prompts (text1 text2 : string) :
  (forall question, prompt text1 question = prompt text2 question) ->
  forall qs answers w, ask_each text1 qs answers w = ask_each text2 qs answers w.
Proof.
  intros Hp qs. induction qs as [|q qs IH]; intros answers w; [reflexivity|].
  simpl. rewrite Hp. unfold bind.
  destruct (model_generate_content (prompt text2 q) w) as [[e|r] w1];
    [reflexivity | apply IH].
Qed.

Lemma gen_events_Forall (P : event -> Prop) (text : string)
    (qs : list pyvalue) (rs : list (string + string)) :
  (forall q r, P (EvGenerate (prompt text q) r)) ->
  Forall P (gen_events text qs rs).
Proof.
  intros HP. unfold gen_events. revert rs.
  induction qs as [|q qs IH]; intros [|r rs]; simpl; constructor;
    [apply HP | apply IH].
Qed.

(** Every run of the helper, whatever its outcome, adds model calls only. *)
Lemma process_with_gemini_events (text : string) (questions : pyvalue)
    (w : World) :
  exists qs rs,
    new_events w (snd (process_with_gemini text questions w)) =
    gen_events text qs rs.
Proof.
  destruct (py_iter questions) as [msg|qs] eqn:Hiter.
  - rewrite (process_with_gemini_not_iterable text questions msg w Hiter).
    exists [], []. simpl. unfold new_events. apply drop_all.
  - destruct (replies_dichotomy (llm_state w) (map (prompt text) qs))
      as [[rs Hrs]|(k & rs & msg & Hff)].
    + destruct (process_with_gemini_ok text questions qs rs w Hiter Hrs)
        as (w' & -> & _ & Htr).
      exists qs, (map inr rs). now apply new_events_app.
    + destruct (process_with_gemini_fail text questions qs k rs msg w Hiter Hff)
        as (w' & -> & _ & Htr).
      exists qs, (map inr rs ++ [inl msg]). now apply new_events_app.
Qed.

(** X7. What lies beyond the first 8000 characters of the document cannot
    change anything: two texts with the same first 8000 characters give the
    same model calls, the same answers or the same failure, and the same
    world afterwards. *)
Theorem text_beyond_budget_is_invisible (text1 text2 : string)
    (questions : pyvalue) (w : World) :
  budget text1 8000 = budget text2 8000 ->
  process_with_gemini text1 questions w = process_with_gemini text2 questions w.
Proof.
  intros Hb. unfold process_with_gemini, try_except, bind.
  destruct (lift (py_iter questions) w) as [[e|qs] w1]; [reflexivity|].
  rewrite (ask_each_same_prompts text1 text2 (prompt_same_budget _ _ Hb)).
  reflexivity.
Qed.

(** X8. A prompt is 309 characters longer than the budgeted text and the
    question together, so the model is never sent more than 8000
    characters of the document: in every run of the helper, every external
    call is a model call whose prompt has at most 8309 characters plus the
    question. *)
Theorem model_prompt_is_bounded (text : string) (questions : pyvalue)
    (w : World) :
  (forall question,
     len (prompt text question) =
     prompt_overhead + len (budget text 8000) + len (py_str question)) /\
  Forall (fun e =>
            exists question response,
              e = EvGenerate (prompt text question) response /\
              len (prompt text question) <= 8309 + len (py_str question))
    (new_events w (snd (process_with_gemini text questions w))).
Proof.
  split; [apply prompt_len|].
  destruct (process_with_gemini_events text questions w) as (qs & rs & ->).
  apply gen_events_Forall. intros q r. exists q, r. split; [reflexivity|].
  rewrite prompt_len. pose proof (budget_len_le text 8000).
  unfold prompt_overhead. lia.
Qed.

End PromptFacts.

Lemma text_beyond_budget_is_invisible_witness :
  process_with_gemini (E := Demo.world)
    (Demo.padding +:+ "Grace period is 30 days.")
    (PyList [PyStr Demo.question1]) (Demo.start Demo.script_ok) =
  process_with_gemini (E := Demo.world)
    (Demo.padding +:+ "Grace period is 60 days.")
    (PyList [PyStr Demo.question1]) (Demo.start Demo.script_ok).
Proof.
  apply (text_beyond_budget_is_invisible (E := Demo.world)).
  vm_compute. reflexivity.
Defined.

(** ** Status classes, question fields that are not lists, and the two
    endpoints side by side *)

Section StatusFacts.
Context {E : External}.
Import PyStr.

(** X9. The question field of an upload is not checked to be a list: when
    it decodes to a value that cannot be iterated (a number, a boolean,
    null), the request fails with status 500, late: the temporary file has
    been written (the write is taken to go through), the document
    extracted, and the file removed again; the model is not called. *)
Theorem upload_questions_not_iterable (file : UploadFile)
    (form_questions : string) (v : pyvalue) (msg text : string) (w : World) :
  json_loads form_questions = inr v ->
  py_iter v = inl msg ->
  file_ext_of file ∈ allowed_extensions ->
  tempfile_outcome (fs w) (file_ext_of file) (file_content file) =
  TmpWritten ->
  extraction_outcome (file_ext_of file) (file_content file) = inr text ->
  exists w',
    process_file_upload file form_questions w =
    (inl (HTTPException 500 ("Error processing with AI: " +:+ msg)), w') /\
    fs w' = fs_after w (file_ext_of file) (file_content file) /\
    new_events w w' =
    [EvTempCreate (temp_name w (file_ext_of file));
     extraction_event (file_ext_of file) (temp_name w (file_ext_of file));
     EvUnlink (temp_name w (file_ext_of file))].
Proof.
  intros Hjson Hiter Hext Htmp Hout.
  destruct (process_file_upload_run file form_questions w)
    as (r & w' & t & Hr & Htr & Hshape).
  exists w'. rewrite (new_events_app _ _ _ Htr).
  inversion Hshape; subst; try congruence; try contradiction;
    assert (v0 = v) by congruence; subst v0; try congruence.
  assert (msg0 = msg) by congruence. subst msg0. auto.
Qed.

(** X10. When the question field of an upload decodes to a JSON string,
    the handler iterates over its characters: a successful request asks
    the model one question per character and returns as many answers as the
    string has characters. *)
Theorem upload_string_is_read_as_characters (file : UploadFile)
    (form_questions s : string) (w w' : World) (resp : FileUploadResponse) :
  json_loads form_questions = inr (PyStr s) ->
  process_file_upload file form_questions w = (inr resp, w') ->
  length (upload_answers resp) = String.length s /\
  total_questions (upload_metadata resp) = len s /\
  exists text,
    answers_match (llm_state w) text
      (map (fun c => PyStr (String c EmptyString)) (list_ascii_of_string s))
      (upload_answers resp).
Proof.
  intros Hjson Hrun.
  apply process_file_upload_success in Hrun
    as (v & text & qs & rs & Hjson' & _ & _ & Hiter & Hrs & ->).
  assert (v = PyStr s) by congruence. subst v.
  simpl in Hiter. injection Hiter as <-.
  pose proof (answers_match_replies _ _ _ _ Hrs) as Hmatch.
  assert (Hchars : length (list_ascii_of_string s) = String.length s).
  { clear. induction s as [|c s IH]; simpl; [reflexivity | now rewrite IH]. }
  split; [destruct Hmatch as [Hlen _]; simpl; now rewrite Hlen, length_map|].
  split; [simpl; unfold len; now rewrite length_map, Hchars|].
  exists text. exact Hmatch.
Qed.

(** X11. The handlers answer with status 200, 400 or 500 and nothing
    else.  The URL handler answers 400 exactly when the download fails or
    the downloaded bytes cannot be stored in the temporary file.  The
    upload handler answers 400 exactly when [json.loads] raises
    [JSONDecodeError] on the question field, or decodes it and the
    extension is not allowed, and then it has made no external call and
    has left the filesystem alone; when [json.loads] raises anything else
    the answer is 500 whatever the extension. *)
Theorem status_classes_complete :
  (forall (request : QueryRequest) (w : World),
     let r := fst (process_document_url request w) in
     (status_of r = 200 \/ status_of r = 400 \/ status_of r = 500) /\
     (status_of r = 400 <->
      (exists msg, requests_get (documents request) = inl msg) \/
      (exists content,
         requests_get (documents request) = inr content /\
         tempfile_outcome (fs w) ".pdf" content <> TmpWritten))) /\
  (forall (file : UploadFile) (form_questions : string) (w : World),
     let r := fst (process_file_upload file form_questions w) in
     let w' := snd (process_file_upload file form_questions w) in
     (status_of r = 200 \/ status_of r = 400 \/ status_of r = 500) /\
     (status_of r = 400 <->
      (exists msg, json_loads form_questions = inl (NotJson msg)) \/
      ((exists v, json_loads form_questions = inr v) /\
       file_ext_of file ∉ allowed_extensions)) /\
     (status_of r = 400 -> new_events w w' = [] /\ fs w' = fs w) /\
     (forall msg, json_loads form_questions = inl (LoadsRaised msg) ->
        status_of r = 500 /\ w' = w)).
Proof.
  assert (Herr : forall ext msg, status_of (A := FileUploadResponse)
                                   (inl (extraction_error ext msg)) = 500).
  { intros ext msg. unfold extraction_error. now destruct (String.eqb _ _). }
  split.
  - intros request w.
    destruct (process_document_url_run request w) as (r & w' & t & Hr & _ & Hshape).
    rewrite Hr. simpl fst. cbv zeta.
    inversion Hshape; subst; simpl; (split; [auto|]); split;
      try (intros Hs; discriminate Hs).
    + eauto.
    + intros _. reflexivity.
    + intros _. right. exists content. split; [assumption|]. congruence.
    + intros _. reflexivity.
    + intros _. right. exists content. split; [assumption|]. congruence.
    + intros _. reflexivity.
    + intros [[m Hm]|(c & Hc & Hne)]; [congruence|].
      assert (c = content) by congruence. subst c. contradiction.
    + intros [[m Hm]|(c & Hc & Hne)]; [congruence|].
      assert (c = content) by congruence. subst c. contradiction.
    + intros [[m Hm]|(c & Hc & Hne)]; [congruence|].
      assert (c = content) by congruence. subst c. contradiction.
  - intros file form_questions w.
    pose proof (process_file_upload_loads_failure file form_questions) as Hloads.
    destruct (process_file_upload_run file form_questions w)
      as (r & w' & t & Hr & Htr & Hshape).
    rewrite Hr. simpl fst. simpl snd. cbv zeta.
    rewrite (new_events_app _ _ _ Htr).
    assert (Hraised : forall msg,
               json_loads form_questions = inl (LoadsRaised msg) ->
               status_of r = 500 /\ w' = w).
    { intros msg Hjson. specialize (Hloads _ w Hjson).
      rewrite Hr in Hloads. injection Hloads as -> ->. split; reflexivity. }
    inversion Hshape; subst; rewrite ?Herr; simpl;
      (split; [auto|]); (split; [split|]);
      (split || idtac); try exact Hraised;
      try (intros Hs; discriminate Hs); eauto;
      try (intros [[m Hm]|[[u Hu] Hbad]];
           [congruence | first [congruence | contradiction]]);
      try (intros m Hm; congruence).
Qed.

(** X12. A PDF gives the same outcome through either endpoint: when the
    upload has the extension .pdf and the bytes that the URL serves, the
    question field decodes to the questions of the URL request, the
    model service is in the same state, and both requests get their
    temporary file written, then both handlers fail with the same error
    or both return the same answers, question count and text length. *)
Theorem endpoints_agree_on_pdf (request : QueryRequest) (file : UploadFile)
    (form_questions : string) (w1 w2 : World) :
  requests_get (documents request) = inr (file_content file) ->
  file_ext_of file = ".pdf" ->
  json_loads form_questions = inr (PyList (map PyStr (questions request))) ->
  llm_state w1 = llm_state w2 ->
  tempfile_outcome (fs w1) ".pdf" (file_content file) = TmpWritten ->
  tempfile_outcome (fs w2) ".pdf" (file_content file) = TmpWritten ->
  same_outcome (fst (process_document_url request w1))
    (fst (process_file_upload file form_questions w2)).
Proof.
  intros Hget Hext Hjson Hstate Htmp1 Htmp2.
  assert (Hallowed : file_ext_of file ∈ allowed_extensions).
  { rewrite Hext. unfold allowed_extensions. apply elem_of_cons. now left. }
  rewrite <- Hext in Htmp2.
  assert (Hout : extraction_outcome (file_ext_of file) (file_content file) =
                 pdf_outcome (file_content file)).
  { unfold extraction_outcome. now rewrite Hext. }
  destruct (pdf_outcome (file_content file)) as [msg|text] eqn:Hpdf.
  - destruct (process_document_url_extraction_failure request _ msg w1 Hget
                Htmp1 Hpdf) as (w1' & -> & _).
    destruct (process_file_upload_extraction_failure file form_questions _ msg
                w2 Hjson Hallowed Htmp2 Hout) as (w2' & -> & _).
    simpl. unfold extraction_error. now rewrite Hext.
  - destruct (replies_dichotomy (llm_state w1)
                (map (prompt text) (map PyStr (questions request))))
      as [[rs Hrs]|(k & rs & msg & Hff)].
    + destruct (process_document_url_answered request _ text rs w1 Hget Htmp1
                  Hpdf Hrs) as (w1' & -> & _).
      rewrite Hstate in Hrs.
      destruct (process_file_upload_answered file form_questions _ text _ rs w2
                  Hjson Hallowed Htmp2 Hout eq_refl Hrs) as (w2' & -> & _).
      simpl. rewrite length_map. auto.
    + destruct (process_document_url_model_failure request _ text k rs msg w1
                  Hget Htmp1 Hpdf Hff) as (w1' & -> & _).
      rewrite Hstate in Hff.
      destruct (process_file_upload_model_failure file form_questions _ text _
                  k rs msg w2 Hjson Hallowed Htmp2 Hout eq_refl Hff)
        as (w2' & -> & _).
      reflexivity.
Qed.


End StatusFacts.

Lemma upload_questions_not_iterable_witness :
  exists w',
    process_file_upload (E := Lab.world) Lab.two_pages_upload "42"
      (Lab.start Lab.script_two) =
    (inl (HTTPException 500
            "Error processing with AI: 'int' object is not iterable"), w') /\
    fs w' = ∅ /\
    new_events (Lab.start Lab.script_two) w' =
    [EvTempCreate "/tmp/tmpa1b2c3.pdf"; EvPdfReader "/tmp/tmpa1b2c3.pdf";
     EvUnlink "/tmp/tmpa1b2c3.pdf"].
Proof.
  destruct (upload_questions_not_iterable (E := Lab.world) Lab.two_pages_upload
              "42" (PyInt 42) "'int' object is not iterable"
              ("Page one." +:+ PyStr.nl +:+ "Page two." +:+ PyStr.nl)
              (Lab.start Lab.script_two)
              ltac:(by_computation) ltac:(by_computation)
              ltac:(by_computation) ltac:(by_computation)
              ltac:(by_computation))
    as (w' & Hrun & Hfs & Hev).
  exists w'. split; [exact Hrun|]. split; [|exact Hev].
  rewrite Hfs. vm_compute. reflexivity.
Defined.

Lemma upload_string_is_read_as_characters_witness :
  exists resp w',
    process_file_upload (E := Lab.world) Lab.two_pages_upload
      (Lab.json_string "ab") (Lab.start Lab.script_two) = (inr resp, w') /\
    length (upload_answers resp) = 2%nat /\
    total_questions (upload_metadata resp) = 2.
Proof.
  assert (Hrun : exists resp w',
             process_file_upload (E := Lab.world) Lab.two_pages_upload
               (Lab.json_string "ab") (Lab.start Lab.script_two) =
             (inr resp, w')).
  { eexists _, _. vm_compute. reflexivity. }
  destruct Hrun as (resp & w' & Hrun). exists resp, w'.
  split; [exact Hrun|].
  destruct (upload_string_is_read_as_characters (E := Lab.world)
              Lab.two_pages_upload (Lab.json_string "ab") "ab"
              (Lab.start Lab.script_two) w' resp) as (Hlen & Htotal & _).
  - vm_compute. reflexivity.
  - exact Hrun.
  - split; [exact Hlen | exact Htotal].
Defined.

Lemma status_classes_complete_witness :
  status_of (fst (process_document_url (E := Demo.world)
                    (Demo.url_request "https://example.com/missing.pdf"
                       [Demo.question1])
                    (Demo.start Demo.script_ok))) = 400 /\
  status_of (fst (process_document_url (E := Lab.world) Lab.huge_request
                    (Lab.start Lab.script_two))) = 400 /\
  new_events (Demo.start Demo.script_ok)
    (snd (process_file_upload (E := Demo.world) Demo.exe_upload
            (Demo.json_list [Demo.question1]) (Demo.start Demo.script_ok))) = [] /\
  status_of (fst (process_file_upload (E := Lab.world) Demo.exe_upload
                    Lab.too_many_digits (Lab.start Lab.script_two))) = 500.
Proof.
  split; [|split; [|split]].
  - apply (proj2 (proj1 (status_classes_complete (E := Demo.world))
                    (Demo.url_request "https://example.com/missing.pdf"
                       [Demo.question1])
                    (Demo.start Demo.script_ok))).
    left. exists "404 Client Error: Not Found". reflexivity.
  - apply (proj2 (proj1 (status_classes_complete (E := Lab.world))
                    Lab.huge_request (Lab.start Lab.script_two))).
    right. exists "%PDF larger than the disk".
    split; [reflexivity|]. vm_compute. discriminate.
  - apply (proj1 (proj2 (proj2 (proj2 (status_classes_complete (E := Demo.world))
                                  Demo.exe_upload
                                  (Demo.json_list [Demo.question1])
                                  (Demo.start Demo.script_ok))))).
    vm_compute. reflexivity.
  - apply (proj2 (proj2 (proj2 (proj2 (status_classes_complete (E := Lab.world))
                                  Demo.exe_upload Lab.too_many_digits
                                  (Lab.start Lab.script_two))))
             Lab.loads_digit_limit).
    by_computation.
Defined.


Lemma endpoints_agree_on_pdf_witness :
  same_outcome
    (fst (process_document_url (E := Lab.world) Lab.two_pages_request
            (Lab.start Lab.script_two)))
    (fst (process_file_upload (E := Lab.world) Lab.two_pages_upload
            (Demo.json_list Lab.two_questions)
            (Lab.stocked Lab.script_two))).
Proof.
  apply (endpoints_agree_on_pdf (E := Lab.world)); vm_compute; reflexivity.
Defined.

(** ** Paths: [rfind], slices, [splitext] and [basename] *)

Section PathFacts.
Import PyStr OsPath.

Lemma string_length_append (a b : string) :
  String.length (a +:+ b) = (String.length a + String.length b)%nat.
Proof.
  induction a as [|c a IH]; [reflexivity|].
  rewrite append_cons. simpl. now rewrite IH.
Qed.

Lemma substring_skip (a b : string) (n : nat) :
  String.substring (String.length a) n (a +:+ b) = String.substring 0 n b.
Proof.
  induction a as [|c a IH]; [reflexivity|].
  rewrite append_cons. simpl. exact IH.
Qed.

Lemma substring_0_append (a b : string) :
  String.substring 0 (String.length a) (a +:+ b) = a.
Proof.
  induction a as [|c a IH]; [now destruct b|].
  rewrite append_cons. simpl. now rewrite IH.
Qed.

Lemma adjust_index_in_range (n d i : Z) :
  0 <= i <= n -> adjust_index n d (Some i) = i.
Proof.
  intros Hi. unfold adjust_index.
  destruct (Z.ltb_spec i 0) as [?|_]; [lia|].
  destruct (Z.ltb_spec i 0) as [?|_]; [lia|].
  destruct (Z.leb_spec n i) as [?|_]; lia.
Qed.

Lemma slice_to_append (a b : string) :
  slice None (Some (len a)) (a +:+ b) = a.
Proof.
  unfold slice. rewrite adjust_index_in_range
    by (rewrite len_append; pose proof (len_nonneg a); pose proof (len_nonneg b); lia).
  simpl adjust_index. rewrite Z.sub_0_r. unfold len. rewrite Nat2Z.id.
  apply substring_0_append.
Qed.

Lemma slice_from_append (a b : string) :
  slice (Some (len a)) None (a +:+ b) = b.
Proof.
  unfold slice. rewrite adjust_index_in_range
    by (rewrite len_append; pose proof (len_nonneg a); pose proof (len_nonneg b); lia).
  simpl adjust_index. rewrite len_append.
  replace (len a + len b - len a) with (len b) by lia.
  unfold len. rewrite !Nat2Z.id, substring_skip.
  apply substring_0_all. lia.
Qed.

Lemma slice_to_0 (p : string) : slice None (Some 0) p = EmptyString.
Proof.
  unfold slice. rewrite adjust_index_in_range by (pose proof (len_nonneg p); lia).
  simpl. now destruct p.
Qed.

Lemma slice_char (a : string) (c : ascii) (b : string) :
  slice (Some (len a)) (Some (len a + 1)) (a +:+ String c b) =
  String c EmptyString.
Proof.
  assert (Hlen : len (a +:+ String c b) = len a + 1 + len b).
  { rewrite len_append. unfold len. simpl String.length. lia. }
  pose proof (len_nonneg a). pose proof (len_nonneg b).
  unfold slice. rewrite !adjust_index_in_range by lia.
  replace (len a + 1 - len a) with 1 by lia.
  unfold len. rewrite Nat2Z.id, substring_skip.
  change (Z.to_nat 1) with 1%nat. simpl. now destruct b.
Qed.

Lemma has_char_append (c : ascii) (a b : string) :
  has_char c (a +:+ b) = has_char c a || has_char c b.
Proof.
  induction a as [|x a IH]; [reflexivity|].
  rewrite append_cons. simpl. now rewrite IH, orb_assoc.
Qed.

Lemma rfind_from_absent (c : ascii) (s : string) (i : Z) :
  has_char c s = false -> rfind_from c s i = -1.
Proof.
  revert i. induction s as [|a s IH]; intros i Hs; [reflexivity|].
  simpl in Hs. apply orb_false_iff in Hs as [Ha Hs].
  simpl. rewrite (IH (i + 1) Hs), Ha. reflexivity.
Qed.

Lemma rfind_from_last (c : ascii) (a b : string) (i : Z) :
  0 <= i -> has_char c b = false ->
  rfind_from c (a +:+ String c b) i = i + len a.
Proof.
  revert i. induction a as [|x a IH]; intros i Hi Hb.
  - simpl. rewrite (rfind_from_absent c b (i + 1) Hb), Ascii.eqb_refl.
    change (len EmptyString) with 0. simpl. lia.
  - rewrite append_cons. simpl. rewrite (IH (i + 1)) by (auto; lia).
    pose proof (len_nonneg a).
    destruct (Z.leb_spec 0 (i + 1 + len a)) as [_|?]; [|lia].
    unfold len. simpl String.length. lia.
Qed.

Lemma rfind_from_ignores_tail (c : ascii) (a b : string) (i : Z) :
  has_char c b = false -> rfind_from c (a +:+ b) i = rfind_from c a i.
Proof.
  revert i. induction a as [|x a IH]; intros i Hb.
  - simpl. now apply rfind_from_absent.
  - rewrite append_cons. simpl. now rewrite IH.
Qed.

Lemma rfind_from_bound (c : ascii) (s : string) (i : Z) :
  0 <= i -> rfind_from c s i < i + len s \/ s = EmptyString.
Proof.
  revert i. induction s as [|a s IH]; intros i Hi; [now right|].
  left. simpl. unfold len. simpl String.length.
  destruct (IH (i + 1)) as [Hlt| ->]; [lia| |].
  - unfold len in Hlt.
    destruct (Z.leb_spec 0 (rfind_from c s (i + 1))); [lia|].
    destruct (Ascii.eqb a c); lia.
  - simpl. destruct (Ascii.eqb a c); lia.
Qed.

Lemma rfind_sep (dir name : string) :
  is_dir_part dir -> has_char "/" name = false ->
  rfind (dir +:+ name) "/" = len dir - 1.
Proof.
  intros [->|[d ->]] Hname; unfold rfind.
  - simpl. now rewrite rfind_from_absent.
  - rewrite append_assoc. change ("/" +:+ name) with (String "/" name).
    rewrite rfind_from_last by (auto; lia).
    rewrite len_append. change (len "/") with 1. lia.
Qed.

Lemma skip_leading_dots_spec (stem : string) :
  forall (pre rest : string) (dotIndex : Z),
    skip_leading_dots (pre +:+ stem +:+ rest) dotIndex (String.length stem)
      (len pre) =
    if only_dots stem
    then (pre +:+ stem +:+ rest, EmptyString)
    else (slice None (Some dotIndex) (pre +:+ stem +:+ rest),
          slice (Some dotIndex) None (pre +:+ stem +:+ rest)).
Proof.
  induction stem as [|a stem IH]; intros pre rest dotIndex.
  - simpl. now rewrite slice_to_0.
  - cbn [skip_leading_dots String.length]. rewrite append_cons, slice_char.
    change (String.eqb (String a EmptyString) ".")
      with (Ascii.eqb a "." && true).
    change (only_dots (String a stem)) with (Ascii.eqb a "." && only_dots stem).
    rewrite andb_true_r.
    destruct (Ascii.eqb a ".") eqn:Ha; cbn [negb andb]; [|reflexivity].
    apply Ascii.eqb_eq in Ha. subst a.
    specialize (IH (pre +:+ ".") rest dotIndex).
    rewrite len_append in IH. change (len ".") with 1 in IH.
    rewrite append_assoc in IH. exact IH.
Qed.

(** [splitext] of a path whose last component has a dot. *)
Lemma splitext_dotted (dir stem suffix : string) :
  is_dir_part dir ->
  has_char "/" stem = false -> has_char "/" suffix = false ->
  has_char "." suffix = false ->
  splitext (dir +:+ stem +:+ String "." suffix) =
  if only_dots stem
  then (dir +:+ stem +:+ String "." suffix, EmptyString)
  else (dir +:+ stem, String "." suffix).
Proof.
  intros Hdir Hstem Hsuffix Hdot. unfold splitext.
  assert (Hname : has_char "/" (stem +:+ String "." suffix) = false).
  { rewrite has_char_append, Hstem. simpl. exact Hsuffix. }
  rewrite (rfind_sep dir _ Hdir Hname).
  assert (Hdotidx : rfind (dir +:+ stem +:+ String "." suffix) "." =
                    len dir + len stem).
  { unfold rfind. rewrite <- append_assoc.
    rewrite rfind_from_last by (auto; lia). rewrite len_append. lia. }
  rewrite Hdotidx.
  pose proof (len_nonneg dir). pose proof (len_nonneg stem).
  destruct (Z.ltb_spec (len dir - 1) (len dir + len stem)) as [_|?]; [|lia].
  replace (len dir - 1 + 1) with (len dir) by lia.
  replace (Z.to_nat (len dir + len stem - len dir)) with (String.length stem)
    by (unfold len; lia).
  rewrite skip_leading_dots_spec.
  destruct (only_dots stem); [reflexivity|].
  rewrite <- len_append, <- append_assoc.
  now rewrite slice_to_append, slice_from_append.
Qed.

(** [splitext] of a path whose last component has no dot. *)
Lemma splitext_dotless (dir name : string) :
  is_dir_part dir ->
  has_char "/" name = false -> has_char "." name = false ->
  splitext (dir +:+ name) = (dir +:+ name, EmptyString).
Proof.
  intros Hdir Hname Hdot. unfold splitext.
  rewrite (rfind_sep dir name Hdir Hname).
  assert (Hlt : rfind (dir +:+ name) "." <= len dir - 1).
  { unfold rfind. rewrite rfind_from_ignores_tail by exact Hdot.
    destruct Hdir as [->|[d ->]]; [reflexivity|].
    rewrite rfind_from_ignores_tail by reflexivity.
    rewrite len_append. change (len "/") with 1.
    destruct (rfind_from_bound "." d 0) as [Hb| ->]; [lia|lia|].
    simpl. change (len EmptyString) with 0. lia. }
  destruct (Z.ltb_spec (len dir - 1) (rfind (dir +:+ name) ".")) as [?|_]; [lia|].
  now rewrite slice_to_0.
Qed.





End PathFacts.

(** ** The extension gate of the upload handler, name by name *)

Section GateFacts.
Context {E : External}.
Import PyStr OsPath.

Lemma empty_not_allowed : EmptyString ∉ allowed_extensions.
Proof.
  unfold allowed_extensions. rewrite !elem_of_cons, elem_of_nil.
  intros [H|[H|[H|[]]]]; discriminate.
Qed.

Lemma process_file_upload_rejects_extension (file : UploadFile)
    (form_questions : string) (v : pyvalue) (w : World) :
  json_loads form_questions = inr v ->
  file_ext_of file ∉ allowed_extensions ->
  process_file_upload file form_questions w =
  (inl (HTTPException 400 ("Unsupported file type: " +:+ file_ext_of file)), w).
Proof.
  intros Hjson Hext. unfold process_file_upload, try_except. cbv zeta.
  fold (file_ext_of file). unfold bind at 1. rewrite Hjson.
  unfold ret at 1. unfold bind at 1.
  rewrite bool_decide_eq_false_2 by exact Hext. reflexivity.
Qed.

(** X14. The gate of the upload handler reads the text after the last dot
    of the last component of the file name, lowercased, and nothing else.
    A name [stem.suffix] passes exactly when the stem is not made of dots
    only and [.suffix] is .pdf, .doc or .docx up to letter case: of two
    extensions only the last counts, and a name such as [.pdf], with nothing
    but dots in front of its last dot, has no extension at all.  A name that
    does not pass is answered 400 with the extension found in the detail. *)
Theorem gate_reads_last_extension (file : UploadFile)
    (dir stem suffix : string) (form_questions : string) (v : pyvalue)
    (w : World) :
  filename file = dir +:+ stem +:+ String "." suffix ->
  is_dir_part dir ->
  has_char "/" stem = false -> has_char "/" suffix = false ->
  has_char "." suffix = false ->
  json_loads form_questions = inr v ->
  file_ext_of file =
    (if only_dots stem then EmptyString else lower (String "." suffix)) /\
  (file_ext_of file ∈ allowed_extensions <->
   only_dots stem = false /\ lower (String "." suffix) ∈ allowed_extensions) /\
  (file_ext_of file ∉ allowed_extensions ->
   process_file_upload file form_questions w =
   (inl (HTTPException 400 ("Unsupported file type: " +:+ file_ext_of file)),
    w)).
Proof.
  intros Hname Hdir Hstem Hsuffix Hdot Hjson.
  assert (Hext : file_ext_of file =
                 if only_dots stem then EmptyString
                 else lower (String "." suffix)).
  { unfold file_ext_of.
    rewrite Hname, (splitext_dotted dir stem suffix Hdir Hstem Hsuffix Hdot).
    now destruct (only_dots stem). }
  split; [exact Hext|]. split.
  - rewrite Hext. destruct (only_dots stem).
    + split; [intros Hin; now apply empty_not_allowed in Hin|].
      intros [Hf _]. discriminate.
    + split; [intros Hin; now split | intros [_ Hin]; exact Hin].
  - now apply process_file_upload_rejects_extension with v.
Qed.

(** X15. A file name without any dot in its last component has the empty
    extension and never passes the gate. *)
Theorem name_without_dot_is_rejected (file : UploadFile) (dir name : string)
    (form_questions : string) (v : pyvalue) (w : World) :
  filename file = dir +:+ name ->
  is_dir_part dir ->
  has_char "/" name = false -> has_char "." name = false ->
  json_loads form_questions = inr v ->
  file_ext_of file = EmptyString /\
  process_file_upload file form_questions w =
  (inl (HTTPException 400 "Unsupported file type: "), w).
Proof.
  intros Hname Hdir Hslash Hdot Hjson.
  assert (Hext : file_ext_of file = EmptyString).
  { unfold file_ext_of.
    now rewrite Hname, (splitext_dotless dir name Hdir Hslash Hdot). }
  split; [exact Hext|].
  rewrite (process_file_upload_rejects_extension file form_questions v w Hjson)
    by (rewrite Hext; apply empty_not_allowed).
  now rewrite Hext.
Qed.

End GateFacts.

Lemma gate_reads_last_extension_witness :
  file_ext_of {| filename := "uploads/report.exe.PDF"; file_content := "x" |}
  = ".pdf" /\
  (file_ext_of {| filename := "report.pdf.exe"; file_content := "x" |}
   ∉ allowed_extensions) /\
  process_file_upload (E := Lab.world)
    {| filename := "..pdf"; file_content := "x" |} "[]" (Lab.start []) =
  (inl (HTTPException 400 "Unsupported file type: "), Lab.start []).
Proof.
  split; [|split].
  - refine (proj1 (gate_reads_last_extension (E := Lab.world)
                     {| filename := "uploads/report.exe.PDF"; file_content := "x" |}
                     "uploads/" "report.exe" "PDF" "[]" (PyList [])
                     (Lab.start []) _ _ _ _ _ _));
      try reflexivity.
    right. now exists "uploads".
  - intros Hin.
    apply (proj1 (proj1 (proj2 (gate_reads_last_extension (E := Lab.world)
                     {| filename := "report.pdf.exe"; file_content := "x" |}
                     EmptyString "report.pdf" "exe" "[]" (PyList [])
                     (Lab.start []) eq_refl (or_introl eq_refl) eq_refl
                     eq_refl eq_refl eq_refl)))) in Hin.
    destruct Hin as [_ Hin].
    change (PyStr.lower (String "." "exe")) with ".exe" in Hin.
    unfold allowed_extensions in Hin.
    rewrite !elem_of_cons, elem_of_nil in Hin.
    destruct Hin as [H|[H|[H|[]]]]; discriminate.
  - refine (proj2 (proj2 (gate_reads_last_extension (E := Lab.world)
                     {| filename := "..pdf"; file_content := "x" |}
                     EmptyString "." "pdf" "[]" (PyList [])
                     (Lab.start []) eq_refl (or_introl eq_refl) eq_refl
                     eq_refl eq_refl eq_refl)) _).
    exact empty_not_allowed.
Defined.

Lemma name_without_dot_is_rejected_witness :
  process_file_upload (E := Lab.world)
    {| filename := "v1.2/README"; file_content := "x" |} "[]" (Lab.start []) =
  (inl (HTTPException 400 "Unsupported file type: "), Lab.start []).
Proof.
  refine (proj2 (name_without_dot_is_rejected (E := Lab.world)
                   {| filename := "v1.2/README"; file_content := "x" |}
                   "v1.2/" "README" "[]" (PyList []) (Lab.start [])
                   eq_refl _ eq_refl eq_refl eq_refl)).
  right. now exists "v1.2".
Defined.

(** ** The client and the server's gate *)

Section ClientFacts.
Context {E : External} {Rm : HackRXClient.Remote}.
Import PyStr OsPath HackRXClient.

Lemma endswith_append (pre suffix : string) :
  endswith (pre +:+ suffix) suffix = true.
Proof.
  unfold endswith. rewrite len_append.
  pose proof (len_nonneg pre). pose proof (len_nonneg suffix).
  replace (len pre + len suffix - len suffix) with (len pre) by lia.
  rewrite slice_from_append, String.eqb_refl.
  destruct (Z.leb_spec (len suffix) (len pre + len suffix)); [reflexivity|lia].
Qed.

Lemma substring_split (s : string) :
  forall k : nat,
    (k <= String.length s)%nat ->
    s = String.substring 0 k s +:+ String.substring k (String.length s - k) s.
Proof.
  induction s as [|c s IH]; intros [|k] Hk; simpl in Hk; try lia.
  - reflexivity.
  - simpl. now rewrite substring_0_all by lia.
  - simpl. rewrite append_cons. f_equal. apply IH. lia.
Qed.

Lemma endswith_inv (s suffix : string) :
  endswith s suffix = true -> exists pre, s = pre +:+ suffix.
Proof.
  unfold endswith. intros Hend. apply andb_true_iff in Hend as [Hlen Heq].
  apply Z.leb_le in Hlen. apply String.eqb_eq in Heq.
  pose proof (len_nonneg suffix).
  unfold slice in Heq. rewrite adjust_index_in_range in Heq by lia.
  simpl adjust_index in Heq.
  exists (String.substring 0 (Z.to_nat (len s - len suffix)) s).
  rewrite <- Heq at 2.
  replace (Z.to_nat (len s - (len s - len suffix)))
    with (String.length s - Z.to_nat (len s - len suffix))%nat
    by (unfold len in *; lia).
  apply substring_split. unfold len in *. lia.
Qed.

Lemma lower_nil : lower EmptyString = EmptyString.
Proof. reflexivity. Qed.

(** X16. The names that the batch example picks from a directory listing
    are those that end with .pdf, .doc or .docx in lower case.  The server
    accepts the upload of a picked name exactly when something other than
    dots stands in front of that ending: a file called [.pdf] or [..docx]
    is picked by the client and turned away by the server. *)
Theorem picked_documents_and_the_gate (file_name content : string) :
  has_char "/" file_name = false ->
  is_document_name file_name = true ->
  exists stem ending,
    file_name = stem +:+ ending /\
    ending ∈ allowed_extensions /\
    (file_ext_of {| filename := file_name; file_content := content |}
     ∈ allowed_extensions <-> only_dots stem = false) /\
    (only_dots stem = false ->
     file_ext_of {| filename := file_name; file_content := content |} = ending).
Proof.
  intros Hslash Hpicked. unfold is_document_name in Hpicked.
  apply existsb_exists in Hpicked as (ending & Hin & Hend).
  apply endswith_inv in Hend as (stem & ->).
  rewrite has_char_append in Hslash.
  apply orb_false_iff in Hslash as [Hstem Hending].
  assert (Hshape : exists suffix,
             ending = String "." suffix /\ has_char "." suffix = false /\
             lower ending = ending /\ ending ∈ allowed_extensions).
  { unfold allowed_extensions. simpl in Hin.
    destruct Hin as [<-|[<-|[<-|[]]]]; eexists; repeat split;
      rewrite !elem_of_cons; auto. }
  destruct Hshape as (suffix & -> & Hdot & Hlower & Hallowed).
  exists stem, (String "." suffix). split; [reflexivity|]. split; [exact Hallowed|].
  assert (Hext : file_ext_of {| filename := stem +:+ String "." suffix;
                                file_content := content |} =
                 if only_dots stem then EmptyString else String "." suffix).
  { unfold file_ext_of. simpl filename.
    pose proof (splitext_dotted EmptyString stem suffix (or_introl eq_refl)
                  Hstem Hending Hdot) as Hsplit.
    change (EmptyString +:+ stem +:+ String "." suffix)
      with (stem +:+ String "." suffix) in Hsplit.
    rewrite Hsplit. destruct (only_dots stem); [reflexivity | exact Hlower]. }
  rewrite Hext. destruct (only_dots stem).
  - split; [|discriminate].
    split; [intros Hin'; now apply empty_not_allowed in Hin' | discriminate].
  - split; [split; auto | reflexivity].
Qed.



Lemma pick_documents_filter (listing files_to_process : list string) :
  pick_documents listing files_to_process =
  files_to_process ++ List.filter is_document_name listing.
Proof.
  revert files_to_process. induction listing as [|n listing IH]; intros acc.
  - simpl. now rewrite app_nil_r.
  - simpl. destruct (is_document_name n); rewrite IH; [|reflexivity].
    now rewrite <- app_assoc.
Qed.

Lemma process_batch_files (files qs : list string) :
  forall (results : list batch_result) (cw : ClientWorld),
    map result_file (fst (process_batch files qs results cw)) =
    map result_file results ++ files.
Proof.
  induction files as [|f files IH]; intros results cw.
  - simpl. now rewrite app_nil_r.
  - simpl. destruct (process_file f qs cw) as [[e|result] cw'].
    + rewrite IH, map_app. simpl. now rewrite <- app_assoc.
    + destruct (answers_of result); rewrite IH, map_app; simpl;
        now rewrite <- app_assoc.
Qed.

(** X18. The batch example records one result for every picked document,
    in the order of the listing, whether or not the upload of that document
    worked: a failure is recorded and the loop goes on.  It reports no
    documents exactly when the listing has no picked name, and the count of
    successes is at most the number of results. *)
Theorem batch_reports_every_file (listing : list string) (cw : ClientWorld) :
  match fst (batch_processing_example listing cw) with
  | NoDocuments => List.filter is_document_name listing = []
  | Summary results successful =>
      map result_file results = List.filter is_document_name listing /\
      results <> [] /\
      successful = length (List.filter result_success results) /\
      (successful <= length results)%nat
  end.
Proof.
  unfold batch_processing_example. cbv zeta.
  rewrite pick_documents_filter. simpl app.
  destruct (List.filter is_document_name listing) as [|f files] eqn:Hpicked;
    [reflexivity|].
  pose proof (process_batch_files (f :: files) batch_questions [] cw) as Hfiles.
  destruct (process_batch (f :: files) batch_questions [] cw) as [results cw'].
  simpl in Hfiles |- *. split; [exact Hfiles|]. split.
  - intros ->. discriminate.
  - split; [reflexivity | apply List.filter_length_le].
Qed.

End ClientFacts.

Lemma picked_documents_and_the_gate_witness :
  exists stem ending,
    ".pdf" = stem +:+ ending /\
    ending ∈ allowed_extensions /\
    (file_ext_of {| filename := ".pdf"; file_content := "x" |}
     ∈ allowed_extensions <-> only_dots stem = false) /\
    (only_dots stem = false ->
     file_ext_of {| filename := ".pdf"; file_content := "x" |} = ending).
Proof.
  apply (picked_documents_and_the_gate ".pdf" "x"); reflexivity.
Defined.

Example batch_on_a_listing :
  fst (HackRXClient.batch_processing_example (Rm := Lab.remote)
         ["policy.pdf"; "readme.txt"; "notes.docx"; "down.pdf"; "ghost.pdf"; "OLD.PDF"]
         Lab.client_start) =
  HackRXClient.Summary
    [HackRXClient.Processed "policy.pdf" (PyList [PyStr "An answer."]);
     HackRXClient.Failed "notes.docx" "400 Client Error: Bad Request";
     HackRXClient.Failed "down.pdf" "Connection refused";
     HackRXClient.Failed "ghost.pdf" "File not found: ghost.pdf"]
    1.
Proof. vm_compute. reflexivity. Qed.
